(** * Rental-room data-access layer ([lib/room-service.ts]): review-driven
      rating aggregation, owner checks and favorites

    The development is a shallow embedding of [src/lib/room-service.ts].
    - JavaScript numbers are IEEE-754 binary64 values, given by the Standard
      Library's executable specification [SpecFloat] at precision 53 and
      maximal exponent 1024.
    - The hosted document database is a record of three finite maps
      (collections [rooms], [reviews], [favorites]), keyed by document id.
    - Every [async] function of the source is a computation in a state and
      exception monad [IO] over a [World]: the ambient signed-in user, the
      three collections, the server clock behind [serverTimestamp()], and a
      schedule saying which of the coming remote calls the backend rejects,
      and with which error code.
    - [try { ... } catch (error) { console.error(...); throw error }], which
      wraps every exported function, re-throws the same error and is the
      identity on outcomes; logging is not modelled. *)

From Stdlib Require Import ZArith Lia.
From Stdlib Require Import Floats.SpecFloat.
From stdpp Require Import gmap strings list fin_maps sorting.

Local Open Scope Z_scope.

(** ** 1. JavaScript numbers *)

Module JS.

Definition prec : Z := 53.
Definition emax : Z := 1024.

(** The type [number]. *)
Definition number : Type := spec_float.

#[global] Instance number_eq_dec : EqDecision number.
Proof. solve_decision. Defined.

(** The literal [0]. *)
Definition zero : number := S754_zero false.

(** An integer literal, or an integer that reaches the code as a number. *)
Definition of_int (z : Z) : number := binary_normalize prec emax z 0 false.

(** [a + b], [a / b] and [a > b] on numbers. *)
Definition add (a b : number) : number := SFadd prec emax a b.
Definition div (a b : number) : number := SFdiv prec emax a b.
Definition gt (a b : number) : bool := SFltb b a.

(** The string that [x.toFixed(1)] returns, kept structured:
    - ["NaN"], ["Infinity"], ["-Infinity"] for a number that is not finite;
    - the digits of the integer [n], a point before the last one, and a
      leading ["-"] for a negative number;
    - the result of [ToString] when [|x| >= 10^21]. *)
Inductive fixed_string : Type :=
| StrNaN
| StrInfinity (negative : bool)
| StrDecimal (negative : bool) (n : Z)
| StrToString (x : number).

#[global] Instance fixed_string_eq_dec : EqDecision fixed_string.
Proof. solve_decision. Defined.

(** [m * 2^e >= 10^21], on the exact value. *)
Definition at_least_1e21 (m : positive) (e : Z) : bool :=
  match e with
  | Zneg k => 10 ^ 21 * 2 ^ Zpos k <=? Zpos m
  | _ => 10 ^ 21 <=? Zpos m * 2 ^ e
  end.

(** Number.prototype.toFixed, step 10.a with one fraction digit: "let n be
    an integer for which n / 10 - x is as close to zero as possible; if
    there are two such n, pick the larger n", on the exact value
    [x = m * 2^e] of the number. That integer is [floor (10 * x + 1/2)]. *)
Definition nearest_tenths (m : positive) (e : Z) : Z :=
  match e with
  | Zneg k => (20 * Zpos m + 2 ^ Zpos k) / 2 ^ (Zpos k + 1)
  | _ => 10 * (Zpos m * 2 ^ e)
  end.

(** [x.toFixed(1)]. Both zeros print as ["0.0"]: the sign test of step 8
    is on the real value. *)
Definition toFixed_1 (x : number) : fixed_string :=
  match x with
  | S754_nan => StrNaN
  | S754_infinity s => StrInfinity s
  | S754_zero _ => StrDecimal false 0
  | S754_finite s m e =>
      if at_least_1e21 m e then StrToString x
      else StrDecimal s (nearest_tenths m e)
  end.

(** The number nearest to the decimal [n / 10] (round to nearest, ties to
    even): the correctly rounded quotient of the two integers. *)
Definition of_tenths (negative : bool) (n : Z) : number :=
  match n with
  | Z0 => S754_zero negative
  | Zpos p => SFdiv prec emax (S754_finite negative p 0) (S754_finite false 10 0)
  | Zneg _ => S754_nan
  end.

(** [Number.parseFloat] on the strings that [toFixed] produces.
    [ToString] prints a number so that reading it back gives the same
    number. *)
Definition parseFloat (s : fixed_string) : number :=
  match s with
  | StrNaN => S754_nan
  | StrInfinity neg => S754_infinity neg
  | StrDecimal neg n => of_tenths neg n
  | StrToString x => x
  end.

End JS.

(** ** 2. Documents *)

Definition timestamp : Type := nat.

(** [User] of firebase/auth, with the two fields the service reads. *)
Record User : Type := { uid : string; displayName : option string }.

(** [interface RoomData]; a field marked [?] in the source is an option. *)
Module RoomData.
Record t : Type := {
  id : option string;
  title : string;
  rent : string;
  deposit : string;
  description : string;
  images : list string;
  location : string;
  amenities : list string;
  featured : option bool;
  rating : option JS.number;
  reviews : option JS.number;
  owner : option string;
  ownerName : option string;
  createdAt : option timestamp;
  updatedAt : option timestamp
}.
End RoomData.

(** [Partial<RoomData>]: [None] is an absent key. *)
Module PartialRoomData.
Record t : Type := {
  id : option string;
  title : option string;
  rent : option string;
  deposit : option string;
  description : option string;
  images : option (list string);
  location : option string;
  amenities : option (list string);
  featured : option bool;
  rating : option JS.number;
  reviews : option JS.number;
  owner : option string;
  ownerName : option string;
  createdAt : option timestamp;
  updatedAt : option timestamp
}.
End PartialRoomData.

(** The object literal that [addReview] writes. *)
Module Review.
Record t : Type := {
  userId : string;
  roomId : string;
  userName : string;
  rating : JS.number;
  comment : string;
  createdAt : timestamp;
  updatedAt : timestamp
}.
End Review.

(** The object literal that [addFavorite] writes. *)
Module Favorite.
Record t : Type := {
  userId : string;
  roomId : string;
  createdAt : timestamp
}.
End Favorite.

(** [a ?? b] on an absent key: the patch's value when the key is present. *)
Definition or_else {A : Type} (patch : option A) (old : A) : A :=
  match patch with Some v => v | None => old end.

(** What [updateDoc(roomRef, { ...roomData, updatedAt: serverTimestamp() })]
    leaves in the document: every key of [roomData] replaces the stored
    one, and [updatedAt] is the server's time. *)
Definition merge_room (p : PartialRoomData.t) (now : timestamp) (r : RoomData.t)
  : RoomData.t :=
  {| RoomData.id := match PartialRoomData.id p with Some v => Some v | None => RoomData.id r end;
     RoomData.title := or_else (PartialRoomData.title p) (RoomData.title r);
     RoomData.rent := or_else (PartialRoomData.rent p) (RoomData.rent r);
     RoomData.deposit := or_else (PartialRoomData.deposit p) (RoomData.deposit r);
     RoomData.description := or_else (PartialRoomData.description p) (RoomData.description r);
     RoomData.images := or_else (PartialRoomData.images p) (RoomData.images r);
     RoomData.location := or_else (PartialRoomData.location p) (RoomData.location r);
     RoomData.amenities := or_else (PartialRoomData.amenities p) (RoomData.amenities r);
     RoomData.featured := match PartialRoomData.featured p with Some v => Some v | None => RoomData.featured r end;
     RoomData.rating := match PartialRoomData.rating p with Some v => Some v | None => RoomData.rating r end;
     RoomData.reviews := match PartialRoomData.reviews p with Some v => Some v | None => RoomData.reviews r end;
     RoomData.owner := match PartialRoomData.owner p with Some v => Some v | None => RoomData.owner r end;
     RoomData.ownerName := match PartialRoomData.ownerName p with Some v => Some v | None => RoomData.ownerName r end;
     RoomData.createdAt := match PartialRoomData.createdAt p with Some v => Some v | None => RoomData.createdAt r end;
     RoomData.updatedAt := Some now |}.

(** What [updateDoc(roomRef, { rating, reviews, updatedAt: serverTimestamp() })]
    leaves in the document. *)
Definition set_summary (rating reviews : JS.number) (now : timestamp) (r : RoomData.t)
  : RoomData.t :=
  {| RoomData.id := RoomData.id r;
     RoomData.title := RoomData.title r;
     RoomData.rent := RoomData.rent r;
     RoomData.deposit := RoomData.deposit r;
     RoomData.description := RoomData.description r;
     RoomData.images := RoomData.images r;
     RoomData.location := RoomData.location r;
     RoomData.amenities := RoomData.amenities r;
     RoomData.featured := RoomData.featured r;
     RoomData.rating := Some rating;
     RoomData.reviews := Some reviews;
     RoomData.owner := RoomData.owner r;
     RoomData.ownerName := RoomData.ownerName r;
     RoomData.createdAt := RoomData.createdAt r;
     RoomData.updatedAt := Some now |}.

(** [{ id: roomSnap.id, ...roomSnap.data() }]: the spread comes last, so an
    [id] key stored in the document wins over the document's own id. *)
Definition with_id (docId : string) (r : RoomData.t) : RoomData.t :=
  {| RoomData.id := match RoomData.id r with Some v => Some v | None => Some docId end;
     RoomData.title := RoomData.title r;
     RoomData.rent := RoomData.rent r;
     RoomData.deposit := RoomData.deposit r;
     RoomData.description := RoomData.description r;
     RoomData.images := RoomData.images r;
     RoomData.location := RoomData.location r;
     RoomData.amenities := RoomData.amenities r;
     RoomData.featured := RoomData.featured r;
     RoomData.rating := RoomData.rating r;
     RoomData.reviews := RoomData.reviews r;
     RoomData.owner := RoomData.owner r;
     RoomData.ownerName := RoomData.ownerName r;
     RoomData.createdAt := RoomData.createdAt r;
     RoomData.updatedAt := RoomData.updatedAt r |}.

(** [{ id, ...roomData }], the value [updateRoom] returns. *)
Definition partial_with_id (docId : string) (p : PartialRoomData.t) : PartialRoomData.t :=
  {| PartialRoomData.id := match PartialRoomData.id p with Some v => Some v | None => Some docId end;
     PartialRoomData.title := PartialRoomData.title p;
     PartialRoomData.rent := PartialRoomData.rent p;
     PartialRoomData.deposit := PartialRoomData.deposit p;
     PartialRoomData.description := PartialRoomData.description p;
     PartialRoomData.images := PartialRoomData.images p;
     PartialRoomData.location := PartialRoomData.location p;
     PartialRoomData.amenities := PartialRoomData.amenities p;
     PartialRoomData.featured := PartialRoomData.featured p;
     PartialRoomData.rating := PartialRoomData.rating p;
     PartialRoomData.reviews := PartialRoomData.reviews p;
     PartialRoomData.owner := PartialRoomData.owner p;
     PartialRoomData.ownerName := PartialRoomData.ownerName p;
     PartialRoomData.createdAt := PartialRoomData.createdAt p;
     PartialRoomData.updatedAt := PartialRoomData.updatedAt p |}.

(** ** 3. The world: signed-in user, database, server clock, faults *)

Record World : Type := {
  currentUser : option User;                  (* auth.currentUser *)
  db_rooms : gmap string RoomData.t;          (* collection "rooms" *)
  db_reviews : gmap string Review.t;          (* collection "reviews" *)
  db_favorites : gmap string Favorite.t;      (* collection "favorites" *)
  clock : timestamp;                          (* the server's time *)
  faults : list (option string)               (* [Some code]: the next remote call is
                                                 rejected with that error code *)
}.

(** What a function throws: [new Error(message)] of the service itself, or
    the error with which the SDK rejects a remote call. *)
Inductive error : Type :=
| Error (message : string)
| FirestoreError (code : string).

#[global] Instance error_eq_dec : EqDecision error.
Proof. solve_decision. Defined.

Inductive outcome (A : Type) : Type :=
| Returned (a : A)
| Thrown (e : error).
Arguments Returned {A} a.
Arguments Thrown {A} e.

Definition IO (A : Type) : Type := World -> outcome A * World.

#[global] Instance IO_ret : MRet IO := fun A a w => (Returned a, w).

#[global] Instance IO_bind : MBind IO := fun A B k m w =>
  match m w with
  | (Returned a, w') => k a w'
  | (Thrown e, w') => (Thrown e, w')
  end.

Definition throw {A : Type} (e : error) : IO A := fun w => (Thrown e, w).

(** [try { body } catch (error) { handler }]. *)
Definition try_catch {A : Type} (body : IO A) (handler : error -> IO A) : IO A :=
  fun w =>
    match body w with
    | (Returned a, w') => (Returned a, w')
    | (Thrown e, w') => handler e w'
    end.

Definition gets {A : Type} (f : World -> A) : IO A := fun w => (Returned (f w), w).
Definition modify (f : World -> World) : IO unit := fun w => (Returned tt, f w).

(** [getCurrentUser()] of [lib/auth-service.ts]: [auth.currentUser]. *)
Definition getCurrentUser : IO (option User) := gets currentUser.

(** The world once the backend has taken the next entry of the schedule. *)
Definition drop_fault (w : World) : World :=
  {| currentUser := currentUser w; db_rooms := db_rooms w;
     db_reviews := db_reviews w; db_favorites := db_favorites w;
     clock := clock w; faults := tail (faults w) |}.

(** The start of every remote call: the backend takes the next entry of
    the schedule and rejects the call when it is [Some code]; an exhausted
    schedule rejects nothing. *)
Definition remote : IO unit :=
  fs ← gets faults;
  _ ← modify drop_fault;
  match fs with
  | Some code :: _ => throw (FirestoreError code)
  | _ => mret tt
  end.

(** A write changes one collection and lets the server's time advance. *)
Definition set_rooms (f : gmap string RoomData.t -> gmap string RoomData.t) (w : World) : World :=
  {| currentUser := currentUser w; db_rooms := f (db_rooms w);
     db_reviews := db_reviews w; db_favorites := db_favorites w;
     clock := S (clock w); faults := faults w |}.

Definition set_reviews (f : gmap string Review.t -> gmap string Review.t) (w : World) : World :=
  {| currentUser := currentUser w; db_rooms := db_rooms w;
     db_reviews := f (db_reviews w); db_favorites := db_favorites w;
     clock := S (clock w); faults := faults w |}.

(** The character ["/"], code 47. *)
Definition slash : Ascii.ascii := Ascii.Ascii true true true true false true false false.

(** The string contains the character ["/"]. *)
Fixpoint has_slash (s : string) : bool :=
  match s with
  | EmptyString => false
  | String c rest => if Ascii.eqb c slash then true else has_slash rest
  end.

(** The ids that name a document of a collection. The SDK's
    [doc(db, collection, id)] splits [id] at ["/"], ignores empty segments
    and throws "invalid-argument", before any remote call, when the
    reference does not have an even number of segments, as for [""] and
    ["a/b"]. For an id that is not empty and has no ["/"] the reference is
    [collection/id]. The calls below are the remote calls on the reference
    of such an id: the ids of stored documents are of this kind, and a
    statement about an id that need not name a stored document assumes
    [document_id]. *)
Definition document_id (id : string) : bool :=
  negb (String.eqb id "") && negb (has_slash id).

(** [getDoc(roomRef)], [roomRef] the reference of the document [rooms/id]:
    the snapshot, [None] when [exists()] is false. *)
Definition getDoc_room (docId : string) : IO (option RoomData.t) :=
  _ ← remote; gets (fun w => db_rooms w !! docId).

(** [updateDoc(roomRef, fields)], [roomRef] the reference of the document
    [rooms/id]; [fields] receives the value of [serverTimestamp()]. The
    backend rejects an update of a document that does not exist. *)
Definition updateDoc_room (docId : string) (fields : timestamp -> RoomData.t -> RoomData.t)
  : IO unit :=
  _ ← remote;
  snap ← gets (fun w => db_rooms w !! docId);
  match snap with
  | Some r => now ← gets clock; modify (set_rooms (insert docId (fields now r)))
  | None => throw (FirestoreError "not-found")
  end.

(** [deleteDoc(roomRef)], [roomRef] the reference of the document
    [rooms/id]. *)
Definition deleteDoc_room (docId : string) : IO unit :=
  _ ← remote; modify (set_rooms (delete docId)).

(** [setDoc(reviewRef, data)], [reviewRef] the reference of the document
    [reviews/id]: creates the document or replaces it as a whole. *)
Definition setDoc_review (docId : string) (data : timestamp -> Review.t) : IO unit :=
  _ ← remote; now ← gets clock; modify (set_reviews (insert docId (data now))).

(** [getDocs(query(collection(db, "reviews"), where("roomId", "==", roomId)))]:
    the matching documents, in the order the store lists them. *)
Definition reviews_of (roomId : string) (col : gmap string Review.t) : list Review.t :=
  filter (fun d => Review.roomId d = roomId) (snd <$> map_to_list col).

Definition getDocs_reviews (roomId : string) : IO (list Review.t) :=
  _ ← remote; gets (fun w => reviews_of roomId (db_reviews w)).

(** [getDocs(query(collection(db, "favorites"), where("userId", "==", uid)))]. *)
Definition favorites_of (userId : string) (col : gmap string Favorite.t) : list Favorite.t :=
  filter (fun d => Favorite.userId d = userId) (snd <$> map_to_list col).

Definition getDocs_favorites (userId : string) : IO (list Favorite.t) :=
  _ ← remote; gets (fun w => favorites_of userId (db_favorites w)).

(** ** 4. The service ([lib/room-service.ts]) *)

(** [{ success: true }]. *)
Record Ack : Type := { success : bool }.

(** [user.displayName || "Anonymous"]: [null] and the empty string are falsy. *)
Definition displayName_or_Anonymous (user : User) : string :=
  match displayName user with
  | Some EmptyString | None => "Anonymous"
  | Some name => name
  end.

(** The composite document id [`${user.uid}_${roomId}`]. *)
Definition composite_id (user : User) (roomId : string) : string :=
  uid user +:+ "_" +:+ roomId.

Definition updateRoom (id : string) (roomData : PartialRoomData.t) : IO PartialRoomData.t :=
  user ← getCurrentUser;
  match user with
  | None => throw (Error "User not authenticated")
  | Some user =>
      roomSnap ← getDoc_room id;
      match roomSnap with
      | None => throw (Error "Room not found")
      | Some data =>
          if decide (RoomData.owner data = Some (uid user)) then
            _ ← updateDoc_room id (merge_room roomData);
            mret (partial_with_id id roomData)
          else throw (Error "Not authorized to update this room")
      end
  end.

Definition deleteRoom (id : string) : IO Ack :=
  user ← getCurrentUser;
  match user with
  | None => throw (Error "User not authenticated")
  | Some user =>
      roomSnap ← getDoc_room id;
      match roomSnap with
      | None => throw (Error "Room not found")
      | Some data =>
          if decide (RoomData.owner data = Some (uid user)) then
            _ ← deleteDoc_room id;
            mret {| success := true |}
          else throw (Error "Not authorized to delete this room")
      end
  end.

Definition getRoomById (id : string) : IO RoomData.t :=
  roomSnap ← getDoc_room id;
  match roomSnap with
  | None => throw (Error "Room not found")
  | Some data => mret (with_id id data)
  end.

(** The loop [for (const id of favoriteIds) { try { rooms.push(await
    getRoomById(id)) } catch (error) { console.warn(...) } }], with the
    array [rooms] as an accumulator. *)
Fixpoint collect_rooms (favoriteIds : list string) (rooms : list RoomData.t)
  : IO (list RoomData.t) :=
  match favoriteIds with
  | [] => mret rooms
  | id :: rest =>
      rooms' ← try_catch (room ← getRoomById id; mret (rooms ++ [room]))
                         (fun _ => mret rooms);
      collect_rooms rest rooms'
  end.

Definition getFavorites : IO (list RoomData.t) :=
  user ← getCurrentUser;
  match user with
  | None => throw (Error "User not authenticated")
  | Some user =>
      querySnapshot ← getDocs_favorites (uid user);
      let favoriteIds := Favorite.roomId <$> querySnapshot in
      collect_rooms favoriteIds []
  end.

(** The [forEach] of [updateRoomRating]: [totalRating += doc.data().rating;
    reviewCount++], from [totalRating = 0] and [reviewCount = 0]. *)
Definition tally (docs : list Review.t) : JS.number * JS.number :=
  fold_left (fun '(totalRating, reviewCount) d =>
               (JS.add totalRating (Review.rating d), JS.add reviewCount (JS.of_int 1)))
            docs (JS.zero, JS.zero).

(** [reviewCount > 0 ? totalRating / reviewCount : 0]. *)
Definition averageRating (totalRating reviewCount : JS.number) : JS.number :=
  if JS.gt reviewCount JS.zero then JS.div totalRating reviewCount else JS.zero.

(** The two summary values that [updateRoomRating] computes from the
    documents of the query: [Number.parseFloat(averageRating.toFixed(1))]
    and [reviewCount]. *)
Definition summary (docs : list Review.t) : JS.number * JS.number :=
  let '(totalRating, reviewCount) := tally docs in
  (JS.parseFloat (JS.toFixed_1 (averageRating totalRating reviewCount)), reviewCount).

Definition updateRoomRating (roomId : string) : IO unit :=
  querySnapshot ← getDocs_reviews roomId;
  let '(rating, reviewCount) := summary querySnapshot in
  updateDoc_room roomId (set_summary rating reviewCount).

Definition addReview (roomId : string) (rating : JS.number) (comment : string) : IO Ack :=
  user ← getCurrentUser;
  match user with
  | None => throw (Error "User not authenticated")
  | Some user =>
      _ ← setDoc_review (composite_id user roomId)
            (fun now => {| Review.userId := uid user;
                           Review.roomId := roomId;
                           Review.userName := displayName_or_Anonymous user;
                           Review.rating := rating;
                           Review.comment := comment;
                           Review.createdAt := now;
                           Review.updatedAt := now |});
      _ ← updateRoomRating roomId;
      mret {| success := true |}
  end.

(** ** 5. Vocabulary of the statements *)

(** The backend answers the next [k] remote calls. *)
Fixpoint answered (k : nat) (fs : list (option string)) : bool :=
  match k with
  | O => true
  | S k' => match fs with
            | Some _ :: _ => false
            | _ => answered k' (tail fs)
            end
  end.

Definition answers (k : nat) (w : World) : Prop := answered k (faults w) = true.

(** Another user signs in: [auth.currentUser] changes, nothing else. *)
Definition as_user (u : User) (w : World) : World :=
  {| currentUser := Some u; db_rooms := db_rooms w;
     db_reviews := db_reviews w; db_favorites := db_favorites w;
     clock := clock w; faults := faults w |}.

(** One reviewer's submission: who, how many stars, which comment. *)
Record Submission : Type := { reviewer : User; stars : Z; text : string }.

(** The reviewers submit one after the other, each signed in, each call
    completing before the next one starts. *)
Fixpoint submit_all (roomId : string) (subs : list Submission) : IO unit :=
  match subs with
  | [] => mret tt
  | s :: rest =>
      _ ← modify (as_user (reviewer s));
      _ ← addReview roomId (JS.of_int (stars s)) (text s);
      submit_all roomId rest
  end.

Definition sumZ (rs : list Z) : Z := foldr Z.add 0 rs.

(** [sum / count] rounded to one decimal place, half up, as a number of
    tenths: [floor (10 * sum / count + 1/2)]. *)
Definition round_half_up_tenths (sum count : Z) : Z := (20 * sum + count) / (2 * count).

(** [sum / count] lies exactly halfway between two consecutive tenths. *)
Definition halfway (sum count : Z) : Prop := (20 * sum + count) mod (2 * count) = 0.

(** [sum / count] is a multiple of [1/4], so a binary64 number holds it. *)
Definition representable (sum count : Z) : Prop := (4 * sum) mod count = 0.

(** Exponent and 53-bit mantissa of a positive integer below [2^53]. *)
Definition int_expo (z : Z) : Z := Z.log2 z - 52.
Definition int_mant (z : Z) : positive := Z.to_pos (z * 2 ^ (52 - Z.log2 z)).

(** [reviewCount] after [n] documents: [n] times [++] from [0]. *)
Fixpoint counted (n : nat) : JS.number :=
  match n with
  | O => JS.zero
  | S n' => JS.add (counted n') (JS.of_int 1)
  end.

(** The world after a successful [updateRoomRating]. *)
Definition rated (roomId : string) (room : RoomData.t) (w : World) : World :=
  set_rooms (insert roomId
               (set_summary (fst (summary (reviews_of roomId (db_reviews w))))
                            (snd (summary (reviews_of roomId (db_reviews w))))
                            (clock w) room))
            (drop_fault (drop_fault w)).

(** The document that [addReview] writes at server time [now]. *)
Definition review_of (user : User) (roomId : string) (rating : JS.number)
    (comment : string) (now : timestamp) : Review.t :=
  {| Review.userId := uid user;
     Review.roomId := roomId;
     Review.userName := displayName_or_Anonymous user;
     Review.rating := rating;
     Review.comment := comment;
     Review.createdAt := now;
     Review.updatedAt := now |}.

(** The world after a successful [addReview]. *)
Definition reviewed (user : User) (roomId : string) (rating : JS.number)
    (comment : string) (room : RoomData.t) (w : World) : World :=
  rated roomId room
    (set_reviews (insert (composite_id user roomId)
                         (review_of user roomId rating comment (clock w)))
                 (drop_fault w)).

(** Sample data for the concrete runs. *)
Definition alice : User := {| uid := "alice"; displayName := Some "Alice" |}.
Definition bob : User := {| uid := "bob"; displayName := None |}.

Definition sample_room : RoomData.t :=
  {| RoomData.id := None;
     RoomData.title := "Sunny room";
     RoomData.rent := "500";
     RoomData.deposit := "1000";
     RoomData.description := "Near the station";
     RoomData.images := [];
     RoomData.location := "Pune";
     RoomData.amenities := ["wifi"];
     RoomData.featured := None;
     RoomData.rating := None;
     RoomData.reviews := None;
     RoomData.owner := Some "alice";
     RoomData.ownerName := Some "Alice";
     RoomData.createdAt := Some 0%nat;
     RoomData.updatedAt := Some 0%nat |}.

(** One room ["r1"] owned by alice, no review, no favorite. *)
Definition sample_world (user : option User) (schedule : list (option string)) : World :=
  {| currentUser := user;
     db_rooms := {[ "r1" := sample_room ]};
     db_reviews := ∅;
     db_favorites := ∅;
     clock := 1%nat;
     faults := schedule |}.

(** A patch that renames the room and hands it to bob. *)
Definition takeover : PartialRoomData.t :=
  {| PartialRoomData.id := None; PartialRoomData.title := Some "Taken over";
     PartialRoomData.rent := None; PartialRoomData.deposit := None;
     PartialRoomData.description := None; PartialRoomData.images := None;
     PartialRoomData.location := None; PartialRoomData.amenities := None;
     PartialRoomData.featured := None; PartialRoomData.rating := None;
     PartialRoomData.reviews := None; PartialRoomData.owner := Some "bob";
     PartialRoomData.ownerName := None; PartialRoomData.createdAt := None;
     PartialRoomData.updatedAt := None |}.

(** bob's favorites: room ["gone"], which has no document any more, and
    room ["r1"]. *)
Definition favorites_world (schedule : list (option string)) : World :=
  {| currentUser := Some bob;
     db_rooms := {[ "r1" := sample_room ]};
     db_reviews := ∅;
     db_favorites :=
       {[ "bob_gone" := {| Favorite.userId := "bob"; Favorite.roomId := "gone";
                           Favorite.createdAt := 0%nat |};
          "bob_r1" := {| Favorite.userId := "bob"; Favorite.roomId := "r1";
                         Favorite.createdAt := 0%nat |};
          "alice_r1" := {| Favorite.userId := "alice"; Favorite.roomId := "r1";
                           Favorite.createdAt := 0%nat |} ]};
     clock := 1%nat;
     faults := schedule |}.


(** Twenty reviewers of room ["r1"]: three give 2 stars, seventeen give 1.
    The mean is 23/20 = 1.15, halfway between 1.1 and 1.2. *)
Definition tie_submissions : list Submission :=
  zip_with (fun name r => {| reviewer := {| uid := name; displayName := None |};
                             stars := r; text := "" |})
    ["u01"; "u02"; "u03"; "u04"; "u05"; "u06"; "u07"; "u08"; "u09"; "u10";
     "u11"; "u12"; "u13"; "u14"; "u15"; "u16"; "u17"; "u18"; "u19"; "u20"]
    [2; 2; 2; 1; 1; 1; 1; 1; 1; 1; 1; 1; 1; 1; 1; 1; 1; 1; 1; 1].

(** The scenario of the specification: ratings 5, 4 and 3. *)
Definition three_submissions : list Submission :=
  [ {| reviewer := bob; stars := 5; text := "great" |};
    {| reviewer := alice; stars := 4; text := "good" |};
    {| reviewer := {| uid := "carol"; displayName := Some "" |}; stars := 3; text := "" |} ].

(** A world whose reviews collection holds the documents of the given
    submissions for room ["r1"], and nothing else. *)
Definition reviews_world (subs : list Submission) : World :=
  {| currentUser := None;
     db_rooms := {[ "r1" := sample_room ]};
     db_reviews :=
       list_to_map
         ((fun s => (composite_id (reviewer s) "r1",
                     review_of (reviewer s) "r1" (JS.of_int (stars s)) (text s) 1%nat))
            <$> subs);
     db_favorites := ∅;
     clock := 2%nat;
     faults := [] |}.

(** ** 5b. The other functions of the service

    [addRoom], [getAllRooms], [getRoomsByOwner], [addFavorite] and
    [removeFavorite], with the remote calls they need. *)

Definition set_favorites (f : gmap string Favorite.t -> gmap string Favorite.t) (w : World)
  : World :=
  {| currentUser := currentUser w; db_rooms := db_rooms w;
     db_reviews := db_reviews w; db_favorites := f (db_favorites w);
     clock := S (clock w); faults := faults w |}.

(** [addDoc(collection(db, "rooms"), data)]. The SDK picks the id of the
    new document; [newId] stands for the id it picks. *)
Definition addDoc_room (newId : string) (data : timestamp -> RoomData.t) : IO string :=
  _ ← remote;
  now ← gets clock;
  _ ← modify (set_rooms (insert newId (data now)));
  mret newId.

(** [setDoc(favoriteRef, data)] and [deleteDoc(favoriteRef)],
    [favoriteRef] the reference of the document [favorites/id]. *)
Definition setDoc_favorite (docId : string) (data : timestamp -> Favorite.t) : IO unit :=
  _ ← remote; now ← gets clock; modify (set_favorites (insert docId (data now))).

Definition deleteDoc_favorite (docId : string) : IO unit :=
  _ ← remote; modify (set_favorites (delete docId)).

(** [orderBy("createdAt", "desc")]: the backend leaves out the documents
    that have no [createdAt], lists the newest first and, among equal times,
    the larger document id first. *)
Definition dated (snap : string * RoomData.t) : option (timestamp * string * RoomData.t) :=
  (fun t => (t, fst snap, snd snap)) <$> RoomData.createdAt (snd snap).

Definition newer_first (a b : timestamp * string * RoomData.t) : Prop :=
  (fst (fst b) < fst (fst a))%nat
  \/ (fst (fst a) = fst (fst b) /\ String.leb (snd (fst b)) (snd (fst a)) = true).

#[global] Instance newer_first_dec : RelDecision newer_first.
Proof. intros a b. unfold newer_first. apply _. Defined.

Definition orderBy_createdAt_desc (snaps : list (string * RoomData.t))
  : list (string * RoomData.t) :=
  (fun x => (snd (fst x), snd x)) <$> merge_sort newer_first (omap dated snaps).

(** [getDocs(query(collection(db, "rooms"), orderBy("createdAt", "desc")))]. *)
Definition getDocs_rooms : IO (list (string * RoomData.t)) :=
  _ ← remote; gets (fun w => orderBy_createdAt_desc (map_to_list (db_rooms w))).

(** [getDocs(query(collection(db, "rooms"), where("owner", "==", uid),
    orderBy("createdAt", "desc")))]. *)
Definition owned_by (owner : string) (snaps : list (string * RoomData.t))
  : list (string * RoomData.t) :=
  filter (fun snap => RoomData.owner (snd snap) = Some owner) snaps.

Definition getDocs_rooms_of (owner : string) : IO (list (string * RoomData.t)) :=
  _ ← remote;
  gets (fun w => orderBy_createdAt_desc (owned_by owner (map_to_list (db_rooms w)))).

(** [{ id: doc.id, ...doc.data() }] in the [forEach] of the two listings. *)
Definition listed (snap : string * RoomData.t) : RoomData.t := with_id (fst snap) (snd snap).

(** The sentinel that [serverTimestamp()] returns on the client. *)
Inductive FieldValue : Type := serverTimestamp.

(** [roomWithMetadata] as the backend stores it at server time [now]:
    [{ ...roomData, owner: user.uid, ownerName: user.displayName ||
    "Anonymous", createdAt: serverTimestamp(), updatedAt: serverTimestamp() }]. *)
Definition roomWithMetadata (user : User) (roomData : RoomData.t) (now : timestamp)
  : RoomData.t :=
  {| RoomData.id := RoomData.id roomData;
     RoomData.title := RoomData.title roomData;
     RoomData.rent := RoomData.rent roomData;
     RoomData.deposit := RoomData.deposit roomData;
     RoomData.description := RoomData.description roomData;
     RoomData.images := RoomData.images roomData;
     RoomData.location := RoomData.location roomData;
     RoomData.amenities := RoomData.amenities roomData;
     RoomData.featured := RoomData.featured roomData;
     RoomData.rating := RoomData.rating roomData;
     RoomData.reviews := RoomData.reviews roomData;
     RoomData.owner := Some (uid user);
     RoomData.ownerName := Some (displayName_or_Anonymous user);
     RoomData.createdAt := Some now;
     RoomData.updatedAt := Some now |}.

(** The object that [addRoom] returns, [{ id: docRef.id,
    ...roomWithMetadata }]: its two time fields still hold the sentinel, and
    an [id] key of [roomData] comes after [id: docRef.id] and replaces it. *)
Module AddedRoom.
Record t : Type := {
  id : string;
  title : string;
  rent : string;
  deposit : string;
  description : string;
  images : list string;
  location : string;
  amenities : list string;
  featured : option bool;
  rating : option JS.number;
  reviews : option JS.number;
  owner : string;
  ownerName : string;
  createdAt : FieldValue;
  updatedAt : FieldValue
}.
End AddedRoom.

Definition added_room (docId : string) (user : User) (roomData : RoomData.t) : AddedRoom.t :=
  {| AddedRoom.id := match RoomData.id roomData with Some v => v | None => docId end;
     AddedRoom.title := RoomData.title roomData;
     AddedRoom.rent := RoomData.rent roomData;
     AddedRoom.deposit := RoomData.deposit roomData;
     AddedRoom.description := RoomData.description roomData;
     AddedRoom.images := RoomData.images roomData;
     AddedRoom.location := RoomData.location roomData;
     AddedRoom.amenities := RoomData.amenities roomData;
     AddedRoom.featured := RoomData.featured roomData;
     AddedRoom.rating := RoomData.rating roomData;
     AddedRoom.reviews := RoomData.reviews roomData;
     AddedRoom.owner := uid user;
     AddedRoom.ownerName := displayName_or_Anonymous user;
     AddedRoom.createdAt := serverTimestamp;
     AddedRoom.updatedAt := serverTimestamp |}.

Definition addRoom (newId : string) (roomData : RoomData.t) : IO AddedRoom.t :=
  user ← getCurrentUser;
  match user with
  | None => throw (Error "User not authenticated")
  | Some user =>
      docRef_id ← addDoc_room newId (roomWithMetadata user roomData);
      mret (added_room docRef_id user roomData)
  end.

Definition getAllRooms : IO (list RoomData.t) :=
  querySnapshot ← getDocs_rooms;
  mret (listed <$> querySnapshot).

Definition getRoomsByOwner : IO (list RoomData.t) :=
  user ← getCurrentUser;
  match user with
  | None => throw (Error "User not authenticated")
  | Some user =>
      querySnapshot ← getDocs_rooms_of (uid user);
      mret (listed <$> querySnapshot)
  end.

(** The document that [addFavorite] writes at server time [now]. *)
Definition favorite_of (user : User) (roomId : string) (now : timestamp) : Favorite.t :=
  {| Favorite.userId := uid user; Favorite.roomId := roomId; Favorite.createdAt := now |}.

Definition addFavorite (roomId : string) : IO Ack :=
  user ← getCurrentUser;
  match user with
  | None => throw (Error "User not authenticated")
  | Some user =>
      _ ← setDoc_favorite (composite_id user roomId) (favorite_of user roomId);
      mret {| success := true |}
  end.

Definition removeFavorite (roomId : string) : IO Ack :=
  user ← getCurrentUser;
  match user with
  | None => throw (Error "User not authenticated")
  | Some user =>
      _ ← deleteDoc_favorite (composite_id user roomId);
      mret {| success := true |}
  end.

(** bob lists two rooms, at server times 5 and 7, next to alice's room. *)
Definition listing_world (user : option User) : World :=
  {| currentUser := user;
     db_rooms := {[ "r1" := sample_room;
                    "r2" := roomWithMetadata bob sample_room 5%nat;
                    "r3" := roomWithMetadata bob sample_room 7%nat ]};
     db_reviews := ∅;
     db_favorites := ∅;
     clock := 9%nat;
     faults := [] |}.

(** A patch that only renames the room. *)
Definition rename : PartialRoomData.t :=
  {| PartialRoomData.id := None; PartialRoomData.title := Some "Quiet room";
     PartialRoomData.rent := None; PartialRoomData.deposit := None;
     PartialRoomData.description := None; PartialRoomData.images := None;
     PartialRoomData.location := None; PartialRoomData.amenities := None;
     PartialRoomData.featured := None; PartialRoomData.rating := None;
     PartialRoomData.reviews := None; PartialRoomData.owner := None;
     PartialRoomData.ownerName := None; PartialRoomData.createdAt := None;
     PartialRoomData.updatedAt := None |}.

#[global] Instance RoomData_eq_dec : EqDecision RoomData.t.
Proof. solve_decision. Defined.

(** Room [a] was created no earlier than room [b]. *)
Definition not_older (a b : RoomData.t) : Prop :=
  exists ta tb,
    RoomData.createdAt a = Some ta /\ RoomData.createdAt b = Some tb /\ (tb <= ta)%nat.

(** The snapshot has a [createdAt] field. *)
Definition has_createdAt (snap : string * RoomData.t) : Prop :=
  is_Some (RoomData.createdAt (snd snap)).

(** The character of the string ["_"], code 95. *)
Definition underscore : Ascii.ascii := Ascii.Ascii true true true true true false true false.

(** The string contains the character ["_"]. *)
Fixpoint has_underscore (s : string) : bool :=
  match s with
  | EmptyString => false
  | String c rest => if Ascii.eqb c underscore then true else has_underscore rest
  end.

(** The room ids of a user's favorite documents, as [getFavorites] collects
    them from the query. *)
Definition favoriteIds_of (userId : string) (col : gmap string Favorite.t) : list string :=
  Favorite.roomId <$> favorites_of userId col.

(** Two users whose uid and room id run into the same document id:
    ["a_b" + "_" + "c"] and ["a" + "_" + "b_c"]. *)
Definition user_a_b : User := {| uid := "a_b"; displayName := None |}.
Definition user_a : User := {| uid := "a"; displayName := None |}.

Definition collision_world : World :=
  {| currentUser := None;
     db_rooms := {[ "c" := sample_room; "b_c" := sample_room ]};
     db_reviews := ∅;
     db_favorites := ∅;
     clock := 1%nat;
     faults := [] |}.

(** A room whose document stores an [id] field of its own, under the
    document id ["d1"]. *)
Definition labelled_world : World :=
  {| currentUser := None;
     db_rooms := {[ "d1" := with_id "custom" sample_room ]};
     db_reviews := ∅;
     db_favorites := ∅;
     clock := 1%nat;
     faults := [] |}.

(** A patch with which the owner sets the summary fields by hand. *)
Definition forged_summary : PartialRoomData.t :=
  {| PartialRoomData.id := None; PartialRoomData.title := None;
     PartialRoomData.rent := None; PartialRoomData.deposit := None;
     PartialRoomData.description := None; PartialRoomData.images := None;
     PartialRoomData.location := None; PartialRoomData.amenities := None;
     PartialRoomData.featured := None; PartialRoomData.rating := Some (JS.of_int 5);
     PartialRoomData.reviews := Some (JS.of_int 1000); PartialRoomData.owner := None;
     PartialRoomData.ownerName := None; PartialRoomData.createdAt := None;
     PartialRoomData.updatedAt := None |}.

(** ** 6. Binary64 arithmetic on small integers

    Integers below [2^53] are numbers; their sums are exact; their
    quotient is within half a unit in the last place of the exact one. *)

Section Binary64.

(** The number of binary digits of a mantissa, against [Z.log2]. *)
Lemma digits2_pos_log2 (p : positive) : Zpos (digits2_pos p) = Z.log2 (Zpos p) + 1.
Proof.
  assert (H : forall q, digits2_pos q = Pos.size q) by (induction q; simpl; congruence).
  rewrite H. destruct p; simpl; lia.
Qed.

Lemma digits2_pos_spec (p : positive) (d : Z) :
  2 ^ (d - 1) <= Zpos p < 2 ^ d -> Zpos (digits2_pos p) = d.
Proof.
  intros [Hlo Hhi]. rewrite digits2_pos_log2.
  assert (0 < d).
  { destruct (Z_lt_le_dec 0 d) as [|Hd]; [assumption|].
    assert (2 ^ d <= 2 ^ 0) by (destruct (Z.eq_dec d 0) as [->|]; [lia|rewrite Z.pow_neg_r; lia]).
    simpl in *. lia. }
  rewrite (Z.log2_unique (Zpos p) (d - 1)); [lia | lia |].
  replace (Z.succ (d - 1)) with d by lia. lia.
Qed.

Lemma digits2_pos_bounds (p : positive) :
  2 ^ (Zpos (digits2_pos p) - 1) <= Zpos p < 2 ^ Zpos (digits2_pos p).
Proof.
  rewrite digits2_pos_log2. replace (Z.log2 (Zpos p) + 1 - 1) with (Z.log2 (Zpos p)) by lia.
  apply Z.log2_spec. lia.
Qed.

(** Shifting a mantissa left by [k] multiplies it by [2^k]. *)
Lemma iter_xO (p k : positive) : Zpos (Pos.iter xO p k) = Zpos p * 2 ^ Zpos k.
Proof.
  induction k as [|k IH] using Pos.peano_ind.
  - simpl. lia.
  - rewrite Pos.iter_succ, Pos2Z.inj_xO, IH, Pos2Z.inj_succ, Z.pow_succ_r by lia. lia.
Qed.

Lemma iter_pos_iter {A : Type} (f : A -> A) (k : positive) (x : A) :
  SpecFloat.iter_pos f k x = Pos.iter f x k.
Proof.
  revert x. induction k as [k IH|k IH|]; intros x; simpl.
  - rewrite !IH. now rewrite <- !Pos.iter_swap.
  - now rewrite !IH.
  - reflexivity.
Qed.

(** Shifting out [k] trailing zeros loses nothing: neither the round bit
    nor the sticky bit is set. *)
Lemma shr_exact (p k : positive) :
  SpecFloat.iter_pos shr_1 k {| shr_m := Zpos (Pos.iter xO p k); shr_r := false; shr_s := false |}
  = {| shr_m := Zpos p; shr_r := false; shr_s := false |}.
Proof.
  rewrite iter_pos_iter.
  induction k as [|k IH] using Pos.peano_ind.
  - reflexivity.
  - rewrite (Pos.iter_succ k _ shr_1), <- Pos.iter_swap, (Pos.iter_succ k _ xO).
    exact IH.
Qed.

(** The exponent of a normal binary64 number of magnitude [e]. *)
Lemma fexp64_eq (e : Z) : -1021 <= e -> fexp JS.prec JS.emax e = e - 53.
Proof. intros H. unfold fexp, emin, JS.prec, JS.emax. lia. Qed.

(** A mantissa of 53 digits at an exponent in range is already rounded. *)
Lemma binary_round_aux_canonical (s : bool) (m : positive) (e : Z) :
  Zpos (digits2_pos m) = 53 -> -1074 <= e <= 971 ->
  binary_round_aux JS.prec JS.emax s (Zpos m) e loc_Exact = S754_finite s m e.
Proof.
  intros Hd He. unfold binary_round_aux, shr_fexp. simpl Zdigits2. rewrite Hd.
  rewrite fexp64_eq by lia. replace (53 + e - 53 - e) with 0 by lia. simpl.
  rewrite Hd, fexp64_eq by lia. replace (53 + e - 53 - e) with 0 by lia. simpl.
  replace (e <=? JS.emax - JS.prec) with true; [reflexivity|].
  symmetry. apply Z.leb_le. unfold JS.emax, JS.prec. lia.
Qed.

Lemma Zpos_inj_iter (mx m k : positive) :
  Zpos mx = Zpos m * 2 ^ Zpos k -> mx = Pos.iter xO m k.
Proof. intros H. rewrite <- iter_xO in H. congruence. Qed.

(** Rounding a value that has at most 53 significant digits is exact:
    trailing zeros are shifted out. *)
Lemma binary_round_exact_shr (s : bool) (mx m : positive) (e k : Z) :
  Zpos (digits2_pos m) = 53 -> 0 <= k -> Zpos mx = Zpos m * 2 ^ k ->
  -1074 <= e -> e + k <= 971 ->
  binary_round JS.prec JS.emax s mx e = S754_finite s m (e + k).
Proof.
  intros Hd Hk Hmx He Hek.
  assert (Hdx : Zpos (digits2_pos mx) = 53 + k).
  { apply digits2_pos_spec. pose proof (digits2_pos_bounds m) as Hb. rewrite Hd in Hb.
    rewrite Hmx. replace (53 + k - 1) with (52 + k) by lia.
    rewrite !Z.pow_add_r by lia. simpl (53 - 1) in Hb.
    assert (0 < 2 ^ k) by (apply Z.pow_pos_nonneg; lia). nia. }
  unfold binary_round. rewrite Hdx, fexp64_eq by lia.
  unfold shl_align. replace (53 + k + e - 53 - e) with k by lia.
  destruct k as [|kp|kp]; [| |lia].
  - assert (mx = m) by (change (2 ^ 0) with 1 in Hmx; lia). subst mx.
    rewrite Z.add_0_r. cbv iota beta.
    apply binary_round_aux_canonical; [assumption|lia].
  - unfold binary_round_aux, shr_fexp. simpl Zdigits2. rewrite Hdx, fexp64_eq by lia.
    replace (53 + Z.pos kp + e - 53 - e) with (Zpos kp) by lia. unfold shr.
    rewrite (Zpos_inj_iter _ _ _ Hmx). simpl shr_record_of_loc. rewrite shr_exact.
    simpl. rewrite Hd, fexp64_eq by lia.
    replace (53 + (e + Z.pos kp) - 53 - (e + Z.pos kp)) with 0 by lia. simpl.
    replace (e + Z.pos kp <=? JS.emax - JS.prec) with true; [reflexivity|].
    symmetry. apply Z.leb_le. unfold JS.emax, JS.prec. lia.
Qed.

(** Rounding a value written with fewer than 53 digits only normalises it. *)
Lemma binary_round_exact_shl (s : bool) (mx m : positive) (e j : Z) :
  Zpos (digits2_pos m) = 53 -> 0 < j -> Zpos m = Zpos mx * 2 ^ j ->
  -1074 <= e - j -> e - j <= 971 ->
  binary_round JS.prec JS.emax s mx e = S754_finite s m (e - j).
Proof.
  intros Hd Hj Hm He Hej.
  assert (Hdx : Zpos (digits2_pos mx) = 53 - j).
  { apply digits2_pos_spec. pose proof (digits2_pos_bounds m) as Hb. rewrite Hd in Hb.
    rewrite Hm in Hb.
    assert (0 < 2 ^ j) by (apply Z.pow_pos_nonneg; lia).
    assert (j < 53).
    { destruct (Z_lt_le_dec j 53); [assumption|].
      assert (2 ^ 53 <= 2 ^ j) by (apply Z.pow_le_mono_r; lia). nia. }
    assert (E1 : 2 ^ 53 = 2 ^ (53 - j) * 2 ^ j) by (rewrite <- Z.pow_add_r by lia; f_equal; lia).
    assert (E2 : 2 ^ 52 = 2 ^ (53 - j - 1) * 2 ^ j) by (rewrite <- Z.pow_add_r by lia; f_equal; lia).
    change (53 - 1) with 52 in Hb. rewrite E1, E2 in Hb. nia. }
  unfold binary_round. rewrite Hdx, fexp64_eq by lia.
  unfold shl_align. replace (53 - j + e - 53 - e) with (- j) by lia.
  replace (53 - j + e - 53) with (e - j) by lia.
  destruct j as [|jp|jp]; [lia| |lia]. change (- Z.pos jp) with (Z.neg jp). cbv iota beta.
  rewrite <- (Zpos_inj_iter _ _ _ Hm).
  apply binary_round_aux_canonical; [assumption | lia].
Qed.

(** The mantissa of an integer below [2^53] has exactly 53 digits. *)
Lemma int_mant_spec (z : Z) :
  0 < z < 2 ^ 53 ->
  0 <= Z.log2 z <= 52 /\
  Zpos (int_mant z) = z * 2 ^ (52 - Z.log2 z) /\
  Zpos (digits2_pos (int_mant z)) = 53.
Proof.
  intros [Hz Hz53].
  assert (Hl : 0 <= Z.log2 z <= 52).
  { split; [apply Z.log2_nonneg|]. apply Z.lt_succ_r, Z.log2_lt_pow2; [lia|exact Hz53]. }
  pose proof (Z.log2_spec z Hz) as [Hlo Hhi].
  assert (Hp : 0 < 2 ^ (52 - Z.log2 z)) by (apply Z.pow_pos_nonneg; lia).
  assert (Hm : Zpos (int_mant z) = z * 2 ^ (52 - Z.log2 z)).
  { unfold int_mant. rewrite Z2Pos.id; [reflexivity|nia]. }
  split; [exact Hl|]. split; [exact Hm|].
  apply digits2_pos_spec. rewrite Hm. change (53 - 1) with 52.
  assert (E1 : 2 ^ 52 = 2 ^ Z.log2 z * 2 ^ (52 - Z.log2 z))
    by (rewrite <- Z.pow_add_r by lia; f_equal; lia).
  assert (E2 : 2 ^ 53 = 2 ^ Z.succ (Z.log2 z) * 2 ^ (52 - Z.log2 z))
    by (rewrite <- Z.pow_add_r by lia; f_equal; lia).
  rewrite E1, E2. nia.
Qed.

(** The number that an integer of at most 53 bits is. *)
Lemma of_int_pos (z : Z) :
  0 < z < 2 ^ 53 -> JS.of_int z = S754_finite false (int_mant z) (int_expo z).
Proof.
  intros Hz. destruct (int_mant_spec z Hz) as (Hl & Hm & Hd).
  destruct z as [|p|p]; [lia| |lia]. unfold JS.of_int, binary_normalize, int_expo.
  destruct (Z.eq_dec (Z.log2 (Zpos p)) 52) as [E|E].
  - rewrite E in *. change (52 - 52) with 0 in Hm. change (52 - 52) with (0 + 0).
    apply binary_round_exact_shr; lia.
  - replace (Z.log2 (Zpos p) - 52) with (0 - (52 - Z.log2 (Zpos p))) by lia.
    apply binary_round_exact_shl; lia.
Qed.

(** Aligning a mantissa to a smaller exponent. *)
Lemma shl_align_fst (m : positive) (e e' : Z) :
  e' <= e -> Zpos (fst (shl_align m e e')) = Zpos m * 2 ^ (e - e').
Proof.
  intros H. unfold shl_align. destruct (e' - e) as [|d|d] eqn:E; simpl.
  - replace (e - e') with 0 by lia. simpl. lia.
  - lia.
  - rewrite iter_xO. f_equal. f_equal. lia.
Qed.

(** Addition of two positive integers is exact below [2^53]. *)
Lemma add_of_int (a b : Z) :
  0 < a -> 0 < b -> a + b < 2 ^ 53 ->
  JS.add (JS.of_int a) (JS.of_int b) = JS.of_int (a + b).
Proof.
  intros Ha Hb Hab.
  destruct (int_mant_spec a ltac:(lia)) as (Hla & Hma & Hda).
  destruct (int_mant_spec b ltac:(lia)) as (Hlb & Hmb & Hdb).
  destruct (int_mant_spec (a + b) ltac:(lia)) as (Hlc & Hmc & Hdc).
  rewrite !of_int_pos by lia. unfold JS.add, SFadd, cond_Zopp.
  assert (Hac : Z.log2 a <= Z.log2 (a + b)) by (apply Z.log2_le_mono; lia).
  assert (Hbc : Z.log2 b <= Z.log2 (a + b)) by (apply Z.log2_le_mono; lia).
  set (ez := Z.min (int_expo a) (int_expo b)).
  assert (Hez : ez <= int_expo a /\ ez <= int_expo b /\ -52 <= ez <= int_expo (a + b))
    by (unfold ez, int_expo; lia).
  rewrite !shl_align_fst by lia. rewrite Hma, Hmb.
  assert (Hsum : a * 2 ^ (52 - Z.log2 a) * 2 ^ (int_expo a - ez)
                 + b * 2 ^ (52 - Z.log2 b) * 2 ^ (int_expo b - ez)
                 = Zpos (int_mant (a + b)) * 2 ^ (int_expo (a + b) - ez)).
  { unfold int_expo in *.
    rewrite Hmc, <- !Z.mul_assoc, <- !Z.pow_add_r by lia.
    replace (52 - Z.log2 a + (Z.log2 a - 52 - ez)) with (- ez) by lia.
    replace (52 - Z.log2 b + (Z.log2 b - 52 - ez)) with (- ez) by lia.
    replace (52 - Z.log2 (a + b) + (Z.log2 (a + b) - 52 - ez)) with (- ez) by lia.
    lia. }
  rewrite Hsum.
  assert (Hpos : 0 < Zpos (int_mant (a + b)) * 2 ^ (int_expo (a + b) - ez)).
  { assert (0 < 2 ^ (int_expo (a + b) - ez)) by (apply Z.pow_pos_nonneg; lia). nia. }
  destruct (Zpos (int_mant (a + b)) * 2 ^ (int_expo (a + b) - ez)) as [|ps|ps] eqn:Eps;
    [lia| |lia].
  unfold binary_normalize.
  rewrite (binary_round_exact_shr false ps (int_mant (a + b)) ez (int_expo (a + b) - ez));
    unfold int_expo in *; try lia.
  f_equal. lia.
Qed.

(** Where the remainder of a division puts the exact quotient between two
    consecutive integers. *)
Lemma new_location_cases (D r : Z) :
  0 < D -> 0 <= r < D ->
  (new_location D r = loc_Exact /\ r = 0) \/
  (new_location D r = loc_Inexact Lt /\ 0 < r /\ 2 * r < D) \/
  (new_location D r = loc_Inexact Eq /\ 2 * r = D) \/
  (new_location D r = loc_Inexact Gt /\ D < 2 * r).
Proof.
  intros HD Hr. unfold new_location.
  destruct (Z.even D) eqn:Ev; [unfold new_location_even | unfold new_location_odd];
    (destruct (Z.eqb_spec r 0) as [->|Hr0]; [left; split; reflexivity | right]).
  - destruct (Z.compare_spec (2 * r) D); [right; left | left | right; right];
      repeat split; (reflexivity || lia).
  - assert (Hodd : Z.odd D = true) by (rewrite <- Z.negb_even, Ev; reflexivity).
    apply Z.odd_spec in Hodd. destruct Hodd as [h Hh].
    destruct (Z.compare_spec (2 * r + 1) D); [left | left | right; right];
      repeat split; (reflexivity || lia).
Qed.

(** The last step of [binary_round_aux] on a mantissa between [2^52] and
    [2^53]: only a carry to [2^53] is renormalised. *)
Lemma round_finish (s : bool) (m1 e : Z) :
  2 ^ 52 <= m1 <= 2 ^ 53 -> -1074 <= e -> e + 1 <= 971 ->
  exists (m : positive) (j : Z),
    (let '(mrs, e') := shr_fexp JS.prec JS.emax m1 e loc_Exact in
     match shr_m mrs with
     | Z0 => S754_zero s
     | Zpos m => if e' <=? JS.emax - JS.prec then S754_finite s m e' else S754_infinity s
     | Zneg _ => S754_nan
     end) = S754_finite s m (e + j)
    /\ 0 <= j <= 1 /\ Zpos m * 2 ^ j = m1 /\ Zpos (digits2_pos m) = 53.
Proof.
  intros Hm He He'. destruct m1 as [|p|p]; [lia| |lia].
  destruct (Z.eq_dec (Zpos p) (2 ^ 53)) as [E|E].
  - exists 4503599627370496%positive, 1.
    assert (Hp : p = 9007199254740992%positive) by lia. subst p.
    unfold shr_fexp. change (Zdigits2 (Zpos 9007199254740992)) with 54.
    rewrite fexp64_eq by lia. replace (54 + e - 53 - e) with 1 by lia.
    cbn [shr shr_record_of_loc SpecFloat.iter_pos shr_1 shr_m].
    replace (e + 1 <=? JS.emax - JS.prec) with true
      by (symmetry; apply Z.leb_le; unfold JS.emax, JS.prec; lia).
    repeat split; try reflexivity; lia.
  - exists p, 0.
    assert (Hd : Zpos (digits2_pos p) = 53) by (apply digits2_pos_spec; change (53 - 1) with 52; lia).
    unfold shr_fexp. simpl Zdigits2. rewrite Hd, fexp64_eq by lia.
    replace (53 + e - 53 - e) with 0 by lia. simpl.
    replace (e <=? JS.emax - JS.prec) with true
      by (symmetry; apply Z.leb_le; unfold JS.emax, JS.prec; lia).
    rewrite Z.add_0_r. repeat split; lia.
Qed.

Lemma shr_fexp_53 (q : positive) (e : Z) (l : location) :
  Zpos (digits2_pos q) = 53 -> -1074 <= e ->
  shr_fexp JS.prec JS.emax (Zpos q) e l = (shr_record_of_loc (Zpos q) l, e).
Proof.
  intros Hd He. unfold shr_fexp. simpl Zdigits2. rewrite Hd, fexp64_eq by lia.
  replace (53 + e - 53 - e) with 0 by lia. reflexivity.
Qed.

Lemma shr_fexp_54 (q : positive) (e : Z) (l : location) :
  Zpos (digits2_pos q) = 54 -> -1074 <= e ->
  shr_fexp JS.prec JS.emax (Zpos q) e l = (shr_1 (shr_record_of_loc (Zpos q) l), e + 1).
Proof.
  intros Hd He. unfold shr_fexp. simpl Zdigits2. rewrite Hd, fexp64_eq by lia.
  replace (54 + e - 53 - e) with 1 by lia. reflexivity.
Qed.

(** Rounding to nearest even of [q + r/D], for a quotient [q] of 53 or 54
    digits: the result is within half a unit in the last place. *)
Lemma binary_round_aux_nearest (q : positive) (D r e : Z) :
  2 ^ 52 <= Zpos q < 2 ^ 54 -> 0 < D -> 0 <= r < D -> -1074 <= e -> e + 2 <= 971 ->
  exists (m : positive) (j : Z),
    binary_round_aux JS.prec JS.emax false (Zpos q) e (new_location D r)
      = S754_finite false m (e + j)
    /\ 0 <= j <= 2 /\ Zpos (digits2_pos m) = 53
    /\ 2 * Z.abs (Zpos m * 2 ^ j * D - (Zpos q * D + r)) <= 2 ^ j * D.
Proof.
  intros Hq HD Hr He He'.
  destruct (Z_lt_le_dec (Zpos q) (2 ^ 53)) as [Hlt|Hge].
  - (* 53 digits: no shift before rounding *)
    assert (Hd : Zpos (digits2_pos q) = 53)
      by (apply digits2_pos_spec; change (53 - 1) with 52; lia).
    unfold binary_round_aux. rewrite shr_fexp_53 by assumption.
    assert (Hm1 : exists m1, 
               round_nearest_even (shr_m (shr_record_of_loc (Zpos q) (new_location D r)))
                 (loc_of_shr_record (shr_record_of_loc (Zpos q) (new_location D r))) = m1
               /\ 2 ^ 52 <= m1 <= 2 ^ 53
               /\ 2 * Z.abs (m1 * D - (Zpos q * D + r)) <= D).
    { destruct (new_location_cases D r HD Hr) as [[-> ->]|[(-> & ? & ?)|[(-> & ?)|(-> & ?)]]];
        cbn [shr_record_of_loc loc_of_shr_record shr_m round_nearest_even].
      - exists (Zpos q). split; [reflexivity|]. lia.
      - exists (Zpos q). split; [reflexivity|]. lia.
      - destruct (Z.even (Zpos q)); eexists; (split; [reflexivity|]); lia.
      - exists (Zpos q + 1). split; [reflexivity|]. lia. }
    destruct Hm1 as (m1 & -> & Hb & Hdist).
    destruct (round_finish false m1 e Hb He ltac:(lia)) as (m & j & Heq & Hj & Hm & Hdm).
    exists m, j. split; [exact Heq|]. split; [lia|]. split; [assumption|].
    rewrite Hm. assert (0 < 2 ^ j) by (apply Z.pow_pos_nonneg; lia). nia.
  - (* 54 digits: one shift before rounding *)
    assert (Hd : Zpos (digits2_pos q) = 54)
      by (apply digits2_pos_spec; change (54 - 1) with 53; lia).
    unfold binary_round_aux. rewrite shr_fexp_54 by assumption.
    assert (Hm1 : exists m1, 
               round_nearest_even (shr_m (shr_1 (shr_record_of_loc (Zpos q) (new_location D r))))
                 (loc_of_shr_record (shr_1 (shr_record_of_loc (Zpos q) (new_location D r)))) = m1
               /\ 2 ^ 52 <= m1 <= 2 ^ 53
               /\ 2 * Z.abs (m1 * 2 * D - (Zpos q * D + r)) <= 2 * D).
    { destruct (new_location_cases D r HD Hr) as [[-> ->]|[(-> & ? & ?)|[(-> & ?)|(-> & ?)]]];
        destruct q as [p|p|]; try lia;
        cbn [shr_record_of_loc loc_of_shr_record shr_m shr_1 orb round_nearest_even];
        try (destruct (Z.even (Zpos p))); eexists; (split; [reflexivity|]); lia. }
    destruct Hm1 as (m1 & -> & Hb & Hdist).
    destruct (round_finish false m1 (e + 1) Hb ltac:(lia) ltac:(lia))
      as (m & j & Heq & Hj & Hm & Hdm).
    exists m, (j + 1). split; [replace (e + (j + 1)) with (e + 1 + j) by lia; exact Heq|].
    split; [lia|]. split; [assumption|].
    rewrite Z.pow_add_r by lia. change (2 ^ 1) with 2.
    assert (0 < 2 ^ j) by (apply Z.pow_pos_nonneg; lia). nia.
Qed.

(** The quotient of two integers [n <= s <= 5n] below [2^53]: a number
    [m * 2^-k] within half a unit in the last place of [s / n]. *)
Lemma div_of_int (s n : Z) :
  0 < n -> n <= s <= 5 * n -> s < 2 ^ 53 ->
  exists (m : positive) (k : Z),
    JS.div (JS.of_int s) (JS.of_int n) = S754_finite false m (- k)
    /\ 48 <= k <= 53 /\ Zpos (digits2_pos m) = 53
    /\ 2 * Z.abs (Zpos m * n - s * 2 ^ k) <= n.
Proof.
  intros Hn Hs Hs53.
  destruct (int_mant_spec s ltac:(lia)) as (Hls & Hms & Hds).
  destruct (int_mant_spec n ltac:(lia)) as (Hln & Hmn & Hdn).
  assert (Hlo : Z.log2 n <= Z.log2 s) by (apply Z.log2_le_mono; lia).
  assert (Hhi : Z.log2 s <= Z.log2 n + 3).
  { rewrite Z.add_comm, <- (Z.log2_mul_pow2 n 3) by lia. apply Z.log2_le_mono.
    change (2 ^ 3) with 8. lia. }
  rewrite !of_int_pos by lia. unfold JS.div, SFdiv, SFdiv_core_binary.
  cbn [Zdigits2]. rewrite Hds, Hdn.
  replace (53 + int_expo s - (53 + int_expo n)) with (int_expo s - int_expo n) by lia.
  rewrite fexp64_eq by (unfold int_expo; lia).
  rewrite Z.min_l by lia.
  replace (int_expo s - int_expo n - (int_expo s - int_expo n - 53)) with 53 by lia.
  cbv iota. rewrite Z.shiftl_mul_pow2 by lia.
  pose proof (digits2_pos_bounds (int_mant s)) as Bs. rewrite Hds in Bs.
  pose proof (digits2_pos_bounds (int_mant n)) as Bn. rewrite Hdn in Bn.
  change (53 - 1) with 52 in Bs, Bn.
  pose proof (Z.div_eucl_eq (Zpos (int_mant s) * 2 ^ 53) (Zpos (int_mant n)) ltac:(lia)) as Heq.
  pose proof (Z.mod_pos_bound (Zpos (int_mant s) * 2 ^ 53) (Zpos (int_mant n)) ltac:(lia)) as Hr.
  unfold Z.modulo in Hr.
  destruct (Z.div_eucl (Zpos (int_mant s) * 2 ^ 53) (Zpos (int_mant n))) as [q r].
  assert (Hq : 2 ^ 52 <= q < 2 ^ 54).
  { assert (E106 : 2 ^ 53 * 2 ^ 53 = 2 ^ 52 * 2 ^ 54) by reflexivity.
    assert (E105 : 2 ^ 52 * 2 ^ 53 = 2 ^ 53 * 2 ^ 52) by reflexivity.
    split; nia. }
  destruct q as [|q|q]; [lia| |lia].
  set (e := int_expo s - int_expo n - 53).
  destruct (binary_round_aux_nearest q (Zpos (int_mant n)) r e Hq ltac:(lia) Hr
              ltac:(unfold e, int_expo; lia) ltac:(unfold e, int_expo; lia))
    as (m & j & Hres & Hj & Hdm & Hdist).
  exists m, (- (e + j)). split; [rewrite Z.opp_involutive; exact Hres|].
  split; [unfold e, int_expo; lia|]. split; [assumption|].
  set (k := - (e + j)).
  assert (Hk : 0 <= k) by (unfold k, e, int_expo; lia).
  set (P := 2 ^ j * 2 ^ (52 - Z.log2 n)).
  assert (HP : 0 < P) by (apply Z.mul_pos_pos; apply Z.pow_pos_nonneg; lia).
  assert (E : Zpos (int_mant s) * 2 ^ 53 = s * 2 ^ k * P).
  { rewrite Hms. unfold P. rewrite <- !Z.mul_assoc, <- !Z.pow_add_r by lia.
    f_equal. f_equal. unfold k, e, int_expo. lia. }
  assert (HY : Zpos m * 2 ^ j * Zpos (int_mant n) - (Zpos q * Zpos (int_mant n) + r)
               = P * (Zpos m * n - s * 2 ^ k)).
  { rewrite (Z.mul_comm (Zpos q)), <- Heq, E, Hmn. unfold P. ring. }
  rewrite HY, Z.abs_mul, (Z.abs_eq P), Hmn in Hdist by lia.
  apply (Z.mul_le_mono_pos_l _ _ P HP). unfold P in *. lia.
Qed.

(** A multiple of [n] of absolute value at most [n/2] is zero. *)
Lemma small_multiple (n d : Z) : 0 < n -> - n <= 2 * (n * d) <= n -> d = 0.
Proof. intros Hn H. nia. Qed.

(** The arithmetic behind [toFixed(1)] on a quotient: if the computed
    quotient is within [X / (n K)], [|X| <= n/2], of the exact one, and the
    exact one is [rho / (2n)] above a rounding boundary, the computed one
    falls in the same tenth as soon as [10 n < K]. *)
Lemma tenths_window (n K R X rho : Z) :
  0 < n -> 10 * n < K -> n * R = 20 * X + rho * K ->
  - n <= 2 * X <= n -> 0 <= rho < 2 * n -> (rho = 0 -> X = 0) ->
  0 <= R < K * 2.
Proof.
  intros Hn HK Hkey HX Hrho Hz.
  destruct (Z.eq_dec rho 0) as [E|E].
  - rewrite E, (Hz E) in Hkey. nia.
  - assert (1 * K <= rho * K) by (apply Z.mul_le_mono_nonneg_r; lia).
    assert (rho * K <= (2 * n - 1) * K) by (apply Z.mul_le_mono_nonneg_r; lia).
    assert (0 < n * R) by lia.
    assert (n * R < n * (K * 2)) by lia.
    split; [nia|]. apply (Z.mul_lt_mono_pos_l n); lia.
Qed.

(** [(s / n).toFixed(1)] for integers [n <= s <= 5n], [n <= 10^14]: the
    exact quotient rounded half up, unless it is halfway between two tenths
    and not a binary64 number. *)
Lemma toFixed_div_of_int (s n : Z) :
  0 < n -> n <= s <= 5 * n -> n <= 10 ^ 14 ->
  ~ halfway s n \/ representable s n ->
  JS.toFixed_1 (JS.div (JS.of_int s) (JS.of_int n))
  = JS.StrDecimal false (round_half_up_tenths s n).
Proof.
  intros Hn Hs Hbound Hcase.
  assert (H1014 : 10 ^ 14 = 100000000000000) by reflexivity.
  assert (H253 : 2 ^ 53 = 9007199254740992) by reflexivity.
  destruct (div_of_int s n Hn Hs ltac:(lia)) as (m & k & -> & Hk & Hdm & Hdist).
  pose proof (digits2_pos_bounds m) as Bm. rewrite Hdm in Bm. change (53 - 1) with 52 in Bm.
  assert (H252 : 2 ^ 52 = 4503599627370496) by reflexivity.
  assert (Hk50 : 2 ^ 50 <= 2 ^ k).
  { assert (Hmn : 4503599627370496 * n <= Zpos m * n) by nia.
    assert (Hc : k = 48 \/ k = 49 \/ 50 <= k) by lia.
    destruct Hc as [->|[->|Hc]]; [exfalso| exfalso |apply Z.pow_le_mono_r; lia].
    - change (2 ^ 48) with 281474976710656 in Hdist. lia.
    - change (2 ^ 49) with 562949953421312 in Hdist. lia. }
  assert (H250 : 2 ^ 50 = 1125899906842624) by reflexivity.
  destruct k as [|kp|kp]; [lia| |lia]. 
  change (- Zpos kp) with (Zneg kp). unfold JS.toFixed_1, JS.at_least_1e21.
  replace (10 ^ 21 * 2 ^ Zpos kp <=? Zpos m) with false
    by (symmetry; apply Z.leb_gt; change (10 ^ 21) with 1000000000000000000000; lia).
  f_equal. unfold JS.nearest_tenths, round_half_up_tenths.
  rewrite Z.pow_add_r by lia. change (2 ^ 1) with 2.
  pose proof (Z.div_mod (20 * s + n) (2 * n) ltac:(lia)) as HT.
  pose proof (Z.mod_pos_bound (20 * s + n) (2 * n) ltac:(lia)) as Hrho.
  assert (E4 : 2 ^ Zpos kp = 4 * 2 ^ (Zpos kp - 2)).
  { replace (Zpos kp) with (2 + (Zpos kp - 2)) at 1 by lia. now rewrite Z.pow_add_r by lia. }
  revert HT Hrho Hdist Hk50 E4 Hcase. unfold halfway, representable.
  generalize (2 ^ (Zpos kp - 2)). generalize (2 ^ Zpos kp). 
  generalize ((20 * s + n) mod (2 * n)). generalize ((20 * s + n) / (2 * n)).
  generalize (Zpos m) Bm. clear Bm Hdm.
  intros M Bm T rho K K4 HT Hrho Hdist Hk50 E4 Hcase.
  symmetry. apply (Z.div_unique_pos _ _ _ (20 * M + K - T * (K * 2))); [|ring].
  assert (Hkey : n * (20 * M + K - T * (K * 2)) = 20 * (M * n - s * K) + rho * K).
  { replace rho with (20 * s + n - 2 * n * T) by lia. ring. }
  assert (Hz : rho = 0 -> M * n - s * K = 0).
  { intros Hz. destruct Hcase as [Hc|Hc]; [exfalso; apply Hc; exact Hz|].
    apply Z.mod_divide in Hc; [|lia]. destruct Hc as [c Hc].
    assert (Hd : M - c * K4 = 0).
    { apply (small_multiple n); [lia|].
      replace (n * (M - c * K4)) with (M * n - s * K); [lia|].
      rewrite E4. replace (s * (4 * K4)) with (4 * s * K4) by ring. rewrite Hc. ring. }
    replace (s * K) with (4 * s * K4) by (rewrite E4; ring). rewrite Hc.
    replace M with (c * K4) by lia. ring. }
  apply (tenths_window n K _ (M * n - s * K) rho); try assumption; lia.
Qed.

(** The model on known values: [1.15], [1.05] and [1.35] are not binary64
    numbers, and the quotients stored for them print as ["1.1"], ["1.1"]
    and ["1.4"]; [1.25] is one, and prints as ["1.3"]. *)
Example toFixed_1_15 :
  JS.toFixed_1 (JS.div (JS.of_int 23) (JS.of_int 20)) = JS.StrDecimal false 11.
Proof. vm_compute. reflexivity. Qed.

Example toFixed_1_05 :
  JS.toFixed_1 (JS.div (JS.of_int 21) (JS.of_int 20)) = JS.StrDecimal false 11.
Proof. vm_compute. reflexivity. Qed.

Example toFixed_1_35 :
  JS.toFixed_1 (JS.div (JS.of_int 27) (JS.of_int 20)) = JS.StrDecimal false 14.
Proof. vm_compute. reflexivity. Qed.

Example toFixed_1_25 :
  JS.toFixed_1 (JS.div (JS.of_int 5) (JS.of_int 4)) = JS.StrDecimal false 13.
Proof. vm_compute. reflexivity. Qed.

(** [parseFloat("4.0")] is the number 4, and [parseFloat("1.1")] is the
    binary64 number nearest to 1.1. *)
Example parseFloat_4_0 : JS.parseFloat (JS.StrDecimal false 40) = JS.of_int 4.
Proof. vm_compute. reflexivity. Qed.

Example parseFloat_1_1 :
  JS.parseFloat (JS.StrDecimal false 11) = S754_finite false 4953959590107546 (-52).
Proof. vm_compute. reflexivity. Qed.

End Binary64.

(** ** 7. The aggregation of [updateRoomRating] *)

Section Aggregation.

(** [totalRating += rating] and [reviewCount++] are exact on integers. *)
Lemma add_of_int_nonneg (a b : Z) :
  0 <= a -> 0 < b -> a + b < 2 ^ 53 ->
  JS.add (JS.of_int a) (JS.of_int b) = JS.of_int (a + b).
Proof.
  intros Ha Hb Hab. destruct (Z.eq_dec a 0) as [->|Hne].
  - rewrite Z.add_0_l, (of_int_pos b) by lia. reflexivity.
  - apply add_of_int; lia.
Qed.

(** The two accumulators of the [forEach] evolve independently. *)
Lemma tally_fold (docs : list Review.t) (t c : JS.number) :
  fold_left (fun '(totalRating, reviewCount) d =>
               (JS.add totalRating (Review.rating d), JS.add reviewCount (JS.of_int 1)))
            docs (t, c)
  = (fold_left JS.add (Review.rating <$> docs) t,
     fold_left (fun reviewCount _ => JS.add reviewCount (JS.of_int 1)) docs c).
Proof.
  revert t c. induction docs as [|d docs IH]; intros t c; [reflexivity|].
  simpl. apply IH.
Qed.

(** [totalRating] is the plain left-to-right sum of the stored ratings. *)
Lemma tally_total (docs : list Review.t) :
  fst (tally docs) = fold_left JS.add (Review.rating <$> docs) JS.zero.
Proof. unfold tally. now rewrite tally_fold. Qed.

Lemma count_fold (docs : list Review.t) (k : nat) :
  fold_left (fun reviewCount _ => JS.add reviewCount (JS.of_int 1)) docs (counted k)
  = counted (k + length docs).
Proof.
  revert k. induction docs as [|d docs IH]; intros k; cbn [fold_left length].
  - now rewrite Nat.add_0_r.
  - change (JS.add (counted k) (JS.of_int 1)) with (counted (S k)).
    rewrite IH. f_equal. lia.
Qed.

(** [reviewCount] depends on the number of documents only. *)
Lemma tally_count (docs : list Review.t) : snd (tally docs) = counted (length docs).
Proof. unfold tally. rewrite tally_fold. simpl. apply (count_fold docs 0). Qed.

Lemma counted_of_int (n : nat) : Z.of_nat n < 2 ^ 53 -> counted n = JS.of_int (Z.of_nat n).
Proof.
  induction n as [|n IH]; intros Hn; [reflexivity|].
  cbn [counted]. rewrite IH by lia. rewrite add_of_int_nonneg by lia. f_equal. lia.
Qed.

Lemma total_of_int (rs : list Z) (a : Z) :
  Forall (fun r => 0 < r) rs -> 0 <= a -> a + sumZ rs < 2 ^ 53 ->
  fold_left JS.add (JS.of_int <$> rs) (JS.of_int a) = JS.of_int (a + sumZ rs).
Proof.
  intros Hrs. revert a.
  induction Hrs as [|r rs Hr Hrs IH]; intros a Ha Hsum;
    cbn [fold_left fmap list_fmap]; [change (sumZ []) with 0 in *
                                    |change (sumZ (r :: rs)) with (r + sumZ rs) in *].
  - f_equal. lia.
  - assert (0 <= sumZ rs).
    { clear -Hrs. induction Hrs as [|x l Hx Hl IHl];
        [change (sumZ []) with 0|change (sumZ (x :: l)) with (x + sumZ l)]; lia. }
    rewrite add_of_int_nonneg by lia. rewrite IH by lia. f_equal. lia.
Qed.

Lemma sumZ_bounds (rs : list Z) :
  Forall (fun r => 1 <= r <= 5) rs ->
  Z.of_nat (length rs) <= sumZ rs <= 5 * Z.of_nat (length rs).
Proof.
  induction 1 as [|r rs Hr Hrs IH]; [simpl; lia|].
  change (sumZ (r :: rs)) with (r + sumZ rs). rewrite length_cons. lia.
Qed.

Lemma sumZ_Permutation (rs rs' : list Z) : rs ≡ₚ rs' -> sumZ rs = sumZ rs'.
Proof. unfold sumZ. induction 1; simpl; lia. Qed.

Lemma gt_of_int_zero (n : Z) : 0 < n < 2 ^ 53 -> JS.gt (JS.of_int n) JS.zero = true.
Proof. intros Hn. rewrite of_int_pos by lia. reflexivity. Qed.

(** The tally of documents whose ratings are integers from 1 to 5. *)
Lemma tally_integer_ratings (docs : list Review.t) (rs : list Z) :
  Review.rating <$> docs = JS.of_int <$> rs ->
  Forall (fun r => 1 <= r <= 5) rs -> Z.of_nat (length rs) <= 10 ^ 14 ->
  tally docs = (JS.of_int (sumZ rs), JS.of_int (Z.of_nat (length rs))).
Proof.
  intros Hdocs Hrs Hlen. pose proof (sumZ_bounds rs Hrs) as Hsum.
  assert (H1014 : 10 ^ 14 = 100000000000000) by reflexivity.
  assert (H253 : 2 ^ 53 = 9007199254740992) by reflexivity.
  rewrite (surjective_pairing (tally docs)), tally_total, tally_count, Hdocs.
  assert (Hl : length docs = length rs).
  { rewrite <- (length_fmap Review.rating docs), Hdocs. apply length_fmap. }
  rewrite Hl, counted_of_int by lia.
  change JS.zero with (JS.of_int 0). rewrite total_of_int; [reflexivity| |lia|lia].
  eapply Forall_impl; [exact Hrs|]. simpl. lia.
Qed.

(** The summary of documents whose ratings are integers from 1 to 5. *)
Lemma summary_integer_ratings (docs : list Review.t) (rs : list Z) :
  Review.rating <$> docs = JS.of_int <$> rs ->
  rs <> [] -> Forall (fun r => 1 <= r <= 5) rs -> Z.of_nat (length rs) <= 10 ^ 14 ->
  ~ halfway (sumZ rs) (Z.of_nat (length rs))
  \/ representable (sumZ rs) (Z.of_nat (length rs)) ->
  summary docs
  = (JS.of_tenths false (round_half_up_tenths (sumZ rs) (Z.of_nat (length rs))),
     JS.of_int (Z.of_nat (length rs))).
Proof.
  intros Hdocs Hne Hrs Hlen Hcase. pose proof (sumZ_bounds rs Hrs) as Hsum.
  assert (H1014 : 10 ^ 14 = 100000000000000) by reflexivity.
  assert (H253 : 2 ^ 53 = 9007199254740992) by reflexivity.
  assert (Hpos : 0 < Z.of_nat (length rs)) by (destruct rs; [congruence|simpl length; lia]).
  unfold summary. rewrite (tally_integer_ratings docs rs) by assumption.
  unfold averageRating. rewrite gt_of_int_zero by lia.
  rewrite toFixed_div_of_int by (assumption || lia). reflexivity.
Qed.

End Aggregation.

(** ** 8. Runs of the remote calls *)

Ltac io := unfold mbind, IO_bind, mret, IO_ret, gets, modify, throw; cbn beta iota.

Section Runs.

(** A remote call that the backend answers only advances the schedule. *)
Lemma remote_answers (k : nat) (w : World) :
  answers (S k) w -> remote w = (Returned tt, drop_fault w) /\ answers k (drop_fault w).
Proof.
  unfold answers, remote. io. intros H. destruct (faults w) as [|[c|] fs] eqn:E; simpl in H.
  - split; [reflexivity|]. simpl. now rewrite E.
  - discriminate.
  - split; [reflexivity|]. simpl. now rewrite E.
Qed.

Lemma remote_rejects (w : World) (code : string) (rest : list (option string)) :
  faults w = Some code :: rest -> remote w = (Thrown (FirestoreError code), drop_fault w).
Proof. intros E. unfold remote. io. now rewrite E. Qed.

(** A remote call that is rejected changes nothing but the schedule. *)
Lemma remote_total (w : World) :
  (exists code, remote w = (Thrown (FirestoreError code), drop_fault w))
  \/ remote w = (Returned tt, drop_fault w).
Proof.
  unfold remote. io. destruct (faults w) as [|[c|] fs]; eauto.
Qed.

Lemma getDoc_room_run (k : nat) (docId : string) (w : World) :
  answers (S k) w ->
  getDoc_room docId w = (Returned (db_rooms w !! docId), drop_fault w)
  /\ answers k (drop_fault w).
Proof.
  intros H. destruct (remote_answers k w H) as [E Hk]. split; [|exact Hk].
  unfold getDoc_room. io. now rewrite E.
Qed.

Lemma getDoc_room_rejects (docId : string) (w : World) (code : string) rest :
  faults w = Some code :: rest ->
  getDoc_room docId w = (Thrown (FirestoreError code), drop_fault w).
Proof. intros E. unfold getDoc_room. io. now rewrite (remote_rejects w code rest E). Qed.

Lemma updateDoc_room_run (k : nat) (docId : string) fields (w : World) (r : RoomData.t) :
  answers (S k) w -> db_rooms w !! docId = Some r ->
  updateDoc_room docId fields w
  = (Returned tt, set_rooms (insert docId (fields (clock w) r)) (drop_fault w))
  /\ answers k (set_rooms (insert docId (fields (clock w) r)) (drop_fault w)).
Proof.
  intros H Hr. destruct (remote_answers k w H) as [E Hk]. split; [|exact Hk].
  unfold updateDoc_room. io. rewrite E. cbn [db_rooms drop_fault]. now rewrite Hr.
Qed.

Lemma deleteDoc_room_run (k : nat) (docId : string) (w : World) :
  answers (S k) w ->
  deleteDoc_room docId w = (Returned tt, set_rooms (delete docId) (drop_fault w))
  /\ answers k (set_rooms (delete docId) (drop_fault w)).
Proof.
  intros H. destruct (remote_answers k w H) as [E Hk]. split; [|exact Hk].
  unfold deleteDoc_room. io. now rewrite E.
Qed.

Lemma setDoc_review_run (k : nat) (docId : string) data (w : World) :
  answers (S k) w ->
  setDoc_review docId data w
  = (Returned tt, set_reviews (insert docId (data (clock w))) (drop_fault w))
  /\ answers k (set_reviews (insert docId (data (clock w))) (drop_fault w)).
Proof.
  intros H. destruct (remote_answers k w H) as [E Hk]. split; [|exact Hk].
  unfold setDoc_review. io. now rewrite E.
Qed.

Lemma getDocs_reviews_run (k : nat) (roomId : string) (w : World) :
  answers (S k) w ->
  getDocs_reviews roomId w = (Returned (reviews_of roomId (db_reviews w)), drop_fault w)
  /\ answers k (drop_fault w).
Proof.
  intros H. destruct (remote_answers k w H) as [E Hk]. split; [|exact Hk].
  unfold getDocs_reviews. io. now rewrite E.
Qed.

Lemma getDocs_reviews_rejects (roomId : string) (w : World) (code : string) rest :
  faults w = Some code :: rest ->
  getDocs_reviews roomId w = (Thrown (FirestoreError code), drop_fault w).
Proof. intros E. unfold getDocs_reviews. io. now rewrite (remote_rejects w code rest E). Qed.


(** The run of [updateRoomRating] on an existing room when the backend
    answers the query and the update. *)
Lemma updateRoomRating_run (k : nat) (roomId : string) (w : World) (room : RoomData.t) :
  answers (S (S k)) w -> db_rooms w !! roomId = Some room ->
  updateRoomRating roomId w = (Returned tt, rated roomId room w)
  /\ answers k (rated roomId room w).
Proof.
  intros H Hroom. destruct (getDocs_reviews_run _ roomId w H) as [E1 H1].
  destruct (updateDoc_room_run k roomId
              (set_summary (fst (summary (reviews_of roomId (db_reviews w))))
                           (snd (summary (reviews_of roomId (db_reviews w)))))
              (drop_fault w) room H1 Hroom) as [E2 H2].
  split; [|exact H2].
  unfold updateRoomRating, rated in *. unfold mbind at 1, IO_bind at 1. rewrite E1.
  destruct (summary (reviews_of roomId (db_reviews w))) as [rating cnt]. exact E2.
Qed.

End Runs.

Section ServiceRuns.

(** The run of [addReview] for a signed-in user, an existing room and a
    backend that answers the three remote calls. *)
Lemma addReview_run (k : nat) (roomId : string) (rating : JS.number) (comment : string)
    (w : World) (u : User) (room : RoomData.t) :
  currentUser w = Some u -> answers (S (S (S k))) w -> db_rooms w !! roomId = Some room ->
  addReview roomId rating comment w
  = (Returned {| success := true |}, reviewed u roomId rating comment room w)
  /\ answers k (reviewed u roomId rating comment room w).
Proof.
  intros Hu H Hroom. unfold reviewed.
  destruct (setDoc_review_run _ (composite_id u roomId)
              (review_of u roomId rating comment) w H) as [E1 H1].
  destruct (updateRoomRating_run k roomId _ room H1 Hroom) as [E2 H2].
  split; [|exact H2].
  unfold addReview, getCurrentUser. io. rewrite Hu. io.
  fold (review_of u roomId rating comment). rewrite E1, E2. reflexivity.
Qed.

Lemma summary_count (docs : list Review.t) : snd (summary docs) = counted (length docs).
Proof.
  unfold summary. rewrite (surjective_pairing (tally docs)). simpl. apply tally_count.
Qed.

(** The documents of a room after a [setDoc] at id [k]. *)
Lemma reviews_of_insert (roomId k : string) (d : Review.t) (m : gmap string Review.t) :
  reviews_of roomId (<[k:=d]> m)
  ≡ₚ (if decide (Review.roomId d = roomId) then [d] else [])
     ++ reviews_of roomId (delete k m).
Proof.
  rewrite <- (insert_delete_eq m). unfold reviews_of.
  rewrite map_to_list_insert by apply lookup_delete_eq.
  rewrite fmap_cons, filter_cons. simpl. case_decide; reflexivity.
Qed.

Lemma reviews_of_lookup (roomId k : string) (d : Review.t) (m : gmap string Review.t) :
  m !! k = Some d ->
  reviews_of roomId m
  ≡ₚ (if decide (Review.roomId d = roomId) then [d] else [])
     ++ reviews_of roomId (delete k m).
Proof.
  intros H. rewrite <- (insert_id m k d H) at 1. apply reviews_of_insert.
Qed.

(** The query returns exactly the stored documents of the room. *)
Lemma elem_of_reviews_of (roomId : string) (d : Review.t) (m : gmap string Review.t) :
  d ∈ reviews_of roomId m <-> exists k, m !! k = Some d /\ Review.roomId d = roomId.
Proof.
  unfold reviews_of. rewrite list_elem_of_filter, list_elem_of_fmap. split.
  - intros (Hr & [k d'] & -> & Hin). apply elem_of_map_to_list in Hin. eauto.
  - intros (k & Hk & Hr). split; [exact Hr|]. exists (k, d). split; [reflexivity|].
    now apply elem_of_map_to_list.
Qed.

End ServiceRuns.

(** ** 9. Failure paths of the rating aggregator *)

Section AggregatorFailures.

(** C4. When nobody is signed in, [addReview] throws "User not
    authenticated" and the world is the one it started from: no review
    document is created or changed, the room keeps its summary, the server
    clock has not moved and no remote call was issued (the schedule is
    untouched), so no recomputation took place. *)
Theorem addReview_unauthenticated (roomId : string) (rating : JS.number)
    (comment : string) (w : World) :
  currentUser w = None ->
  addReview roomId rating comment w = (Thrown (Error "User not authenticated"), w).
Proof.
  intros Hu. unfold addReview, getCurrentUser. io. rewrite Hu. reflexivity.
Qed.

Lemma addReview_unauthenticated_witness :
  currentUser (sample_world None [Some "unavailable"]) = None
  /\ addReview "r1" (JS.of_int 4) "fine" (sample_world None [Some "unavailable"])
     = (Thrown (Error "User not authenticated"), sample_world None [Some "unavailable"]).
Proof.
  split; [reflexivity | apply addReview_unauthenticated; reflexivity].
Defined.

(** C5. When the reviews query of [updateRoomRating] is rejected, the
    query's error reaches the caller as it is and nothing is written: the
    rooms collection, and with it the room's [rating], [reviews] and
    [updatedAt], is the one before the call; so are the reviews and the
    server clock. *)
Theorem updateRoomRating_query_failure (roomId : string) (w : World)
    (code : string) (rest : list (option string)) :
  faults w = Some code :: rest ->
  exists w',
    updateRoomRating roomId w = (Thrown (FirestoreError code), w')
    /\ db_rooms w' = db_rooms w
    /\ db_reviews w' = db_reviews w
    /\ clock w' = clock w.
Proof.
  intros Hf. exists (drop_fault w). split; [|repeat split].
  unfold updateRoomRating. unfold mbind at 1, IO_bind at 1.
  now rewrite (getDocs_reviews_rejects roomId w code rest Hf).
Qed.

Lemma updateRoomRating_query_failure_witness :
  faults (sample_world (Some bob) [Some "permission-denied"]) = Some "permission-denied" :: []
  /\ exists w',
       updateRoomRating "r1" (sample_world (Some bob) [Some "permission-denied"])
       = (Thrown (FirestoreError "permission-denied"), w')
       /\ db_rooms w' = db_rooms (sample_world (Some bob) [Some "permission-denied"])
       /\ db_reviews w' = db_reviews (sample_world (Some bob) [Some "permission-denied"])
       /\ clock w' = clock (sample_world (Some bob) [Some "permission-denied"]).
Proof.
  split; [reflexivity|].
  apply (updateRoomRating_query_failure "r1" _ "permission-denied" []). reflexivity.
Defined.

(** Every run of [updateRoomRating] starts with a remote call, which takes
    an entry from a schedule that has one: a world whose schedule is
    untouched has seen no recomputation. *)
Lemma updateRoomRating_issues_remote_call (roomId : string) (w : World) :
  faults w <> [] ->
  (length (faults (snd (updateRoomRating roomId w))) < length (faults w))%nat.
Proof.
  intros Hne. unfold updateRoomRating, getDocs_reviews, updateDoc_room. io.
  assert (Hdrop : forall v, (length (faults (drop_fault v)) <= length (faults v))%nat)
    by (intros v; cbn [faults drop_fault]; destruct (faults v); simpl; lia).
  assert (Hlt : (length (faults (drop_fault w)) < length (faults w))%nat)
    by (cbn [faults drop_fault]; destruct (faults w); [congruence|simpl; lia]).
  destruct (remote_total w) as [[code ->]| ->]; [exact Hlt|]. io.
  destruct (summary _) as [rating cnt]. io.
  pose proof (Hdrop (drop_fault w)) as Hle.
  destruct (remote_total (drop_fault w)) as [[code ->]| ->]; [cbn [snd]; lia|]. io.
  destruct (db_rooms (drop_fault (drop_fault w)) !! roomId); cbn [snd faults set_rooms]; lia.
Qed.

End AggregatorFailures.

(** ** 10. What the aggregator writes *)

Section AggregatorWrites.

(** C7. With no review document for the room, [updateRoomRating] succeeds
    and the room document then has [rating] equal to the number [0] and
    [reviews] equal to the number [0]; [updatedAt] is the server time and
    every other field of the document is kept. *)
Theorem updateRoomRating_no_reviews (roomId : string) (w : World) (room : RoomData.t) :
  answers 2 w -> db_rooms w !! roomId = Some room ->
  reviews_of roomId (db_reviews w) = [] ->
  exists w' room',
    updateRoomRating roomId w = (Returned tt, w')
    /\ db_rooms w' !! roomId = Some room'
    /\ RoomData.rating room' = Some (JS.of_int 0)
    /\ RoomData.reviews room' = Some (JS.of_int 0)
    /\ RoomData.updatedAt room' = Some (clock w)
    /\ room' = set_summary JS.zero JS.zero (clock w) room
    /\ RoomData.id room' = RoomData.id room
    /\ RoomData.title room' = RoomData.title room
    /\ RoomData.rent room' = RoomData.rent room
    /\ RoomData.deposit room' = RoomData.deposit room
    /\ RoomData.description room' = RoomData.description room
    /\ RoomData.images room' = RoomData.images room
    /\ RoomData.location room' = RoomData.location room
    /\ RoomData.amenities room' = RoomData.amenities room
    /\ RoomData.featured room' = RoomData.featured room
    /\ RoomData.owner room' = RoomData.owner room
    /\ RoomData.ownerName room' = RoomData.ownerName room
    /\ RoomData.createdAt room' = RoomData.createdAt room.
Proof.
  intros H Hroom Hnone. destruct (updateRoomRating_run 0 roomId w room H Hroom) as [E _].
  exists (rated roomId room w), (set_summary JS.zero JS.zero (clock w) room).
  split; [exact E|]. split.
  - unfold rated. rewrite Hnone. cbn [db_rooms set_rooms]. apply lookup_insert_eq.
  - unfold set_summary. cbn. repeat split.
Qed.

Lemma updateRoomRating_no_reviews_witness :
  answers 2 (sample_world None []) /\ db_rooms (sample_world None []) !! "r1" = Some sample_room
  /\ reviews_of "r1" (db_reviews (sample_world None [])) = []
  /\ exists w' room',
       updateRoomRating "r1" (sample_world None []) = (Returned tt, w')
       /\ db_rooms w' !! "r1" = Some room'
       /\ RoomData.rating room' = Some (JS.of_int 0)
       /\ RoomData.reviews room' = Some (JS.of_int 0)
       /\ RoomData.updatedAt room' = Some 1%nat
       /\ room' = set_summary JS.zero JS.zero 1%nat sample_room
       /\ RoomData.id room' = RoomData.id sample_room
       /\ RoomData.title room' = RoomData.title sample_room
       /\ RoomData.rent room' = RoomData.rent sample_room
       /\ RoomData.deposit room' = RoomData.deposit sample_room
       /\ RoomData.description room' = RoomData.description sample_room
       /\ RoomData.images room' = RoomData.images sample_room
       /\ RoomData.location room' = RoomData.location sample_room
       /\ RoomData.amenities room' = RoomData.amenities sample_room
       /\ RoomData.featured room' = RoomData.featured sample_room
       /\ RoomData.owner room' = RoomData.owner sample_room
       /\ RoomData.ownerName room' = RoomData.ownerName sample_room
       /\ RoomData.createdAt room' = RoomData.createdAt sample_room.
Proof.
  split; [reflexivity|]. split; [reflexivity|]. split; [reflexivity|].
  apply (updateRoomRating_no_reviews "r1" (sample_world None []) sample_room); reflexivity.
Defined.

(** C6. Two calls of [updateRoomRating] in a row, with no review written
    in between, both succeed and write the same [rating] and the same
    [reviews] onto the room document. *)
Theorem updateRoomRating_idempotent (roomId : string) (w : World) (room : RoomData.t) :
  answers 4 w -> db_rooms w !! roomId = Some room ->
  exists w1 w2 room1 room2,
    updateRoomRating roomId w = (Returned tt, w1)
    /\ updateRoomRating roomId w1 = (Returned tt, w2)
    /\ db_reviews w1 = db_reviews w /\ db_reviews w2 = db_reviews w
    /\ db_rooms w1 !! roomId = Some room1
    /\ db_rooms w2 !! roomId = Some room2
    /\ RoomData.rating room2 = RoomData.rating room1
    /\ RoomData.reviews room2 = RoomData.reviews room1.
Proof.
  intros H Hroom.
  destruct (updateRoomRating_run 2 roomId w room H Hroom) as [E1 H1].
  set (w1 := rated roomId room w) in *.
  assert (Hroom1 : db_rooms w1 !! roomId
                   = Some (set_summary (fst (summary (reviews_of roomId (db_reviews w))))
                                       (snd (summary (reviews_of roomId (db_reviews w))))
                                       (clock w) room))
    by apply lookup_insert_eq.
  destruct (updateRoomRating_run 0 roomId w1 _ H1 Hroom1) as [E2 _].
  eexists w1, _, _, _. split; [exact E1|]. split; [exact E2|].
  split; [reflexivity|]. split; [reflexivity|]. split; [exact Hroom1|].
  split; [apply lookup_insert_eq|]. split; reflexivity.
Qed.

Lemma updateRoomRating_idempotent_witness :
  answers 4 (reviews_world three_submissions) /\ db_rooms (reviews_world three_submissions) !! "r1" = Some sample_room
  /\ exists w1 w2 room1 room2,
       updateRoomRating "r1" (reviews_world three_submissions) = (Returned tt, w1)
       /\ updateRoomRating "r1" w1 = (Returned tt, w2)
       /\ db_reviews w1 = db_reviews (reviews_world three_submissions)
       /\ db_reviews w2 = db_reviews (reviews_world three_submissions)
       /\ db_rooms w1 !! "r1" = Some room1
       /\ db_rooms w2 !! "r1" = Some room2
       /\ RoomData.rating room2 = RoomData.rating room1
       /\ RoomData.reviews room2 = RoomData.reviews room1.
Proof.
  split; [reflexivity|]. split; [reflexivity|].
  apply (updateRoomRating_idempotent "r1" (reviews_world three_submissions) sample_room); reflexivity.
Defined.

End AggregatorWrites.

(** ** 11. Submitting reviews *)

Section Reviews.





(** The scenario of the specification: rating 4, then the same reviewer
    submits rating 2: the room shows average 2.0 and count 1. *)
Example resubmission_scenario :
  let w1 := snd (addReview "r1" (JS.of_int 4) "good" (sample_world (Some bob) [])) in
  let w2 := snd (addReview "r1" (JS.of_int 2) "noisy" w1) in
  (RoomData.rating <$> db_rooms w2 !! "r1") = Some (Some (JS.of_tenths false 20))
  /\ (RoomData.reviews <$> db_rooms w2 !! "r1") = Some (Some (JS.of_int 1))
  /\ size (db_reviews w2) = 1%nat.
Proof. vm_compute. repeat split. Qed.

End Reviews.

(** ** 12. Owner checks of [updateRoom] and [deleteRoom] *)

Section OwnerChecks.

(** C9 (amended). For a signed-in user and a room read that the backend
    answers: when the room document exists and its [owner] is not the
    user's uid, [updateRoom] throws "Not authorized to update this room"
    and [deleteRoom] throws "Not authorized to delete this room"; when no
    document exists at an id that names a document ([document_id]: not
    empty, no ["/"]), both throw "Room not found". In every case the rooms
    collection is left as it was: the document is neither modified nor
    deleted. *)
Theorem updateRoom_deleteRoom_guard (id : string) (roomData : PartialRoomData.t)
    (w : World) (u : User) :
  currentUser w = Some u -> answers 1 w ->
  match db_rooms w !! id with
  | Some room => RoomData.owner room <> Some (uid u)
  | None => document_id id = true
  end ->
  fst (updateRoom id roomData w)
  = Thrown (Error match db_rooms w !! id with
                  | Some _ => "Not authorized to update this room"
                  | None => "Room not found"
                  end)
  /\ db_rooms (snd (updateRoom id roomData w)) = db_rooms w
  /\ fst (deleteRoom id w)
     = Thrown (Error match db_rooms w !! id with
                     | Some _ => "Not authorized to delete this room"
                     | None => "Room not found"
                     end)
  /\ db_rooms (snd (deleteRoom id w)) = db_rooms w.
Proof.
  intros Hu H Hguard. destruct (getDoc_room_run 0 id w H) as [E _].
  unfold updateRoom, deleteRoom, getCurrentUser. io. rewrite Hu. io. rewrite E.
  destruct (db_rooms w !! id) as [room|]; [|repeat split].
  destruct (decide (RoomData.owner room = Some (uid u))) as [Hown|_]; [contradiction|].
  repeat split.
Qed.

Lemma updateRoom_deleteRoom_guard_witness :
  currentUser (sample_world (Some bob) []) = Some bob
  /\ answers 1 (sample_world (Some bob) [])
  /\ RoomData.owner sample_room <> Some (uid bob)
  /\ fst (updateRoom "r1" takeover (sample_world (Some bob) []))
     = Thrown (Error "Not authorized to update this room")
  /\ db_rooms (snd (updateRoom "r1" takeover (sample_world (Some bob) [])))
     = db_rooms (sample_world (Some bob) [])
  /\ fst (deleteRoom "r1" (sample_world (Some bob) []))
     = Thrown (Error "Not authorized to delete this room")
  /\ db_rooms (snd (deleteRoom "r1" (sample_world (Some bob) [])))
     = db_rooms (sample_world (Some bob) []).
Proof.
  split; [reflexivity|]. split; [reflexivity|]. split; [discriminate|].
  apply (updateRoom_deleteRoom_guard "r1" takeover (sample_world (Some bob) []) bob);
    [reflexivity | reflexivity | vm_compute; discriminate].
Defined.

(** C9 (counterexample). bob is signed in and room ["r1"] belongs to alice,
    but the backend rejects the read of the room document: [updateRoom] and
    [deleteRoom] throw the backend's error, which is neither of the two
    "Not authorized" errors. The room document is untouched. *)
Lemma updateRoom_deleteRoom_read_rejected_counterexample :
  currentUser (sample_world (Some bob) [Some "unavailable"]) = Some bob
  /\ db_rooms (sample_world (Some bob) [Some "unavailable"]) !! "r1" = Some sample_room
  /\ RoomData.owner sample_room <> Some (uid bob)
  /\ fst (updateRoom "r1" takeover (sample_world (Some bob) [Some "unavailable"]))
     = Thrown (FirestoreError "unavailable")
  /\ fst (deleteRoom "r1" (sample_world (Some bob) [Some "unavailable"]))
     = Thrown (FirestoreError "unavailable")
  /\ fst (updateRoom "r1" takeover (sample_world (Some bob) [Some "unavailable"]))
     <> Thrown (Error "Not authorized to update this room")
  /\ fst (deleteRoom "r1" (sample_world (Some bob) [Some "unavailable"]))
     <> Thrown (Error "Not authorized to delete this room")
  /\ db_rooms (snd (updateRoom "r1" takeover (sample_world (Some bob) [Some "unavailable"])))
     = db_rooms (sample_world (Some bob) [Some "unavailable"])
  /\ db_rooms (snd (deleteRoom "r1" (sample_world (Some bob) [Some "unavailable"])))
     = db_rooms (sample_world (Some bob) [Some "unavailable"]).
Proof.
  split; [reflexivity|]. split; [reflexivity|]. split; [discriminate|].
  split; [reflexivity|]. split; [reflexivity|].
  split; [vm_compute; discriminate|]. split; [vm_compute; discriminate|].
  split; reflexivity.
Qed.

(** A room id without a document: "Room not found", for both functions. *)
Example guard_room_not_found :
  fst (updateRoom "r9" takeover (sample_world (Some bob) [])) = Thrown (Error "Room not found")
  /\ fst (deleteRoom "r9" (sample_world (Some bob) [])) = Thrown (Error "Room not found").
Proof. split; reflexivity. Qed.

(** The guard does not reject the owner: the patch is merged into the
    document, and the document is deleted. *)
Lemma updateRoom_by_owner (id : string) (roomData : PartialRoomData.t)
    (w : World) (u : User) (room : RoomData.t) :
  currentUser w = Some u -> answers 2 w -> db_rooms w !! id = Some room ->
  RoomData.owner room = Some (uid u) ->
  fst (updateRoom id roomData w) = Returned (partial_with_id id roomData)
  /\ db_rooms (snd (updateRoom id roomData w))
     = <[id := merge_room roomData (clock w) room]> (db_rooms w).
Proof.
  intros Hu H Hroom Hown. destruct (getDoc_room_run 1 id w H) as [E H1].
  destruct (updateDoc_room_run 0 id (merge_room roomData) (drop_fault w) room H1 Hroom)
    as [E2 _].
  unfold updateRoom, getCurrentUser. io. rewrite Hu. io. rewrite E, Hroom.
  rewrite decide_True by exact Hown. rewrite E2. split; reflexivity.
Qed.

Lemma deleteRoom_by_owner (id : string) (w : World) (u : User) (room : RoomData.t) :
  currentUser w = Some u -> answers 2 w -> db_rooms w !! id = Some room ->
  RoomData.owner room = Some (uid u) ->
  fst (deleteRoom id w) = Returned {| success := true |}
  /\ db_rooms (snd (deleteRoom id w)) = delete id (db_rooms w).
Proof.
  intros Hu H Hroom Hown. destruct (getDoc_room_run 1 id w H) as [E H1].
  destruct (deleteDoc_room_run 0 id (drop_fault w) H1) as [E2 _].
  unfold deleteRoom, getCurrentUser. io. rewrite Hu. io. rewrite E, Hroom.
  rewrite decide_True by exact Hown. rewrite E2. split; reflexivity.
Qed.

(** When the backend rejects the read of the room, its error is what both
    functions throw, and again nothing is written. *)
Lemma guard_read_rejected (id : string) (roomData : PartialRoomData.t)
    (w : World) (u : User) (code : string) (rest : list (option string)) :
  currentUser w = Some u -> faults w = Some code :: rest ->
  updateRoom id roomData w = (Thrown (FirestoreError code), drop_fault w)
  /\ deleteRoom id w = (Thrown (FirestoreError code), drop_fault w).
Proof.
  intros Hu Hf. unfold updateRoom, deleteRoom, getCurrentUser. io. rewrite Hu. io.
  rewrite (getDoc_room_rejects id w code rest Hf). split; reflexivity.
Qed.

End OwnerChecks.

(** ** 13. Favorites *)

Section Favorites.

Lemma getRoomById_run (k : nat) (id : string) (w : World) :
  answers (S k) w ->
  getRoomById id w
  = (match db_rooms w !! id with
     | Some data => Returned (with_id id data)
     | None => Thrown (Error "Room not found")
     end, drop_fault w)
  /\ answers k (drop_fault w).
Proof.
  intros H. destruct (getDoc_room_run k id w H) as [E Hk]. split; [|exact Hk].
  unfold getRoomById. io. rewrite E. now destruct (db_rooms w !! id).
Qed.






(** bob's favorite ["gone"] is skipped; ["r1"] comes back with its id. *)
Example getFavorites_dangling :
  fst (getFavorites (favorites_world [])) = Returned [with_id "r1" sample_room].
Proof. vm_compute. reflexivity. Qed.


(** Nobody signed in: the whole call fails. *)
Example getFavorites_unauthenticated :
  getFavorites (sample_world None []) = (Thrown (Error "User not authenticated"), sample_world None []).
Proof. reflexivity. Qed.

End Favorites.

(** ** 14. Ratings from 1 to 5: the summary against the exact mean *)

Section RoundedMean.

(** The tenths [t] of [round_half_up_tenths] are those of the exact
    quotient rounded half up: [t - 1/2 <= 10 * sum / count < t + 1/2]. *)
Lemma round_half_up_tenths_spec (sum count : Z) :
  0 < count ->
  (2 * round_half_up_tenths sum count - 1) * count <= 20 * sum
  < (2 * round_half_up_tenths sum count + 1) * count.
Proof.
  intros Hc. unfold round_half_up_tenths.
  pose proof (Z.div_mod (20 * sum + count) (2 * count) ltac:(lia)) as E.
  pose proof (Z.mod_pos_bound (20 * sum + count) (2 * count) ltac:(lia)) as B.
  nia.
Qed.

(** C2 (amended). For a room whose review documents hold integer ratings
    from 1 to 5 (at least one document, at most [10^14]), a successful
    [updateRoomRating] writes [sum / count] rounded half up to one decimal
    place, provided the exact quotient is not halfway between two tenths or
    is a multiple of [1/4]; it also writes the number of documents. *)
Theorem updateRoomRating_rounding (roomId : string) (w : World) (room : RoomData.t)
    (rs : list Z) :
  answers 2 w -> db_rooms w !! roomId = Some room ->
  Review.rating <$> reviews_of roomId (db_reviews w) = JS.of_int <$> rs ->
  rs <> [] -> Forall (fun r => 1 <= r <= 5) rs -> Z.of_nat (length rs) <= 10 ^ 14 ->
  ~ halfway (sumZ rs) (Z.of_nat (length rs))
  \/ representable (sumZ rs) (Z.of_nat (length rs)) ->
  exists w' room',
    updateRoomRating roomId w = (Returned tt, w')
    /\ db_rooms w' !! roomId = Some room'
    /\ RoomData.rating room'
       = Some (JS.of_tenths false (round_half_up_tenths (sumZ rs) (Z.of_nat (length rs))))
    /\ RoomData.reviews room' = Some (JS.of_int (Z.of_nat (length rs))).
Proof.
  intros H Hroom Hdocs Hne Hrs Hlen Hcase.
  destruct (updateRoomRating_run 0 roomId w room H Hroom) as [E _].
  eexists _, _. split; [exact E|]. split; [apply lookup_insert_eq|].
  cbn [RoomData.rating RoomData.reviews set_summary].
  rewrite (summary_integer_ratings _ rs Hdocs Hne Hrs Hlen Hcase). split; reflexivity.
Qed.

Lemma updateRoomRating_rounding_witness :
  answers 2 (reviews_world three_submissions)
  /\ db_rooms (reviews_world three_submissions) !! "r1" = Some sample_room
  /\ Review.rating <$> reviews_of "r1" (db_reviews (reviews_world three_submissions))
     = JS.of_int <$> [3; 4; 5]
  /\ [3; 4; 5] <> []
  /\ Forall (fun r => 1 <= r <= 5) [3; 4; 5]
  /\ Z.of_nat (length [3; 4; 5]) <= 10 ^ 14
  /\ exists w' room',
       updateRoomRating "r1" (reviews_world three_submissions) = (Returned tt, w')
       /\ db_rooms w' !! "r1" = Some room'
       /\ RoomData.rating room' = Some (JS.of_tenths false 40)
       /\ RoomData.reviews room' = Some (JS.of_int 3).
Proof.
  split; [reflexivity|]. split; [reflexivity|]. split; [vm_compute; reflexivity|].
  split; [discriminate|]. split; [repeat constructor; lia|]. split; [vm_compute; discriminate|].
  apply (updateRoomRating_rounding "r1" (reviews_world three_submissions) sample_room [3; 4; 5]).
  - reflexivity.
  - reflexivity.
  - vm_compute. reflexivity.
  - discriminate.
  - repeat constructor; lia.
  - vm_compute. discriminate.
  - left. unfold halfway. vm_compute. discriminate.
Defined.

(** C2 (counterexample). Twenty documents, three with rating 2 and
    seventeen with rating 1: [sum / count = 23 / 20 = 1.15]. Rounding half
    up gives 1.2 (12 tenths), but the binary64 quotient lies below 1.15 and
    [toFixed(1)] prints ["1.1"]: the room gets the number 1.1, which is not
    the number 1.2. *)
Lemma updateRoomRating_round_half_up_counterexample :
  (exists rs,
     Review.rating <$> reviews_of "r1" (db_reviews (reviews_world tie_submissions))
     = JS.of_int <$> rs
     /\ length rs = 20%nat /\ sumZ rs = 23)
  /\ fst (updateRoomRating "r1" (reviews_world tie_submissions)) = Returned tt
  /\ (RoomData.rating
        <$> db_rooms (snd (updateRoomRating "r1" (reviews_world tie_submissions))) !! "r1")
     = Some (Some (JS.of_tenths false 11))
  /\ round_half_up_tenths 23 20 = 12
  /\ JS.of_tenths false 11 <> JS.of_tenths false 12.
Proof.
  split.
  { exists [1; 1; 1; 1; 1; 1; 1; 1; 1; 1; 1; 1; 2; 1; 1; 2; 1; 2; 1; 1].
    split; [vm_compute; reflexivity|]. split; reflexivity. }
  split; [vm_compute; reflexivity|]. split; [vm_compute; reflexivity|].
  split; [reflexivity|]. vm_compute. discriminate.
Qed.

End RoundedMean.

(** ** 15. A sequence of reviews by distinct reviewers *)

Section ReviewSequence.

Lemma string_length_app (s t : string) :
  String.length (s +:+ t) = (String.length s + String.length t)%nat.
Proof. induction s as [|c s IH]; simpl; [reflexivity|now rewrite IH]. Qed.

Lemma string_app_inj_l (s1 s2 t : string) : s1 +:+ t = s2 +:+ t -> s1 = s2.
Proof.
  revert s2. induction s1 as [|c s1 IH]; intros [|c2 s2] H.
  - reflexivity.
  - apply (f_equal String.length) in H. rewrite !string_length_app in H. simpl in H. lia.
  - apply (f_equal String.length) in H. rewrite !string_length_app in H. simpl in H. lia.
  - change (String c (s1 +:+ t) = String c2 (s2 +:+ t)) in H.
    injection H as -> H. f_equal. now apply IH.
Qed.

(** Two reviewers of one room write to the same document id only if they
    have the same uid. *)
Lemma composite_id_inj (u1 u2 : User) (roomId : string) :
  composite_id u1 roomId = composite_id u2 roomId -> uid u1 = uid u2.
Proof. unfold composite_id. apply string_app_inj_l. Qed.

(** Writing at an id where the room has no document adds one document to
    those of the room. *)
Lemma reviews_of_insert_fresh (roomId k : string) (d : Review.t) (m : gmap string Review.t) :
  Review.roomId d = roomId ->
  (forall d0, m !! k = Some d0 -> Review.roomId d0 <> roomId) ->
  reviews_of roomId (<[k:=d]> m) ≡ₚ d :: reviews_of roomId m.
Proof.
  intros Hd Hfresh. rewrite reviews_of_insert, decide_True by exact Hd.
  simpl. apply Permutation_skip.
  destruct (m !! k) as [d0|] eqn:E.
  - rewrite (reviews_of_lookup roomId k d0 m E).
    now rewrite decide_False by (apply Hfresh; reflexivity).
  - now rewrite delete_id by exact E.
Qed.

(** The run of a sequence of submissions by reviewers with distinct uids,
    none of whom has a review of the room yet. *)
Lemma submit_all_run (roomId : string) (subs : list Submission) :
  forall (w : World) (room : RoomData.t),
  db_rooms w !! roomId = Some room ->
  answers (3 * length subs) w ->
  NoDup ((fun s => uid (reviewer s)) <$> subs) ->
  (forall s d, s ∈ subs -> db_reviews w !! composite_id (reviewer s) roomId = Some d ->
               Review.roomId d <> roomId) ->
  exists w' docs,
    submit_all roomId subs w = (Returned tt, w')
    /\ reviews_of roomId (db_reviews w') ≡ₚ docs ++ reviews_of roomId (db_reviews w)
    /\ Review.rating <$> docs = JS.of_int <$> (stars <$> subs)
    /\ (subs <> [] ->
        exists room',
          db_rooms w' !! roomId = Some room'
          /\ RoomData.rating room' = Some (fst (summary (reviews_of roomId (db_reviews w'))))
          /\ RoomData.reviews room' = Some (snd (summary (reviews_of roomId (db_reviews w'))))).
Proof.
  induction subs as [|s rest IH]; intros w room Hroom Hans Hnodup Hfresh.
  - exists w, []. repeat split; try reflexivity. congruence.
  - rewrite fmap_cons in Hnodup. apply NoDup_cons in Hnodup as [Hs Hnodup].
    assert (Hans0 : answers (S (S (S (3 * length rest)))) (as_user (reviewer s) w)).
    { unfold answers in *. cbn [faults as_user].
      replace (S (S (S (3 * length rest)))) with (3 * length (s :: rest))%nat
        by (cbn [length]; lia). exact Hans. }
    destruct (addReview_run _ roomId (JS.of_int (stars s)) (text s)
                (as_user (reviewer s) w) (reviewer s) room eq_refl Hans0 Hroom)
      as [E1 H1].
    set (w1 := reviewed (reviewer s) roomId (JS.of_int (stars s)) (text s) room
                 (as_user (reviewer s) w)) in *.
    set (doc := review_of (reviewer s) roomId (JS.of_int (stars s)) (text s) (clock w)).
    assert (Hrev1 : db_reviews w1 = <[composite_id (reviewer s) roomId := doc]> (db_reviews w))
      by reflexivity.
    assert (Hroom1 : exists room1,
               db_rooms w1 !! roomId = Some room1
               /\ RoomData.rating room1
                  = Some (fst (summary (reviews_of roomId (db_reviews w1))))
               /\ RoomData.reviews room1
                  = Some (snd (summary (reviews_of roomId (db_reviews w1))))).
    { eexists. split; [apply lookup_insert_eq|]. split; reflexivity. }
    destruct Hroom1 as (room1 & Hroom1 & Hsummary1).
    assert (P1 : reviews_of roomId (db_reviews w1) ≡ₚ doc :: reviews_of roomId (db_reviews w)).
    { rewrite Hrev1. apply reviews_of_insert_fresh; [reflexivity|].
      intros d0 Hd0. apply (Hfresh s d0); [apply list_elem_of_here|exact Hd0]. }
    destruct (IH w1 room1 Hroom1 H1 Hnodup) as (w' & docs & E2 & P2 & Hratings & Hlast).
    { intros s' d Hs' Hd. rewrite Hrev1 in Hd.
      rewrite lookup_insert_ne in Hd.
      - apply (Hfresh s' d); [now apply list_elem_of_further|exact Hd].
      - intros Hkey. apply composite_id_inj in Hkey. apply Hs.
        rewrite Hkey. apply list_elem_of_fmap. now exists s'. }
    exists w', (doc :: docs). split; [|split; [|split]].
    + cbn [submit_all]. io. rewrite E1. exact E2.
    + rewrite P2, P1. symmetry. apply Permutation_middle.
    + rewrite !fmap_cons, Hratings. reflexivity.
    + intros _. destruct rest as [|s2 rest].
      * cbn [submit_all] in E2. inversion E2; subst w'. exists room1. split; assumption.
      * apply Hlast. discriminate.
Qed.

(** C1 (amended). A room that exists and has no review yet receives the
    reviews of [n] reviewers with distinct uids ([1 <= n <= 10^14]), one
    [addReview] after the other, with integer ratings from 1 to 5, and the
    backend answers every call. Then every call succeeds and, after the last
    recomputation, the room's [reviews] field is [n]; its [rating] field is
    the mean of the ratings rounded half up to one decimal place, provided
    the exact mean is not halfway between two tenths or is a multiple of
    [1/4]. *)
Theorem addReview_sequence_summary (roomId : string) (subs : list Submission)
    (w : World) (room : RoomData.t) :
  db_rooms w !! roomId = Some room ->
  reviews_of roomId (db_reviews w) = [] ->
  answers (3 * length subs) w ->
  NoDup ((fun s => uid (reviewer s)) <$> subs) ->
  Forall (fun s => 1 <= stars s <= 5) subs ->
  subs <> [] -> Z.of_nat (length subs) <= 10 ^ 14 ->
  exists w' room',
    submit_all roomId subs w = (Returned tt, w')
    /\ db_rooms w' !! roomId = Some room'
    /\ RoomData.reviews room' = Some (JS.of_int (Z.of_nat (length subs)))
    /\ (~ halfway (sumZ (stars <$> subs)) (Z.of_nat (length subs))
        \/ representable (sumZ (stars <$> subs)) (Z.of_nat (length subs)) ->
        RoomData.rating room'
        = Some (JS.of_tenths false
                  (round_half_up_tenths (sumZ (stars <$> subs)) (Z.of_nat (length subs))))).
Proof.
  intros Hroom Hnone Hans Hnodup Hstars Hne Hlen.
  destruct (submit_all_run roomId subs w room Hroom Hans Hnodup)
    as (w' & docs & E & P & Hratings & Hlast).
  { intros s d _ Hd Hr.
    assert (Hin : d ∈ reviews_of roomId (db_reviews w))
      by (apply elem_of_reviews_of; eauto).
    rewrite Hnone in Hin. now apply not_elem_of_nil in Hin. }
  destruct (Hlast Hne) as (room' & Hroom' & Hrating & Hcount).
  rewrite Hnone, app_nil_r in P.
  assert (Hperm : Review.rating <$> reviews_of roomId (db_reviews w')
                  ≡ₚ map JS.of_int (stars <$> subs)).
  { rewrite P, Hratings. reflexivity. }
  apply Permutation_map_inv in Hperm as (rs & Hrs & Hperm).
  assert (Hlen' : length rs = length subs)
    by (rewrite <- (Permutation_length Hperm); apply length_fmap).
  assert (Hsum : sumZ rs = sumZ (stars <$> subs))
    by (symmetry; now apply sumZ_Permutation).
  assert (Hrange : Forall (fun r => 1 <= r <= 5) rs).
  { rewrite <- Hperm. apply Forall_fmap. exact Hstars. }
  exists w', room'. split; [exact E|]. split; [exact Hroom'|]. split.
  - rewrite Hcount, summary_count, <- (length_fmap Review.rating), Hrs.
    change (map JS.of_int rs) with (JS.of_int <$> rs). rewrite length_fmap, Hlen'.
    f_equal. apply counted_of_int.
    assert (H1014 : 10 ^ 14 = 100000000000000) by reflexivity.
    assert (H253 : 2 ^ 53 = 9007199254740992) by reflexivity. lia.
  - intros Hcase. rewrite Hrating.
    rewrite (summary_integer_ratings _ rs Hrs); rewrite ?Hlen', ?Hsum; try assumption.
    + reflexivity.
    + intros ->. destruct subs; [congruence|discriminate].
Qed.

(** The scenario of the specification: ratings 5, 4 and 3 give average 4.0
    and count 3. *)
Lemma addReview_sequence_summary_witness :
  db_rooms (sample_world None []) !! "r1" = Some sample_room
  /\ reviews_of "r1" (db_reviews (sample_world None [])) = []
  /\ answers (3 * length three_submissions) (sample_world None [])
  /\ NoDup ((fun s => uid (reviewer s)) <$> three_submissions)
  /\ Forall (fun s => 1 <= stars s <= 5) three_submissions
  /\ three_submissions <> []
  /\ Z.of_nat (length three_submissions) <= 10 ^ 14
  /\ exists w' room',
       submit_all "r1" three_submissions (sample_world None []) = (Returned tt, w')
       /\ db_rooms w' !! "r1" = Some room'
       /\ RoomData.reviews room' = Some (JS.of_int 3)
       /\ (~ halfway 12 3 \/ representable 12 3 ->
           RoomData.rating room' = Some (JS.of_tenths false 40)).
Proof.
  assert (Hnodup : NoDup ((fun s => uid (reviewer s)) <$> three_submissions))
    by (apply (bool_decide_unpack _); vm_compute; exact I).
  assert (Hstars : Forall (fun s => 1 <= stars s <= 5) three_submissions)
    by (repeat constructor; simpl; lia).
  split; [reflexivity|]. split; [reflexivity|]. split; [reflexivity|].
  split; [exact Hnodup|]. split; [exact Hstars|]. split; [discriminate|].
  split; [vm_compute; discriminate|].
  apply (addReview_sequence_summary "r1" three_submissions (sample_world None []) sample_room);
    [reflexivity | reflexivity | reflexivity | exact Hnodup | exact Hstars
    | discriminate | vm_compute; discriminate].
Defined.

(** C1 (counterexample). Twenty reviewers with distinct uids, three giving
    2 stars and seventeen giving 1: every call succeeds, the count is 20,
    the mean is 23/20 = 1.15, which rounds to 1.2, and the room's rating
    is the number 1.1. *)
Lemma addReview_sequence_halfway_counterexample :
  NoDup ((fun s => uid (reviewer s)) <$> tie_submissions)
  /\ Forall (fun s => 1 <= stars s <= 5) tie_submissions
  /\ length tie_submissions = 20%nat
  /\ sumZ (stars <$> tie_submissions) = 23
  /\ fst (submit_all "r1" tie_submissions (sample_world None [])) = Returned tt
  /\ (RoomData.reviews
        <$> db_rooms (snd (submit_all "r1" tie_submissions (sample_world None []))) !! "r1")
     = Some (Some (JS.of_int 20))
  /\ (RoomData.rating
        <$> db_rooms (snd (submit_all "r1" tie_submissions (sample_world None []))) !! "r1")
     = Some (Some (JS.of_tenths false 11))
  /\ round_half_up_tenths 23 20 = 12
  /\ JS.of_tenths false 11 <> JS.of_tenths false 12.
Proof.
  split; [apply (bool_decide_unpack _); vm_compute; exact I|].
  split; [repeat constructor; simpl; lia|].
  split; [reflexivity|]. split; [reflexivity|].
  split; [vm_compute; reflexivity|]. split; [vm_compute; reflexivity|].
  split; [vm_compute; reflexivity|]. split; [reflexivity|].
  vm_compute. discriminate.
Qed.

(** The scenarios of the specification: ratings 5, 4, 3 give average 4.0
    and count 3; ratings 5, 5 give average 5.0 and count 2. *)
Example scenario_5_4_3 :
  let w' := snd (submit_all "r1" three_submissions (sample_world None [])) in
  (RoomData.rating <$> db_rooms w' !! "r1") = Some (Some (JS.of_int 4))
  /\ (RoomData.reviews <$> db_rooms w' !! "r1") = Some (Some (JS.of_int 3)).
Proof. vm_compute. split; reflexivity. Qed.

Example scenario_5_5 :
  let subs := [ {| reviewer := bob; stars := 5; text := "" |};
                {| reviewer := alice; stars := 5; text := "" |} ] in
  let w' := snd (submit_all "r1" subs (sample_world None [])) in
  (RoomData.rating <$> db_rooms w' !! "r1") = Some (Some (JS.of_int 5))
  /\ (RoomData.reviews <$> db_rooms w' !! "r1") = Some (Some (JS.of_int 2)).
Proof. vm_compute. split; reflexivity. Qed.

End ReviewSequence.

(** ** 16. Creating rooms *)

Section CreatingRooms.

(** A backend that answers the next [k] calls answers fewer of them too. *)
Lemma answers_le (k k' : nat) (w : World) : answers k w -> (k' <= k)%nat -> answers k' w.
Proof.
  unfold answers. generalize (faults w). clear w. revert k'.
  induction k as [|k IH]; intros k' fs H Hle.
  - now replace k' with 0%nat by lia.
  - destruct k' as [|k']; [reflexivity|]. simpl in *.
    destruct fs as [|[c|] fs]; try discriminate; apply IH; (assumption || lia).
Qed.

Lemma addDoc_room_run (k : nat) (newId : string) data (w : World) :
  answers (S k) w ->
  addDoc_room newId data w
  = (Returned newId, set_rooms (insert newId (data (clock w))) (drop_fault w))
  /\ answers k (set_rooms (insert newId (data (clock w))) (drop_fault w)).
Proof.
  intros H. destruct (remote_answers k w H) as [E Hk]. split; [|exact Hk].
  unfold addDoc_room. io. now rewrite E.
Qed.

(** The run of [addRoom] for a signed-in user when the backend answers. *)
Lemma addRoom_run (k : nat) (newId : string) (roomData : RoomData.t) (w : World) (u : User) :
  currentUser w = Some u -> answers (S k) w ->
  addRoom newId roomData w
  = (Returned (added_room newId u roomData),
     set_rooms (insert newId (roomWithMetadata u roomData (clock w))) (drop_fault w))
  /\ answers k (set_rooms (insert newId (roomWithMetadata u roomData (clock w)))
                          (drop_fault w)).
Proof.
  intros Hu H.
  destruct (addDoc_room_run k newId (roomWithMetadata u roomData) w H) as [E Hk].
  split; [|exact Hk]. unfold addRoom, getCurrentUser. io. rewrite Hu. io. now rewrite E.
Qed.

(** X1. With nobody signed in, [addRoom], [updateRoom], [deleteRoom],
    [getRoomsByOwner], [addFavorite], [removeFavorite] and [getFavorites]
    all throw "User not authenticated" before any remote call: the world,
    schedule and clock included, is the one they started from. *)
Theorem service_requires_sign_in (w : World) (newId id roomId : string)
    (roomData : RoomData.t) (patch : PartialRoomData.t) :
  currentUser w = None ->
  addRoom newId roomData w = (Thrown (Error "User not authenticated"), w)
  /\ updateRoom id patch w = (Thrown (Error "User not authenticated"), w)
  /\ deleteRoom id w = (Thrown (Error "User not authenticated"), w)
  /\ getRoomsByOwner w = (Thrown (Error "User not authenticated"), w)
  /\ addFavorite roomId w = (Thrown (Error "User not authenticated"), w)
  /\ removeFavorite roomId w = (Thrown (Error "User not authenticated"), w)
  /\ getFavorites w = (Thrown (Error "User not authenticated"), w).
Proof.
  intros Hu.
  unfold addRoom, updateRoom, deleteRoom, getRoomsByOwner, addFavorite, removeFavorite,
    getFavorites, getCurrentUser.
  io. rewrite Hu. repeat split.
Qed.

Lemma service_requires_sign_in_witness :
  currentUser (listing_world None) = None
  /\ addRoom "n1" sample_room (listing_world None)
     = (Thrown (Error "User not authenticated"), listing_world None)
  /\ updateRoom "r1" rename (listing_world None)
     = (Thrown (Error "User not authenticated"), listing_world None)
  /\ deleteRoom "r1" (listing_world None)
     = (Thrown (Error "User not authenticated"), listing_world None)
  /\ getRoomsByOwner (listing_world None)
     = (Thrown (Error "User not authenticated"), listing_world None)
  /\ addFavorite "r1" (listing_world None)
     = (Thrown (Error "User not authenticated"), listing_world None)
  /\ removeFavorite "r1" (listing_world None)
     = (Thrown (Error "User not authenticated"), listing_world None)
  /\ getFavorites (listing_world None)
     = (Thrown (Error "User not authenticated"), listing_world None).
Proof.
  split; [reflexivity|].
  apply (service_requires_sign_in (listing_world None) "n1" "r1" "r1" sample_room rename).
  reflexivity.
Defined.

(** X2. [addRoom] by a signed-in user, answered by the backend, stores the
    room under the new id with [owner] the caller's uid, [ownerName] the
    caller's display name or "Anonymous", and both time fields the server
    time, whatever [owner], [ownerName], [createdAt] and [updatedAt] the
    given [roomData] carried. Every other field of the stored document,
    an [id] field included, is the one of [roomData]; no other room
    document, no review and no favorite is touched. *)
Theorem addRoom_stamps_owner (newId : string) (roomData : RoomData.t) (w : World) (u : User) :
  currentUser w = Some u -> answers 1 w ->
  exists ret w' doc,
    addRoom newId roomData w = (Returned ret, w')
    /\ db_rooms w' !! newId = Some doc
    /\ RoomData.owner doc = Some (uid u) /\ AddedRoom.owner ret = uid u
    /\ RoomData.ownerName doc = Some (displayName_or_Anonymous u)
    /\ RoomData.createdAt doc = Some (clock w) /\ RoomData.updatedAt doc = Some (clock w)
    /\ RoomData.id doc = RoomData.id roomData
    /\ RoomData.title doc = RoomData.title roomData
    /\ RoomData.rent doc = RoomData.rent roomData
    /\ RoomData.deposit doc = RoomData.deposit roomData
    /\ RoomData.description doc = RoomData.description roomData
    /\ RoomData.images doc = RoomData.images roomData
    /\ RoomData.location doc = RoomData.location roomData
    /\ RoomData.amenities doc = RoomData.amenities roomData
    /\ RoomData.featured doc = RoomData.featured roomData
    /\ RoomData.rating doc = RoomData.rating roomData
    /\ RoomData.reviews doc = RoomData.reviews roomData
    /\ (forall k, k <> newId -> db_rooms w' !! k = db_rooms w !! k)
    /\ db_reviews w' = db_reviews w /\ db_favorites w' = db_favorites w.
Proof.
  intros Hu H. destruct (addRoom_run 0 newId roomData w u Hu H) as [E _].
  eexists _, _, _. split; [exact E|]. cbn [db_rooms db_reviews db_favorites set_rooms drop_fault].
  split; [apply lookup_insert_eq|]. repeat split.
  intros k Hk. now apply lookup_insert_ne.
Qed.

Lemma addRoom_stamps_owner_witness :
  currentUser (listing_world (Some bob)) = Some bob
  /\ answers 1 (listing_world (Some bob))
  /\ exists ret w' doc,
       addRoom "n1" sample_room (listing_world (Some bob)) = (Returned ret, w')
       /\ db_rooms w' !! "n1" = Some doc
       /\ RoomData.owner doc = Some "bob" /\ AddedRoom.owner ret = "bob"
       /\ RoomData.ownerName doc = Some "Anonymous"
       /\ RoomData.createdAt doc = Some 9%nat /\ RoomData.updatedAt doc = Some 9%nat
       /\ RoomData.id doc = RoomData.id sample_room
       /\ RoomData.title doc = RoomData.title sample_room
       /\ RoomData.rent doc = RoomData.rent sample_room
       /\ RoomData.deposit doc = RoomData.deposit sample_room
       /\ RoomData.description doc = RoomData.description sample_room
       /\ RoomData.images doc = RoomData.images sample_room
       /\ RoomData.location doc = RoomData.location sample_room
       /\ RoomData.amenities doc = RoomData.amenities sample_room
       /\ RoomData.featured doc = RoomData.featured sample_room
       /\ RoomData.rating doc = RoomData.rating sample_room
       /\ RoomData.reviews doc = RoomData.reviews sample_room
       /\ (forall k, k <> "n1" ->
           db_rooms w' !! k = db_rooms (listing_world (Some bob)) !! k)
       /\ db_reviews w' = db_reviews (listing_world (Some bob))
       /\ db_favorites w' = db_favorites (listing_world (Some bob)).
Proof.
  split; [reflexivity|]. split; [reflexivity|].
  apply (addRoom_stamps_owner "n1" sample_room (listing_world (Some bob)) bob); reflexivity.
Defined.

(** X3. A room read back with [getRoomById] right after [addRoom] agrees
    with the object that [addRoom] returned on every field but the two
    times. In particular both carry the same [id]: the new document's id,
    unless [roomData] had an [id] of its own, which then shadows it in
    both. *)
Theorem addRoom_then_getRoomById (newId : string) (roomData : RoomData.t)
    (w : World) (u : User) :
  currentUser w = Some u -> answers 2 w ->
  exists ret w' room,
    addRoom newId roomData w = (Returned ret, w')
    /\ fst (getRoomById newId w') = Returned room
    /\ AddedRoom.id ret = default newId (RoomData.id roomData)
    /\ RoomData.id room = Some (AddedRoom.id ret)
    /\ RoomData.title room = AddedRoom.title ret
    /\ RoomData.rent room = AddedRoom.rent ret
    /\ RoomData.deposit room = AddedRoom.deposit ret
    /\ RoomData.description room = AddedRoom.description ret
    /\ RoomData.images room = AddedRoom.images ret
    /\ RoomData.location room = AddedRoom.location ret
    /\ RoomData.amenities room = AddedRoom.amenities ret
    /\ RoomData.featured room = AddedRoom.featured ret
    /\ RoomData.rating room = AddedRoom.rating ret
    /\ RoomData.reviews room = AddedRoom.reviews ret
    /\ RoomData.owner room = Some (AddedRoom.owner ret)
    /\ RoomData.ownerName room = Some (AddedRoom.ownerName ret).
Proof.
  intros Hu H. destruct (addRoom_run 1 newId roomData w u Hu H) as [E H1].
  destruct (getRoomById_run 0 newId _ H1) as [E2 _].
  eexists _, _, _. split; [exact E|]. rewrite E2.
  cbn [db_rooms set_rooms drop_fault fst]. rewrite lookup_insert_eq.
  split; [reflexivity|].
  cbn. destruct (RoomData.id roomData); repeat split.
Qed.

Lemma addRoom_then_getRoomById_witness :
  currentUser (listing_world (Some bob)) = Some bob
  /\ answers 2 (listing_world (Some bob))
  /\ exists ret w' room,
       addRoom "n1" sample_room (listing_world (Some bob)) = (Returned ret, w')
       /\ fst (getRoomById "n1" w') = Returned room
       /\ AddedRoom.id ret = "n1"
       /\ RoomData.id room = Some (AddedRoom.id ret)
       /\ RoomData.title room = AddedRoom.title ret
       /\ RoomData.rent room = AddedRoom.rent ret
       /\ RoomData.deposit room = AddedRoom.deposit ret
       /\ RoomData.description room = AddedRoom.description ret
       /\ RoomData.images room = AddedRoom.images ret
       /\ RoomData.location room = AddedRoom.location ret
       /\ RoomData.amenities room = AddedRoom.amenities ret
       /\ RoomData.featured room = AddedRoom.featured ret
       /\ RoomData.rating room = AddedRoom.rating ret
       /\ RoomData.reviews room = AddedRoom.reviews ret
       /\ RoomData.owner room = Some (AddedRoom.owner ret)
       /\ RoomData.ownerName room = Some (AddedRoom.ownerName ret).
Proof.
  split; [reflexivity|]. split; [reflexivity|].
  apply (addRoom_then_getRoomById "n1" sample_room (listing_world (Some bob)) bob);
    reflexivity.
Defined.

(** X4. The user who created a room passes the owner check on it: their
    [updateRoom] and [deleteRoom] succeed, while every user with another
    uid is refused by both. *)
Theorem creator_owns_room (newId : string) (roomData : RoomData.t)
    (patch : PartialRoomData.t) (w : World) (u : User) :
  currentUser w = Some u -> answers 3 w ->
  exists ret w',
    addRoom newId roomData w = (Returned ret, w')
    /\ fst (updateRoom newId patch w') = Returned (partial_with_id newId patch)
    /\ fst (deleteRoom newId w') = Returned {| success := true |}
    /\ db_rooms (snd (deleteRoom newId w')) !! newId = None
    /\ forall v, uid v <> uid u ->
         fst (updateRoom newId patch (as_user v w'))
         = Thrown (Error "Not authorized to update this room")
         /\ fst (deleteRoom newId (as_user v w'))
            = Thrown (Error "Not authorized to delete this room").
Proof.
  intros Hu H. destruct (addRoom_run 2 newId roomData w u Hu H) as [E H2].
  set (w' := set_rooms (insert newId (roomWithMetadata u roomData (clock w))) (drop_fault w))
    in *.
  assert (Hroom : db_rooms w' !! newId = Some (roomWithMetadata u roomData (clock w)))
    by apply lookup_insert_eq.
  assert (Hu' : currentUser w' = Some u) by exact Hu.
  eexists _, w'. split; [exact E|].
  destruct (updateRoom_by_owner newId patch w' u _ Hu' H2 Hroom eq_refl) as [Eu _].
  destruct (deleteRoom_by_owner newId w' u _ Hu' H2 Hroom eq_refl) as [Ed Ed'].
  split; [exact Eu|]. split; [exact Ed|]. split; [rewrite Ed'; apply lookup_delete_eq|].
  intros v Hv.
  assert (Hv2 : answers 1 (as_user v w')) by (apply (answers_le 2 1 w' H2); lia).
  destruct (getDoc_room_run 0 newId (as_user v w') Hv2) as [Eg _].
  unfold updateRoom, deleteRoom, getCurrentUser. io. cbn [currentUser as_user]. io.
  rewrite Eg. cbn [db_rooms as_user]. rewrite Hroom.
  cbn [RoomData.owner roomWithMetadata].
  destruct (decide (Some (uid u) = Some (uid v))) as [Heq|_]; [congruence|].
  split; reflexivity.
Qed.

Lemma creator_owns_room_witness :
  currentUser (listing_world (Some bob)) = Some bob
  /\ answers 3 (listing_world (Some bob))
  /\ exists ret w',
       addRoom "n1" sample_room (listing_world (Some bob)) = (Returned ret, w')
       /\ fst (updateRoom "n1" rename w') = Returned (partial_with_id "n1" rename)
       /\ fst (deleteRoom "n1" w') = Returned {| success := true |}
       /\ db_rooms (snd (deleteRoom "n1" w')) !! "n1" = None
       /\ forall v, uid v <> uid bob ->
            fst (updateRoom "n1" rename (as_user v w'))
            = Thrown (Error "Not authorized to update this room")
            /\ fst (deleteRoom "n1" (as_user v w'))
               = Thrown (Error "Not authorized to delete this room").
Proof.
  split; [reflexivity|]. split; [reflexivity|].
  apply (creator_owns_room "n1" sample_room rename (listing_world (Some bob)) bob);
    reflexivity.
Defined.

End CreatingRooms.

(** ** 17. Listing rooms *)

Section ListingRooms.

#[local] Instance newer_first_total : Total newer_first.
Proof.
  intros [[ta ka] da] [[tb kb] db]. unfold newer_first. cbn [fst snd].
  destruct (lt_eq_lt_dec ta tb) as [[Hlt|Heq]|Hgt]; [right; left; lia| |left; left; lia].
  destruct (String.leb_total ka kb) as [Hle|Hle]; [right|left]; right; split; auto.
Qed.

Lemma omap_dated_filter (snaps : list (string * RoomData.t)) :
  (fun x => (snd (fst x), snd x)) <$> omap dated snaps = filter has_createdAt snaps.
Proof.
  induction snaps as [|[k d] snaps IH]; [reflexivity|].
  rewrite filter_cons. cbn [omap list_omap]. unfold dated at 1.
  destruct (decide (has_createdAt (k, d))) as [[t Ht]|Hn]; cbn [fst snd] in *.
  - rewrite Ht. cbn. now rewrite <- IH.
  - destruct (RoomData.createdAt d) as [t|] eqn:E; cbn; [|exact IH].
    exfalso. apply Hn. exists t. exact E.
Qed.

(** The ordered query returns the documents that have a [createdAt], each
    once. *)
Lemma orderBy_createdAt_desc_Permutation (snaps : list (string * RoomData.t)) :
  orderBy_createdAt_desc snaps ≡ₚ filter has_createdAt snaps.
Proof.
  unfold orderBy_createdAt_desc. rewrite merge_sort_Permutation. now rewrite omap_dated_filter.
Qed.

Lemma omap_dated_times (snaps : list (string * RoomData.t)) :
  Forall (fun x => RoomData.createdAt (snd x) = Some (fst (fst x))) (omap dated snaps).
Proof.
  induction snaps as [|[k d] snaps IH]; [constructor|].
  cbn [omap list_omap]. unfold dated at 1. cbn [fst snd].
  destruct (RoomData.createdAt d) as [t|] eqn:E; cbn; [constructor; [exact E|exact IH]|exact IH].
Qed.

Lemma merge_sort_by_time (l : list (timestamp * string * RoomData.t)) :
  StronglySorted (fun a b => (fst (fst b) <= fst (fst a))%nat) (merge_sort newer_first l).
Proof.
  apply Sorted_StronglySorted; [intros a b c Hab Hbc; unfold timestamp in *; lia|].
  rewrite <- (list_fmap_id (merge_sort newer_first l)).
  apply (Sorted_fmap id newer_first); [|apply Sorted_merge_sort, _].
  intros a b [Hlt|[Heq _]]; unfold id, timestamp in *; cbn beta; lia.
Qed.

(** The ordered query lists newer documents before older ones. *)
Lemma orderBy_createdAt_desc_sorted (snaps : list (string * RoomData.t)) :
  StronglySorted not_older (listed <$> orderBy_createdAt_desc snaps).
Proof.
  unfold orderBy_createdAt_desc. rewrite <- list_fmap_compose.
  assert (Htimes : Forall (fun x => RoomData.createdAt (snd x) = Some (fst (fst x)))
                     (merge_sort newer_first (omap dated snaps))).
  { rewrite merge_sort_Permutation. apply omap_dated_times. }
  pose proof (merge_sort_by_time (omap dated snaps)) as Hsorted.
  induction Hsorted as [|x l Hl IH Hx]; [constructor|].
  apply Forall_cons in Htimes as [Hxt Hlt]. rewrite fmap_cons. constructor; [now apply IH|].
  apply Forall_fmap. rewrite Forall_forall in Hx, Hlt. apply Forall_forall. intros y Hy.
  exists (fst (fst x)), (fst (fst y)). cbn. split; [exact Hxt|]. split; [now apply Hlt|].
  now apply Hx.
Qed.

(** A document that is strictly newer than all the others heads the list. *)
Lemma orderBy_createdAt_desc_head (snaps : list (string * RoomData.t))
    (k : string) (d : RoomData.t) (t : timestamp) :
  (k, d) ∈ snaps -> RoomData.createdAt d = Some t ->
  (forall k' d' t', (k', d') ∈ snaps -> RoomData.createdAt d' = Some t' ->
                    (k', d') <> (k, d) -> (t' < t)%nat) ->
  exists rest, orderBy_createdAt_desc snaps = (k, d) :: rest.
Proof.
  intros Hin Ht Hnewest. unfold orderBy_createdAt_desc.
  pose proof (merge_sort_by_time (omap dated snaps)) as Hsorted.
  assert (Hmem : forall x, x ∈ merge_sort newer_first (omap dated snaps) <->
                           (snd (fst x), snd x) ∈ snaps
                           /\ RoomData.createdAt (snd x) = Some (fst (fst x))).
  { intros [[tx kx] dx]. rewrite merge_sort_Permutation, list_elem_of_omap. cbn [fst snd].
    split.
    - intros ([k0 d0] & Hin0 & Hd). unfold dated in Hd. cbn [fst snd] in Hd.
      destruct (RoomData.createdAt d0) as [t0|] eqn:E0; [|discriminate].
      cbn in Hd. injection Hd as <- <- <-. auto.
    - intros [Hin0 Hd]. exists (kx, dx). split; [exact Hin0|].
      unfold dated. cbn [fst snd]. now rewrite Hd. }
  destruct (merge_sort newer_first (omap dated snaps)) as [|y l] eqn:El.
  - exfalso. assert (Hx : (t, k, d) ∈ @nil (timestamp * string * RoomData.t))
      by (apply Hmem; cbn; auto).
    now apply not_elem_of_nil in Hx.
  - exists ((fun x => (snd (fst x), snd x)) <$> l). rewrite fmap_cons. f_equal.
    assert (Hx : (t, k, d) ∈ y :: l) by (apply Hmem; cbn; auto).
    assert (Hy : y ∈ y :: l) by apply list_elem_of_here.
    apply Hmem in Hy as [Hyin Hyt]. destruct y as [[ty ky] dy]. cbn [fst snd] in *.
    destruct (decide ((ky, dy) = (k, d))) as [Heq|Hne]; [exact Heq|exfalso].
    pose proof (Hnewest ky dy ty Hyin Hyt Hne) as Hlt.
    apply elem_of_cons in Hx as [Hx|Hx]; [congruence|].
    apply StronglySorted_inv in Hsorted as [_ Hall].
    rewrite Forall_forall in Hall. specialize (Hall _ Hx). cbn in Hall. lia.
Qed.

Lemma getDocs_rooms_run (k : nat) (w : World) :
  answers (S k) w ->
  getDocs_rooms w
  = (Returned (orderBy_createdAt_desc (map_to_list (db_rooms w))), drop_fault w)
  /\ answers k (drop_fault w).
Proof.
  intros H. destruct (remote_answers k w H) as [E Hk]. split; [|exact Hk].
  unfold getDocs_rooms. io. now rewrite E.
Qed.

Lemma getDocs_rooms_of_run (k : nat) (owner : string) (w : World) :
  answers (S k) w ->
  getDocs_rooms_of owner w
  = (Returned (orderBy_createdAt_desc (owned_by owner (map_to_list (db_rooms w)))),
     drop_fault w)
  /\ answers k (drop_fault w).
Proof.
  intros H. destruct (remote_answers k w H) as [E Hk]. split; [|exact Hk].
  unfold getDocs_rooms_of. io. now rewrite E.
Qed.

(** The [id] of a listed room: the [id] field that the document stores,
    and the document's own id only when it stores none. *)
Lemma listed_id (rooms : list RoomData.t) (snaps : list (string * RoomData.t))
    (col : gmap string RoomData.t) :
  rooms ≡ₚ listed <$> snaps -> (forall snap, snap ∈ snaps -> snap ∈ map_to_list col) ->
  Forall (fun room => exists docId data,
            col !! docId = Some data
            /\ room = with_id docId data
            /\ RoomData.id room = Some (default docId (RoomData.id data))) rooms.
Proof.
  intros Hperm Hsub. rewrite Hperm. apply Forall_fmap, Forall_forall. intros [k d] Hin.
  exists k, d. split; [now apply elem_of_map_to_list, Hsub|]. split; [reflexivity|].
  unfold listed, with_id. cbn. now destruct (RoomData.id d).
Qed.

(** X5. [getAllRooms] needs no signed-in user. When the backend answers,
    it returns every room document that has a [createdAt] field, each once,
    as [{ id: doc.id, ...doc.data() }], newest first; it changes nothing in
    the database. The [id] of a returned room is the [id] field stored in
    its document when there is one (the spread comes after [id: doc.id]),
    and the document id otherwise. *)
Theorem getAllRooms_newest_first (w : World) :
  answers 1 w ->
  exists rooms w',
    getAllRooms w = (Returned rooms, w')
    /\ rooms ≡ₚ listed <$> filter has_createdAt (map_to_list (db_rooms w))
    /\ Forall (fun room => exists docId data,
                 db_rooms w !! docId = Some data
                 /\ room = with_id docId data
                 /\ RoomData.id room = Some (default docId (RoomData.id data))) rooms
    /\ StronglySorted not_older rooms
    /\ db_rooms w' = db_rooms w /\ db_reviews w' = db_reviews w
    /\ db_favorites w' = db_favorites w.
Proof.
  intros H. destruct (getDocs_rooms_run 0 w H) as [E _].
  assert (Hperm : listed <$> orderBy_createdAt_desc (map_to_list (db_rooms w))
                  ≡ₚ listed <$> filter has_createdAt (map_to_list (db_rooms w)))
    by now rewrite orderBy_createdAt_desc_Permutation.
  eexists _, _. split; [unfold getAllRooms; io; rewrite E; reflexivity|].
  split; [exact Hperm|].
  split; [apply (listed_id _ _ _ Hperm); intros snap Hin;
          now apply list_elem_of_filter in Hin as [_ Hin]|].
  split; [apply orderBy_createdAt_desc_sorted|]. repeat split.
Qed.

Lemma getAllRooms_newest_first_witness :
  answers 1 (listing_world None)
  /\ exists rooms w',
       getAllRooms (listing_world None) = (Returned rooms, w')
       /\ rooms ≡ₚ listed <$> filter has_createdAt (map_to_list (db_rooms (listing_world None)))
       /\ Forall (fun room => exists docId data,
                    db_rooms (listing_world None) !! docId = Some data
                    /\ room = with_id docId data
                    /\ RoomData.id room = Some (default docId (RoomData.id data))) rooms
       /\ StronglySorted not_older rooms
       /\ db_rooms w' = db_rooms (listing_world None)
       /\ db_reviews w' = db_reviews (listing_world None)
       /\ db_favorites w' = db_favorites (listing_world None).
Proof.
  split; [reflexivity|]. apply (getAllRooms_newest_first (listing_world None)). reflexivity.
Defined.

(** A stored [id] field shadows the document id in the listing. *)
Example getAllRooms_stored_id :
  db_rooms labelled_world !! "d1" = Some (with_id "custom" sample_room)
  /\ fst (getAllRooms labelled_world) = Returned [with_id "custom" sample_room]
  /\ RoomData.id (with_id "custom" sample_room) = Some "custom".
Proof. split; [reflexivity|]. split; [vm_compute; reflexivity|reflexivity]. Qed.

(** Nobody signed in: the three rooms come back, the newest first. *)
Example getAllRooms_listing :
  fst (getAllRooms (listing_world None))
  = Returned [with_id "r3" (roomWithMetadata bob sample_room 7%nat);
              with_id "r2" (roomWithMetadata bob sample_room 5%nat);
              with_id "r1" sample_room].
Proof. vm_compute. reflexivity. Qed.

(** X6. [getRoomsByOwner], for a signed-in user and a backend that
    answers, returns exactly the room documents whose [owner] is the user's
    uid and that have a [createdAt] field, each once, as
    [{ id: doc.id, ...doc.data() }], newest first: no room of another owner
    is ever in the list. The [id] of a returned room is the [id] field
    stored in its document when there is one, and the document id
    otherwise. *)
Theorem getRoomsByOwner_own_rooms (w : World) (u : User) :
  currentUser w = Some u -> answers 1 w ->
  exists rooms w',
    getRoomsByOwner w = (Returned rooms, w')
    /\ rooms ≡ₚ listed <$> filter has_createdAt (owned_by (uid u) (map_to_list (db_rooms w)))
    /\ Forall (fun room => exists docId data,
                 db_rooms w !! docId = Some data
                 /\ room = with_id docId data
                 /\ RoomData.id room = Some (default docId (RoomData.id data))) rooms
    /\ Forall (fun room => RoomData.owner room = Some (uid u)) rooms
    /\ StronglySorted not_older rooms
    /\ db_rooms w' = db_rooms w.
Proof.
  intros Hu H. destruct (getDocs_rooms_of_run 0 (uid u) w H) as [E _].
  assert (Hperm : listed <$> orderBy_createdAt_desc (owned_by (uid u) (map_to_list (db_rooms w)))
                  ≡ₚ listed <$> filter has_createdAt
                                  (owned_by (uid u) (map_to_list (db_rooms w))))
    by now rewrite orderBy_createdAt_desc_Permutation.
  eexists _, _.
  split; [unfold getRoomsByOwner, getCurrentUser; io; rewrite Hu; io; rewrite E; reflexivity|].
  split; [exact Hperm|].
  split; [apply (listed_id _ _ _ Hperm); intros snap Hin;
          apply list_elem_of_filter in Hin as [_ Hin]; unfold owned_by in Hin;
          now apply list_elem_of_filter in Hin as [_ Hin]|].
  split; [|split; [apply orderBy_createdAt_desc_sorted|reflexivity]].
  rewrite Hperm. apply Forall_fmap, Forall_forall. intros [k d] Hin.
  apply list_elem_of_filter in Hin as [_ Hin]. unfold owned_by in Hin.
  apply list_elem_of_filter in Hin as [Hown _]. exact Hown.
Qed.

Lemma getRoomsByOwner_own_rooms_witness :
  currentUser (listing_world (Some bob)) = Some bob
  /\ answers 1 (listing_world (Some bob))
  /\ exists rooms w',
       getRoomsByOwner (listing_world (Some bob)) = (Returned rooms, w')
       /\ rooms ≡ₚ listed <$> filter has_createdAt
                     (owned_by (uid bob) (map_to_list (db_rooms (listing_world (Some bob)))))
       /\ Forall (fun room => exists docId data,
                    db_rooms (listing_world (Some bob)) !! docId = Some data
                    /\ room = with_id docId data
                    /\ RoomData.id room = Some (default docId (RoomData.id data))) rooms
       /\ Forall (fun room => RoomData.owner room = Some (uid bob)) rooms
       /\ StronglySorted not_older rooms
       /\ db_rooms w' = db_rooms (listing_world (Some bob)).
Proof.
  split; [reflexivity|]. split; [reflexivity|].
  apply (getRoomsByOwner_own_rooms (listing_world (Some bob)) bob); reflexivity.
Defined.

(** bob's two rooms, the newest first; alice's room is not listed. *)
Example getRoomsByOwner_listing :
  fst (getRoomsByOwner (listing_world (Some bob)))
  = Returned [with_id "r3" (roomWithMetadata bob sample_room 7%nat);
              with_id "r2" (roomWithMetadata bob sample_room 5%nat)].
Proof. vm_compute. reflexivity. Qed.

(** X7. When every room in the database was created before the present
    server time, a room added now is the first of [getAllRooms] and the
    first of the creator's [getRoomsByOwner]. *)
Theorem addRoom_listed_first (newId : string) (roomData : RoomData.t) (w : World) (u : User) :
  currentUser w = Some u -> answers 2 w ->
  (forall k d t, db_rooms w !! k = Some d -> RoomData.createdAt d = Some t ->
                 (t < clock w)%nat) ->
  exists ret w' others mine,
    addRoom newId roomData w = (Returned ret, w')
    /\ fst (getAllRooms w')
       = Returned (with_id newId (roomWithMetadata u roomData (clock w)) :: others)
    /\ fst (getRoomsByOwner w')
       = Returned (with_id newId (roomWithMetadata u roomData (clock w)) :: mine).
Proof.
  intros Hu H Hpast. destruct (addRoom_run 1 newId roomData w u Hu H) as [E H1].
  set (doc := roomWithMetadata u roomData (clock w)) in *.
  set (w' := set_rooms (insert newId doc) (drop_fault w)) in *.
  assert (Hrooms : db_rooms w' = <[newId:=doc]> (db_rooms w)) by reflexivity.
  assert (Hnew : (newId, doc) ∈ map_to_list (db_rooms w'))
    by (apply elem_of_map_to_list; rewrite Hrooms; apply lookup_insert_eq).
  assert (Holder : forall k' d' t', (k', d') ∈ map_to_list (db_rooms w') ->
                     RoomData.createdAt d' = Some t' -> (k', d') <> (newId, doc) ->
                     (t' < clock w)%nat).
  { intros k' d' t' Hin Ht Hne. apply elem_of_map_to_list in Hin. rewrite Hrooms in Hin.
    destruct (decide (k' = newId)) as [->|Hk].
    - rewrite lookup_insert_eq in Hin. congruence.
    - rewrite lookup_insert_ne in Hin by congruence. exact (Hpast k' d' t' Hin Ht). }
  destruct (orderBy_createdAt_desc_head (map_to_list (db_rooms w')) newId doc (clock w)
              Hnew eq_refl Holder) as (others & Hall).
  destruct (orderBy_createdAt_desc_head (owned_by (uid u) (map_to_list (db_rooms w')))
              newId doc (clock w)) as (mine & Hmine).
  { unfold owned_by. apply list_elem_of_filter. split; [reflexivity|exact Hnew]. }
  { reflexivity. }
  { intros k' d' t' Hin. unfold owned_by in Hin. apply list_elem_of_filter in Hin as [_ Hin].
    now apply Holder. }
  destruct (getDocs_rooms_run 0 w' H1) as [E1 _].
  destruct (getDocs_rooms_of_run 0 (uid u) w' H1) as [E2 _].
  exists (added_room newId u roomData), w', (listed <$> others), (listed <$> mine).
  split; [exact E|]. split.
  - unfold getAllRooms. io. rewrite E1, Hall. reflexivity.
  - unfold getRoomsByOwner, getCurrentUser. io.
    replace (currentUser w') with (Some u) by (symmetry; exact Hu). io.
    rewrite E2, Hmine. reflexivity.
Qed.

Lemma addRoom_listed_first_witness :
  currentUser (listing_world (Some bob)) = Some bob
  /\ answers 2 (listing_world (Some bob))
  /\ (forall k d t, db_rooms (listing_world (Some bob)) !! k = Some d ->
                    RoomData.createdAt d = Some t ->
                    (t < clock (listing_world (Some bob)))%nat)
  /\ exists ret w' others mine,
       addRoom "n1" sample_room (listing_world (Some bob)) = (Returned ret, w')
       /\ fst (getAllRooms w')
          = Returned (with_id "n1" (roomWithMetadata bob sample_room 9%nat) :: others)
       /\ fst (getRoomsByOwner w')
          = Returned (with_id "n1" (roomWithMetadata bob sample_room 9%nat) :: mine).
Proof.
  assert (Hpast : forall k d t, db_rooms (listing_world (Some bob)) !! k = Some d ->
                                RoomData.createdAt d = Some t ->
                                (t < clock (listing_world (Some bob)))%nat).
  { intros k d t Hk Ht.
    assert (Hin : (k, d) ∈ map_to_list (db_rooms (listing_world (Some bob))))
      by now apply elem_of_map_to_list.
    vm_compute in Hin.
    repeat (apply elem_of_cons in Hin as [Hin|Hin];
            [injection Hin as -> ->; vm_compute in Ht; injection Ht as <-; vm_compute; lia|]).
    now apply not_elem_of_nil in Hin. }
  split; [reflexivity|]. split; [reflexivity|]. split; [exact Hpast|].
  apply (addRoom_listed_first "n1" sample_room (listing_world (Some bob)) bob);
    [reflexivity | reflexivity | exact Hpast].
Defined.

End ListingRooms.

(** ** 18. Favorites: adding and removing *)

Section FavoritesWrites.

Lemma setDoc_favorite_run (k : nat) (docId : string) data (w : World) :
  answers (S k) w ->
  setDoc_favorite docId data w
  = (Returned tt, set_favorites (insert docId (data (clock w))) (drop_fault w))
  /\ answers k (set_favorites (insert docId (data (clock w))) (drop_fault w)).
Proof.
  intros H. destruct (remote_answers k w H) as [E Hk]. split; [|exact Hk].
  unfold setDoc_favorite. io. now rewrite E.
Qed.

Lemma deleteDoc_favorite_run (k : nat) (docId : string) (w : World) :
  answers (S k) w ->
  deleteDoc_favorite docId w = (Returned tt, set_favorites (delete docId) (drop_fault w))
  /\ answers k (set_favorites (delete docId) (drop_fault w)).
Proof.
  intros H. destruct (remote_answers k w H) as [E Hk]. split; [|exact Hk].
  unfold deleteDoc_favorite. io. now rewrite E.
Qed.

(** The runs of [addFavorite] and [removeFavorite] for a signed-in user
    when the backend answers. *)
Lemma addFavorite_run (k : nat) (roomId : string) (w : World) (u : User) :
  currentUser w = Some u -> answers (S k) w ->
  addFavorite roomId w
  = (Returned {| success := true |},
     set_favorites (insert (composite_id u roomId) (favorite_of u roomId (clock w)))
                   (drop_fault w))
  /\ answers k (set_favorites (insert (composite_id u roomId)
                                      (favorite_of u roomId (clock w))) (drop_fault w)).
Proof.
  intros Hu H.
  destruct (setDoc_favorite_run k (composite_id u roomId) (favorite_of u roomId) w H)
    as [E Hk].
  split; [|exact Hk]. unfold addFavorite, getCurrentUser. io. rewrite Hu. io. now rewrite E.
Qed.

Lemma removeFavorite_run (k : nat) (roomId : string) (w : World) (u : User) :
  currentUser w = Some u -> answers (S k) w ->
  removeFavorite roomId w
  = (Returned {| success := true |},
     set_favorites (delete (composite_id u roomId)) (drop_fault w))
  /\ answers k (set_favorites (delete (composite_id u roomId)) (drop_fault w)).
Proof.
  intros Hu H. destruct (deleteDoc_favorite_run k (composite_id u roomId) w H) as [E Hk].
  split; [|exact Hk]. unfold removeFavorite, getCurrentUser. io. rewrite Hu. io. now rewrite E.
Qed.


(** The favorite documents of a user after a [setDoc] at id [k]. *)
Lemma favorites_of_insert (userId k : string) (f : Favorite.t) (m : gmap string Favorite.t) :
  favorites_of userId (<[k:=f]> m)
  ≡ₚ (if decide (Favorite.userId f = userId) then [f] else [])
     ++ favorites_of userId (delete k m).
Proof.
  rewrite <- (insert_delete_eq m). unfold favorites_of.
  rewrite map_to_list_insert by apply lookup_delete_eq.
  rewrite fmap_cons, filter_cons. simpl. case_decide; reflexivity.
Qed.



(** X9. Adding the same favorite again, where [uid_roomId] names a
    document, writes to the same document: both calls succeed, the
    favorites collection keeps its document ids and the user's favorite
    room ids are the same as after the first call. *)
Theorem addFavorite_twice (roomId : string) (w : World) (u : User) :
  currentUser w = Some u -> document_id (composite_id u roomId) = true -> answers 2 w ->
  exists w1 w2,
    addFavorite roomId w = (Returned {| success := true |}, w1)
    /\ addFavorite roomId w1 = (Returned {| success := true |}, w2)
    /\ dom (db_favorites w2) = dom (db_favorites w1)
    /\ favoriteIds_of (uid u) (db_favorites w2) ≡ₚ favoriteIds_of (uid u) (db_favorites w1).
Proof.
  intros Hu _ H. destruct (addFavorite_run 1 roomId w u Hu H) as [E1 H1].
  set (w1 := set_favorites (insert (composite_id u roomId) (favorite_of u roomId (clock w)))
               (drop_fault w)) in *.
  assert (Hu1 : currentUser w1 = Some u) by exact Hu.
  destruct (addFavorite_run 0 roomId w1 u Hu1 H1) as [E2 _].
  eexists w1, _. split; [exact E1|]. split; [exact E2|].
  cbn [db_favorites w1 set_favorites drop_fault]. split.
  - rewrite insert_insert_eq, !dom_insert_L. reflexivity.
  - unfold favoriteIds_of. rewrite !favorites_of_insert, delete_insert_eq.
    cbn [Favorite.userId favorite_of]. rewrite !decide_True by reflexivity. reflexivity.
Qed.

Lemma addFavorite_twice_witness :
  currentUser (favorites_world []) = Some bob
  /\ document_id (composite_id bob "r1") = true
  /\ answers 2 (favorites_world [])
  /\ exists w1 w2,
       addFavorite "r1" (favorites_world []) = (Returned {| success := true |}, w1)
       /\ addFavorite "r1" w1 = (Returned {| success := true |}, w2)
       /\ dom (db_favorites w2) = dom (db_favorites w1)
       /\ favoriteIds_of (uid bob) (db_favorites w2)
          ≡ₚ favoriteIds_of (uid bob) (db_favorites w1).
Proof.
  split; [reflexivity|]. split; [reflexivity|]. split; [reflexivity|].
  apply (addFavorite_twice "r1" (favorites_world []) bob); reflexivity.
Defined.

(** X10. Where [uid_roomId] names a document: [removeFavorite] of a room
    that is not among the user's favorites succeeds and leaves the
    favorites collection as it is; right after an [addFavorite] of such a
    room it restores the collection that was there before the two calls. *)
Theorem removeFavorite_undoes_addFavorite (roomId : string) (w : World) (u : User) :
  currentUser w = Some u ->
  document_id (composite_id u roomId) = true ->
  db_favorites w !! composite_id u roomId = None ->
  answers 2 w ->
  (exists w0, removeFavorite roomId w = (Returned {| success := true |}, w0)
              /\ db_favorites w0 = db_favorites w)
  /\ exists w1 w2,
       addFavorite roomId w = (Returned {| success := true |}, w1)
       /\ removeFavorite roomId w1 = (Returned {| success := true |}, w2)
       /\ db_favorites w1 !! composite_id u roomId
          = Some (favorite_of u roomId (clock w))
       /\ db_favorites w2 = db_favorites w.
Proof.
  intros Hu _ Hfresh H. split.
  - destruct (removeFavorite_run 1 roomId w u Hu H) as [E _].
    eexists. split; [exact E|]. cbn [db_favorites set_favorites drop_fault].
    now apply delete_id.
  - destruct (addFavorite_run 1 roomId w u Hu H) as [E1 H1].
    set (w1 := set_favorites (insert (composite_id u roomId) (favorite_of u roomId (clock w)))
                 (drop_fault w)) in *.
    assert (Hu1 : currentUser w1 = Some u) by exact Hu.
    destruct (removeFavorite_run 0 roomId w1 u Hu1 H1) as [E2 _].
    eexists w1, _. split; [exact E1|]. split; [exact E2|].
    cbn [db_favorites w1 set_favorites drop_fault].
    split; [apply lookup_insert_eq|]. now apply delete_insert_id.
Qed.

Lemma removeFavorite_undoes_addFavorite_witness :
  currentUser (favorites_world []) = Some bob
  /\ document_id (composite_id bob "r2") = true
  /\ db_favorites (favorites_world []) !! composite_id bob "r2" = None
  /\ answers 2 (favorites_world [])
  /\ (exists w0, removeFavorite "r2" (favorites_world []) = (Returned {| success := true |}, w0)
                 /\ db_favorites w0 = db_favorites (favorites_world []))
  /\ exists w1 w2,
       addFavorite "r2" (favorites_world []) = (Returned {| success := true |}, w1)
       /\ removeFavorite "r2" w1 = (Returned {| success := true |}, w2)
       /\ db_favorites w1 !! composite_id bob "r2"
          = Some (favorite_of bob "r2" (clock (favorites_world [])))
       /\ db_favorites w2 = db_favorites (favorites_world []).
Proof.
  split; [reflexivity|]. split; [reflexivity|]. split; [reflexivity|]. split; [reflexivity|].
  apply (removeFavorite_undoes_addFavorite "r2" (favorites_world []) bob); reflexivity.
Defined.

End FavoritesWrites.

(** ** 19. The composite document ids of reviews and favorites *)

Section CompositeIds.

Lemma append_cons (c : Ascii.ascii) (s t : string) : String c s +:+ t = String c (s +:+ t).
Proof. reflexivity. Qed.

Lemma composite_strings_inj (s1 s2 r1 r2 : string) :
  has_underscore s1 = false -> has_underscore s2 = false ->
  s1 +:+ "_" +:+ r1 = s2 +:+ "_" +:+ r2 -> s1 = s2 /\ r1 = r2.
Proof.
  revert s2. induction s1 as [|c1 s1 IH]; intros [|c2 s2] H1 H2 E.
  - change (String underscore r1 = String underscore r2) in E. injection E as ->. auto.
  - rewrite append_cons in E. change (String underscore r1 = String c2 (s2 +:+ "_" +:+ r2)) in E.
    injection E as <- _. cbn in H2. rewrite ?Ascii.eqb_refl in H2. discriminate.
  - rewrite append_cons in E. change (String c1 (s1 +:+ "_" +:+ r1) = String underscore r2) in E.
    injection E as -> _. cbn in H1. rewrite ?Ascii.eqb_refl in H1. discriminate.
  - rewrite !append_cons in E. injection E as -> E. cbn in H1, H2.
    destruct (Ascii.eqb c2 underscore); [discriminate|].
    destruct (IH s2 H1 H2 E) as [-> ->]. auto.
Qed.

(** X11. When no uid contains the character ["_"], the document id
    [uid_roomId] determines both the user and the room: two different
    (user, room) pairs never share a review document or a favorite
    document. *)
Theorem composite_id_unambiguous (u1 u2 : User) (roomId1 roomId2 : string) :
  has_underscore (uid u1) = false -> has_underscore (uid u2) = false ->
  composite_id u1 roomId1 = composite_id u2 roomId2 ->
  uid u1 = uid u2 /\ roomId1 = roomId2.
Proof. unfold composite_id. apply composite_strings_inj. Qed.

Lemma composite_id_unambiguous_witness :
  has_underscore (uid bob) = false /\ has_underscore (uid bob) = false
  /\ composite_id bob "r1" = composite_id bob "r1"
  /\ uid bob = uid bob /\ "r1" = "r1".
Proof.
  split; [reflexivity|]. split; [reflexivity|]. split; [reflexivity|].
  apply (composite_id_unambiguous bob bob "r1" "r1"); reflexivity.
Defined.

(** X12. Document ids can collide when a uid contains ["_"]. If the ids of
    (user 1, room 1) and (user 2, room 2) are the same string for two
    different rooms, the review of user 2 replaces the document that held
    the review of user 1: room 1 has one review document less than its
    summary was computed from, and its summary is not recomputed. *)
Theorem addReview_collision (roomId1 roomId2 : string) (rating1 rating2 : JS.number)
    (comment1 comment2 : string) (w : World) (u1 u2 : User) (room1 room2 : RoomData.t) :
  composite_id u1 roomId1 = composite_id u2 roomId2 -> roomId1 <> roomId2 ->
  db_rooms w !! roomId1 = Some room1 -> db_rooms w !! roomId2 = Some room2 ->
  answers 6 w ->
  exists w1 w2 doc summary1,
    addReview roomId1 rating1 comment1 (as_user u1 w) = (Returned {| success := true |}, w1)
    /\ addReview roomId2 rating2 comment2 (as_user u2 w1)
       = (Returned {| success := true |}, w2)
    /\ db_reviews w2 !! composite_id u1 roomId1 = Some doc
    /\ Review.userId doc = uid u2 /\ Review.roomId doc = roomId2
    /\ length (reviews_of roomId1 (db_reviews w1))
       = S (length (reviews_of roomId1 (db_reviews w2)))
    /\ db_rooms w1 !! roomId1 = Some summary1
    /\ db_rooms w2 !! roomId1 = Some summary1
    /\ RoomData.reviews summary1
       = Some (counted (S (length (reviews_of roomId1 (db_reviews w2))))).
Proof.
  intros Hkey Hne Hroom1 Hroom2 H.
  assert (H0 : answers 6 (as_user u1 w)) by exact H.
  destruct (addReview_run 3 roomId1 rating1 comment1 (as_user u1 w) u1 room1 eq_refl H0 Hroom1)
    as [E1 H1].
  set (w1 := reviewed u1 roomId1 rating1 comment1 room1 (as_user u1 w)) in *.
  set (key := composite_id u1 roomId1) in *.
  set (d1 := review_of u1 roomId1 rating1 comment1 (clock w)).
  assert (Hrev1 : db_reviews w1 = <[key:=d1]> (db_reviews w)) by reflexivity.
  assert (Hroom2' : db_rooms (as_user u2 w1) !! roomId2 = Some room2).
  { cbn [db_rooms as_user w1 reviewed rated set_rooms set_reviews drop_fault].
    rewrite lookup_insert_ne by exact Hne. exact Hroom2. }
  assert (H1' : answers 3 (as_user u2 w1)) by exact H1.
  destruct (addReview_run 0 roomId2 rating2 comment2 (as_user u2 w1) u2 room2 eq_refl H1'
              Hroom2') as [E2 _].
  set (w2 := reviewed u2 roomId2 rating2 comment2 room2 (as_user u2 w1)) in *.
  set (d2 := review_of u2 roomId2 rating2 comment2 (clock w1)).
  assert (Hrev2 : db_reviews w2 = <[key:=d2]> (db_reviews w1))
    by (rewrite Hkey; reflexivity).
  assert (P1 : reviews_of roomId1 (db_reviews w1)
               ≡ₚ d1 :: reviews_of roomId1 (delete key (db_reviews w))).
  { rewrite Hrev1, reviews_of_insert. unfold d1. cbn [Review.roomId review_of].
    now rewrite decide_True by reflexivity. }
  assert (P2 : reviews_of roomId1 (db_reviews w2)
               ≡ₚ reviews_of roomId1 (delete key (db_reviews w))).
  { rewrite Hrev2, Hrev1, reviews_of_insert, delete_insert_eq. unfold d2.
    cbn [Review.roomId review_of]. now rewrite decide_False by congruence. }
  assert (Hlen : length (reviews_of roomId1 (db_reviews w1))
                 = S (length (reviews_of roomId1 (db_reviews w2))))
    by (rewrite (Permutation_length P1), (Permutation_length P2); reflexivity).
  exists w1, w2, d2. eexists. split; [exact E1|]. split; [exact E2|].
  split; [rewrite Hrev2; apply lookup_insert_eq|]. split; [reflexivity|].
  split; [reflexivity|]. split; [exact Hlen|].
  split; [apply lookup_insert_eq|]. split.
  - cbn [db_rooms w2 reviewed rated set_rooms set_reviews drop_fault as_user].
    rewrite lookup_insert_ne by congruence. apply lookup_insert_eq.
  - cbn [RoomData.reviews set_summary]. f_equal. rewrite summary_count, <- Hlen. reflexivity.
Qed.

Lemma addReview_collision_witness :
  composite_id user_a_b "c" = composite_id user_a "b_c" /\ "c" <> "b_c"
  /\ db_rooms collision_world !! "c" = Some sample_room
  /\ db_rooms collision_world !! "b_c" = Some sample_room
  /\ answers 6 collision_world
  /\ exists w1 w2 doc summary1,
       addReview "c" (JS.of_int 5) "mine" (as_user user_a_b collision_world)
       = (Returned {| success := true |}, w1)
       /\ addReview "b_c" (JS.of_int 1) "theirs" (as_user user_a w1)
          = (Returned {| success := true |}, w2)
       /\ db_reviews w2 !! composite_id user_a_b "c" = Some doc
       /\ Review.userId doc = uid user_a /\ Review.roomId doc = "b_c"
       /\ length (reviews_of "c" (db_reviews w1))
          = S (length (reviews_of "c" (db_reviews w2)))
       /\ db_rooms w1 !! "c" = Some summary1
       /\ db_rooms w2 !! "c" = Some summary1
       /\ RoomData.reviews summary1
          = Some (counted (S (length (reviews_of "c" (db_reviews w2))))).
Proof.
  split; [reflexivity|]. split; [discriminate|]. split; [reflexivity|].
  split; [reflexivity|]. split; [reflexivity|].
  apply (addReview_collision "c" "b_c" (JS.of_int 5) (JS.of_int 1) "mine" "theirs"
           collision_world user_a_b user_a sample_room sample_room);
    [reflexivity | discriminate | reflexivity | reflexivity | reflexivity].
Defined.

(** Which ids name documents: [""] and ["a/b"] do not, ["r1"] does. *)
Example document_id_examples :
  String slash EmptyString = "/"
  /\ document_id "" = false /\ document_id "a/b" = false /\ document_id "r1/" = false
  /\ document_id "r1" = true /\ document_id (composite_id bob "a/b") = false
  /\ document_id (composite_id bob "") = true.
Proof. repeat split. Qed.

Lemma has_slash_app (s t : string) : has_slash (s +:+ t) = has_slash s || has_slash t.
Proof.
  induction s as [|c s IH]; [reflexivity|].
  rewrite append_cons. cbn [has_slash]. rewrite IH. now destruct (Ascii.eqb c slash).
Qed.

(** [uid_roomId] names a document exactly when neither the uid nor the
    room id has a ["/"]; the ["_"] makes it non-empty. *)
Lemma document_id_composite (u : User) (roomId : string) :
  document_id (composite_id u roomId) = negb (has_slash (uid u)) && negb (has_slash roomId).
Proof.
  unfold document_id, composite_id. rewrite !has_slash_app.
  change (has_slash "_") with false. cbn [orb]. rewrite negb_orb.
  now destruct (uid u).
Qed.

End CompositeIds.

(** ** 20. Edge cases of the aggregation *)

Section AggregationEdges.

(** [(s / n).toFixed(1)] in every case, halfway quotients included: the
    exact quotient rounded half up, or one tenth less when the quotient is
    halfway between two tenths. *)
Lemma toFixed_div_of_int_near (s n : Z) :
  0 < n -> n <= s <= 5 * n -> n <= 10 ^ 14 ->
  exists t,
    JS.toFixed_1 (JS.div (JS.of_int s) (JS.of_int n)) = JS.StrDecimal false t
    /\ (t = round_half_up_tenths s n
        \/ (t = round_half_up_tenths s n - 1 /\ halfway s n)).
Proof.
  intros Hn Hs Hbound.
  destruct (Z.eq_dec ((20 * s + n) mod (2 * n)) 0) as [Hhalf|Hhalf];
    [|exists (round_half_up_tenths s n); split; [apply toFixed_div_of_int; auto|auto]].
  assert (H1014 : 10 ^ 14 = 100000000000000) by reflexivity.
  assert (H253 : 2 ^ 53 = 9007199254740992) by reflexivity.
  destruct (div_of_int s n Hn Hs ltac:(lia)) as (m & k & -> & Hk & Hdm & Hdist).
  pose proof (digits2_pos_bounds m) as Bm. rewrite Hdm in Bm. change (53 - 1) with 52 in Bm.
  assert (H252 : 2 ^ 52 = 4503599627370496) by reflexivity.
  assert (Hk50 : 2 ^ 50 <= 2 ^ k).
  { assert (Hmn : 4503599627370496 * n <= Zpos m * n) by nia.
    assert (Hc : k = 48 \/ k = 49 \/ 50 <= k) by lia.
    destruct Hc as [->|[->|Hc]]; [exfalso| exfalso |apply Z.pow_le_mono_r; lia].
    - change (2 ^ 48) with 281474976710656 in Hdist. lia.
    - change (2 ^ 49) with 562949953421312 in Hdist. lia. }
  assert (H250 : 2 ^ 50 = 1125899906842624) by reflexivity.
  destruct k as [|kp|kp]; [lia| |lia].
  change (- Zpos kp) with (Zneg kp). unfold JS.toFixed_1, JS.at_least_1e21.
  replace (10 ^ 21 * 2 ^ Zpos kp <=? Zpos m) with false
    by (symmetry; apply Z.leb_gt; change (10 ^ 21) with 1000000000000000000000; lia).
  eexists. split; [reflexivity|].
  unfold JS.nearest_tenths, round_half_up_tenths, halfway.
  rewrite Z.pow_add_r by lia. change (2 ^ 1) with 2.
  pose proof (Z.div_mod (20 * s + n) (2 * n) ltac:(lia)) as HT. rewrite Hhalf in HT.
  revert HT Hdist Hk50. generalize (2 ^ Zpos kp). generalize ((20 * s + n) / (2 * n)).
  generalize (Zpos m) Bm. clear Bm Hdm. intros M Bm T K HT Hdist Hk50.
  assert (Hkey : n * (20 * M + K - T * (K * 2)) = 20 * (M * n - s * K)) by nia.
  assert (Hwin : - 10 <= 20 * M + K - T * (K * 2) <= 10) by nia.
  destruct (Z_lt_le_dec (20 * M + K - T * (K * 2)) 0) as [Hneg|Hpos].
  - right. split; [|exact Hhalf]. symmetry.
    apply (Z.div_unique_pos _ _ _ (20 * M + K - (T - 1) * (K * 2))); [lia|ring].
  - left. symmetry.
    apply (Z.div_unique_pos _ _ _ (20 * M + K - T * (K * 2))); [lia|ring].
Qed.

Lemma add_nan_r (x : JS.number) : JS.add x S754_nan = S754_nan.
Proof. now destruct x. Qed.

Lemma fold_add_nan (l : list JS.number) : fold_left JS.add l S754_nan = S754_nan.
Proof. induction l as [|x l IH]; [reflexivity|exact IH]. Qed.

(** One [NaN] among the ratings makes the total [NaN]. *)
Lemma fold_add_with_nan (l : list JS.number) (t : JS.number) :
  S754_nan ∈ l -> fold_left JS.add l t = S754_nan.
Proof.
  revert t. induction l as [|x l IH]; intros t Hin; [now apply not_elem_of_nil in Hin|].
  apply elem_of_cons in Hin as [<-|Hin]; cbn [fold_left].
  - rewrite add_nan_r. apply fold_add_nan.
  - now apply IH.
Qed.

Lemma updateDoc_room_missing (k : nat) (docId : string) fields (w : World) :
  answers (S k) w -> db_rooms w !! docId = None ->
  updateDoc_room docId fields w = (Thrown (FirestoreError "not-found"), drop_fault w).
Proof.
  intros H Hr. destruct (remote_answers k w H) as [E _].
  unfold updateDoc_room. io. rewrite E. cbn [db_rooms drop_fault]. now rewrite Hr.
Qed.

Lemma reviews_of_delete_length (roomId k : string) (m : gmap string Review.t) :
  (length (reviews_of roomId (delete k m)) <= length (reviews_of roomId m))%nat.
Proof.
  destruct (m !! k) as [d|] eqn:E.
  - rewrite (Permutation_length (reviews_of_lookup roomId k d m E)), length_app. lia.
  - now rewrite delete_id.
Qed.

(** X13. [addReview] for a room id that has no document, where [roomId]
    and [uid_roomId] name documents ([document_id]): the review document is
    written, then the recomputation fails with the backend's "not-found"
    error, which [addReview] throws; the review stays in the database and
    no room document is created. *)
Theorem addReview_missing_room (roomId : string) (rating : JS.number) (comment : string)
    (w : World) (u : User) :
  currentUser w = Some u -> answers 3 w ->
  document_id (composite_id u roomId) = true -> document_id roomId = true ->
  db_rooms w !! roomId = None ->
  exists w',
    addReview roomId rating comment w = (Thrown (FirestoreError "not-found"), w')
    /\ db_reviews w' !! composite_id u roomId
       = Some (review_of u roomId rating comment (clock w))
    /\ db_rooms w' = db_rooms w.
Proof.
  intros Hu H _ _ Hroom.
  destruct (setDoc_review_run _ (composite_id u roomId)
              (review_of u roomId rating comment) w H) as [E1 H1].
  destruct (getDocs_reviews_run _ roomId _ H1) as [E2 H2].
  eexists. split.
  - unfold addReview, getCurrentUser. io. rewrite Hu. io.
    fold (review_of u roomId rating comment). rewrite E1.
    unfold updateRoomRating. io. rewrite E2.
    destruct (summary _) as [r c]. io.
    rewrite (updateDoc_room_missing 0 roomId _ _ H2) by exact Hroom. reflexivity.
  - cbn [db_reviews db_rooms set_reviews drop_fault]. split; [apply lookup_insert_eq|reflexivity].
Qed.

Lemma addReview_missing_room_witness :
  currentUser (sample_world (Some bob) []) = Some bob
  /\ answers 3 (sample_world (Some bob) [])
  /\ document_id (composite_id bob "gone") = true
  /\ document_id "gone" = true
  /\ db_rooms (sample_world (Some bob) []) !! "gone" = None
  /\ exists w',
       addReview "gone" (JS.of_int 4) "was nice" (sample_world (Some bob) [])
       = (Thrown (FirestoreError "not-found"), w')
       /\ db_reviews w' !! composite_id bob "gone"
          = Some (review_of bob "gone" (JS.of_int 4) "was nice"
                    (clock (sample_world (Some bob) [])))
       /\ db_rooms w' = db_rooms (sample_world (Some bob) []).
Proof.
  split; [reflexivity|]. split; [reflexivity|]. split; [reflexivity|].
  split; [reflexivity|]. split; [reflexivity|].
  apply (addReview_missing_room "gone" (JS.of_int 4) "was nice"
           (sample_world (Some bob) []) bob); reflexivity.
Defined.

(** X14. A successful [addReview] writes one review document and one room
    document and nothing else: every other room, every other review and all
    favorites are as before, and on the room itself every field other than
    [rating], [reviews] and [updatedAt] keeps its value. *)
Theorem addReview_frame (roomId : string) (rating : JS.number) (comment : string)
    (w : World) (u : User) (room : RoomData.t) :
  currentUser w = Some u -> answers 3 w -> db_rooms w !! roomId = Some room ->
  exists w' room',
    addReview roomId rating comment w = (Returned {| success := true |}, w')
    /\ (forall k, k <> roomId -> db_rooms w' !! k = db_rooms w !! k)
    /\ (forall k, k <> composite_id u roomId -> db_reviews w' !! k = db_reviews w !! k)
    /\ db_favorites w' = db_favorites w
    /\ currentUser w' = currentUser w
    /\ db_rooms w' !! roomId = Some room'
    /\ RoomData.id room' = RoomData.id room
    /\ RoomData.title room' = RoomData.title room
    /\ RoomData.rent room' = RoomData.rent room
    /\ RoomData.deposit room' = RoomData.deposit room
    /\ RoomData.description room' = RoomData.description room
    /\ RoomData.images room' = RoomData.images room
    /\ RoomData.location room' = RoomData.location room
    /\ RoomData.amenities room' = RoomData.amenities room
    /\ RoomData.featured room' = RoomData.featured room
    /\ RoomData.owner room' = RoomData.owner room
    /\ RoomData.ownerName room' = RoomData.ownerName room
    /\ RoomData.createdAt room' = RoomData.createdAt room.
Proof.
  intros Hu H Hroom.
  destruct (addReview_run 0 roomId rating comment w u room Hu H Hroom) as [E _].
  eexists _, _. split; [exact E|].
  unfold reviewed, rated.
  cbn [db_rooms db_reviews db_favorites currentUser set_rooms set_reviews drop_fault].
  split; [intros k Hk; now apply lookup_insert_ne|].
  split; [intros k Hk; now apply lookup_insert_ne|].
  split; [reflexivity|]. split; [reflexivity|].
  split; [apply lookup_insert_eq|]. repeat split.
Qed.

Lemma addReview_frame_witness :
  currentUser (listing_world (Some alice)) = Some alice
  /\ answers 3 (listing_world (Some alice))
  /\ db_rooms (listing_world (Some alice)) !! "r2"
     = Some (roomWithMetadata bob sample_room 5%nat)
  /\ exists w' room',
       addReview "r2" (JS.of_int 3) "ok" (listing_world (Some alice))
       = (Returned {| success := true |}, w')
       /\ (forall k, k <> "r2" -> db_rooms w' !! k = db_rooms (listing_world (Some alice)) !! k)
       /\ (forall k, k <> composite_id alice "r2" ->
           db_reviews w' !! k = db_reviews (listing_world (Some alice)) !! k)
       /\ db_favorites w' = db_favorites (listing_world (Some alice))
       /\ currentUser w' = currentUser (listing_world (Some alice))
       /\ db_rooms w' !! "r2" = Some room'
       /\ RoomData.id room' = RoomData.id (roomWithMetadata bob sample_room 5%nat)
       /\ RoomData.title room' = RoomData.title (roomWithMetadata bob sample_room 5%nat)
       /\ RoomData.rent room' = RoomData.rent (roomWithMetadata bob sample_room 5%nat)
       /\ RoomData.deposit room' = RoomData.deposit (roomWithMetadata bob sample_room 5%nat)
       /\ RoomData.description room'
          = RoomData.description (roomWithMetadata bob sample_room 5%nat)
       /\ RoomData.images room' = RoomData.images (roomWithMetadata bob sample_room 5%nat)
       /\ RoomData.location room' = RoomData.location (roomWithMetadata bob sample_room 5%nat)
       /\ RoomData.amenities room' = RoomData.amenities (roomWithMetadata bob sample_room 5%nat)
       /\ RoomData.featured room' = RoomData.featured (roomWithMetadata bob sample_room 5%nat)
       /\ RoomData.owner room' = RoomData.owner (roomWithMetadata bob sample_room 5%nat)
       /\ RoomData.ownerName room'
          = RoomData.ownerName (roomWithMetadata bob sample_room 5%nat)
       /\ RoomData.createdAt room'
          = RoomData.createdAt (roomWithMetadata bob sample_room 5%nat).
Proof.
  split; [reflexivity|]. split; [reflexivity|]. split; [reflexivity|].
  apply (addReview_frame "r2" (JS.of_int 3) "ok" (listing_world (Some alice)) alice
           (roomWithMetadata bob sample_room 5%nat)); reflexivity.
Defined.

(** X15. [updateRoom] does not protect the summary fields: with a patch
    that carries [rating] and [reviews], the owner's call stores those
    values. The next [updateRoomRating] ignores what is stored and writes
    the summary of the review documents again. *)
Theorem recomputation_overrides_patched_summary (roomId : string)
    (patch : PartialRoomData.t) (rating reviews : JS.number)
    (w : World) (u : User) (room : RoomData.t) :
  currentUser w = Some u -> answers 4 w -> db_rooms w !! roomId = Some room ->
  RoomData.owner room = Some (uid u) ->
  PartialRoomData.rating patch = Some rating ->
  PartialRoomData.reviews patch = Some reviews ->
  exists w1 w2 patched recomputed,
    updateRoom roomId patch w = (Returned (partial_with_id roomId patch), w1)
    /\ db_rooms w1 !! roomId = Some patched
    /\ RoomData.rating patched = Some rating
    /\ RoomData.reviews patched = Some reviews
    /\ updateRoomRating roomId w1 = (Returned tt, w2)
    /\ db_rooms w2 !! roomId = Some recomputed
    /\ RoomData.rating recomputed
       = Some (fst (summary (reviews_of roomId (db_reviews w))))
    /\ RoomData.reviews recomputed
       = Some (snd (summary (reviews_of roomId (db_reviews w)))).
Proof.
  intros Hu H Hroom Hown Hrating Hreviews.
  destruct (getDoc_room_run 3 roomId w H) as [E1 H1].
  destruct (updateDoc_room_run 2 roomId (merge_room patch) (drop_fault w) room H1 Hroom)
    as [E2 H2].
  set (w1 := set_rooms (insert roomId (merge_room patch (clock (drop_fault w)) room))
               (drop_fault (drop_fault w))) in *.
  assert (Hroom1 : db_rooms w1 !! roomId = Some (merge_room patch (clock w) room))
    by apply lookup_insert_eq.
  destruct (updateRoomRating_run 0 roomId w1 _ H2 Hroom1) as [E3 _].
  exists w1. eexists _, _, _. split.
  { unfold updateRoom, getCurrentUser. io. rewrite Hu. io. rewrite E1, Hroom.
    rewrite decide_True by exact Hown. rewrite E2. reflexivity. }
  split; [exact Hroom1|].
  split; [cbn [RoomData.rating merge_room]; now rewrite Hrating|].
  split; [cbn [RoomData.reviews merge_room]; now rewrite Hreviews|].
  split; [exact E3|]. split; [apply lookup_insert_eq|]. split; reflexivity.
Qed.

Lemma recomputation_overrides_patched_summary_witness :
  currentUser (reviews_world three_submissions) = None
  /\ currentUser (as_user alice (reviews_world three_submissions)) = Some alice
  /\ answers 4 (as_user alice (reviews_world three_submissions))
  /\ db_rooms (as_user alice (reviews_world three_submissions)) !! "r1" = Some sample_room
  /\ RoomData.owner sample_room = Some (uid alice)
  /\ PartialRoomData.rating forged_summary = Some (JS.of_int 5)
  /\ PartialRoomData.reviews forged_summary = Some (JS.of_int 1000)
  /\ exists w1 w2 patched recomputed,
       updateRoom "r1" forged_summary (as_user alice (reviews_world three_submissions))
       = (Returned (partial_with_id "r1" forged_summary), w1)
       /\ db_rooms w1 !! "r1" = Some patched
       /\ RoomData.rating patched = Some (JS.of_int 5)
       /\ RoomData.reviews patched = Some (JS.of_int 1000)
       /\ updateRoomRating "r1" w1 = (Returned tt, w2)
       /\ db_rooms w2 !! "r1" = Some recomputed
       /\ RoomData.rating recomputed
          = Some (fst (summary (reviews_of "r1"
                                  (db_reviews (as_user alice
                                                 (reviews_world three_submissions))))))
       /\ RoomData.reviews recomputed
          = Some (snd (summary (reviews_of "r1"
                                  (db_reviews (as_user alice
                                                 (reviews_world three_submissions)))))).
Proof.
  split; [reflexivity|]. split; [reflexivity|]. split; [reflexivity|].
  split; [reflexivity|]. split; [reflexivity|]. split; [reflexivity|].
  split; [reflexivity|].
  apply (recomputation_overrides_patched_summary "r1" forged_summary (JS.of_int 5)
           (JS.of_int 1000) (as_user alice (reviews_world three_submissions)) alice
           sample_room); reflexivity.
Defined.

(** The scenario in numbers: after the patch the room claims 1000 reviews
    and rating 5; after the recomputation it shows 3 reviews and 4.0. *)
Example patched_summary_scenario :
  let w0 := as_user alice (reviews_world three_submissions) in
  let w1 := snd (updateRoom "r1" forged_summary w0) in
  let w2 := snd (updateRoomRating "r1" w1) in
  (RoomData.reviews <$> db_rooms w1 !! "r1") = Some (Some (JS.of_int 1000))
  /\ (RoomData.reviews <$> db_rooms w2 !! "r1") = Some (Some (JS.of_int 3))
  /\ (RoomData.rating <$> db_rooms w2 !! "r1") = Some (Some (JS.of_int 4)).
Proof. vm_compute. repeat split. Qed.

(** X16. Whatever the ratings are, a successful [updateRoomRating] sets
    the room's [reviews] field to the number of review documents of the
    room (fewer than [2^53]). *)
Theorem reviews_field_counts_documents (roomId : string) (w : World) (room : RoomData.t) :
  answers 2 w -> db_rooms w !! roomId = Some room ->
  Z.of_nat (length (reviews_of roomId (db_reviews w))) < 2 ^ 53 ->
  exists w' room',
    updateRoomRating roomId w = (Returned tt, w')
    /\ db_rooms w' !! roomId = Some room'
    /\ RoomData.reviews room'
       = Some (JS.of_int (Z.of_nat (length (reviews_of roomId (db_reviews w))))).
Proof.
  intros H Hroom Hlen. destruct (updateRoomRating_run 0 roomId w room H Hroom) as [E _].
  eexists _, _. split; [exact E|]. split; [apply lookup_insert_eq|].
  cbn [RoomData.reviews set_summary]. now rewrite summary_count, counted_of_int.
Qed.

Lemma reviews_field_counts_documents_witness :
  answers 2 (reviews_world tie_submissions)
  /\ db_rooms (reviews_world tie_submissions) !! "r1" = Some sample_room
  /\ Z.of_nat (length (reviews_of "r1" (db_reviews (reviews_world tie_submissions)))) < 2 ^ 53
  /\ exists w' room',
       updateRoomRating "r1" (reviews_world tie_submissions) = (Returned tt, w')
       /\ db_rooms w' !! "r1" = Some room'
       /\ RoomData.reviews room'
          = Some (JS.of_int
                    (Z.of_nat (length (reviews_of "r1"
                                         (db_reviews (reviews_world tie_submissions)))))).
Proof.
  split; [reflexivity|]. split; [reflexivity|]. split; [vm_compute; reflexivity|].
  apply (reviews_field_counts_documents "r1" (reviews_world tie_submissions) sample_room);
    [reflexivity | reflexivity | vm_compute; reflexivity].
Defined.

(** One [NaN] rating among the documents makes the written rating [NaN]:
    [NaN / count] is [NaN], prints as ["NaN"] and parses back to [NaN]. *)
Lemma summary_nan (docs : list Review.t) :
  S754_nan ∈ Review.rating <$> docs -> Z.of_nat (length docs) < 2 ^ 53 ->
  fst (summary docs) = S754_nan.
Proof.
  intros Hin Hlen.
  assert (Hpos : 0 < Z.of_nat (length docs)).
  { destruct docs; [now apply not_elem_of_nil in Hin|simpl length; lia]. }
  unfold summary. rewrite (surjective_pairing (tally docs)), tally_total, tally_count.
  rewrite (fold_add_with_nan _ _ Hin), counted_of_int by exact Hlen.
  unfold averageRating. rewrite gt_of_int_zero by lia.
  rewrite of_int_pos by lia. reflexivity.
Qed.

(** X17. Ratings are not validated, and [NaN] is a [number]: after a
    successful [addReview] with rating [NaN] the room's [rating] is [NaN],
    whatever the other reviews of the room say. *)
Theorem addReview_nan_rating (roomId comment : string) (w : World) (u : User)
    (room : RoomData.t) :
  currentUser w = Some u -> answers 3 w -> db_rooms w !! roomId = Some room ->
  Z.of_nat (length (reviews_of roomId (db_reviews w))) < 2 ^ 53 - 1 ->
  exists w' room',
    addReview roomId S754_nan comment w = (Returned {| success := true |}, w')
    /\ db_rooms w' !! roomId = Some room'
    /\ RoomData.rating room' = Some S754_nan.
Proof.
  intros Hu H Hroom Hlen.
  destruct (addReview_run 0 roomId S754_nan comment w u room Hu H Hroom) as [E _].
  eexists _, _. split; [exact E|]. split; [apply lookup_insert_eq|].
  cbn [RoomData.rating set_summary db_reviews set_reviews drop_fault]. f_equal.
  apply summary_nan.
  - apply list_elem_of_fmap. exists (review_of u roomId S754_nan comment (clock w)).
    split; [reflexivity|]. apply elem_of_reviews_of. exists (composite_id u roomId).
    split; [apply lookup_insert_eq|reflexivity].
  - rewrite (Permutation_length (reviews_of_insert _ _ _ _)), length_app.
    pose proof (reviews_of_delete_length roomId (composite_id u roomId) (db_reviews w)).
    case_decide; simpl length; lia.
Qed.

Lemma addReview_nan_rating_witness :
  currentUser (reviews_world three_submissions) = None
  /\ currentUser (as_user bob (reviews_world three_submissions)) = Some bob
  /\ answers 3 (as_user bob (reviews_world three_submissions))
  /\ db_rooms (as_user bob (reviews_world three_submissions)) !! "r1" = Some sample_room
  /\ Z.of_nat (length (reviews_of "r1"
                         (db_reviews (as_user bob (reviews_world three_submissions)))))
     < 2 ^ 53 - 1
  /\ exists w' room',
       addReview "r1" S754_nan "?" (as_user bob (reviews_world three_submissions))
       = (Returned {| success := true |}, w')
       /\ db_rooms w' !! "r1" = Some room'
       /\ RoomData.rating room' = Some S754_nan.
Proof.
  split; [reflexivity|]. split; [reflexivity|]. split; [reflexivity|].
  split; [reflexivity|]. split; [vm_compute; reflexivity|].
  apply (addReview_nan_rating "r1" "?" (as_user bob (reviews_world three_submissions)) bob
           sample_room); [reflexivity | reflexivity | reflexivity | vm_compute; reflexivity].
Defined.

(** X18. For integer ratings from 1 to 5 (at least one document, at most
    [10^14]) the rating that [updateRoomRating] writes is always a number
    of tenths [t / 10] between 1.0 and 5.0 that is nearest to the exact
    mean: [|sum / count - t / 10| <= 1/20], halfway means included. *)
Theorem updateRoomRating_nearest_tenth (roomId : string) (w : World) (room : RoomData.t)
    (rs : list Z) :
  answers 2 w -> db_rooms w !! roomId = Some room ->
  Review.rating <$> reviews_of roomId (db_reviews w) = JS.of_int <$> rs ->
  rs <> [] -> Forall (fun r => 1 <= r <= 5) rs -> Z.of_nat (length rs) <= 10 ^ 14 ->
  exists w' room' t,
    updateRoomRating roomId w = (Returned tt, w')
    /\ db_rooms w' !! roomId = Some room'
    /\ RoomData.rating room' = Some (JS.of_tenths false t)
    /\ 10 <= t <= 50
    /\ (2 * t - 1) * Z.of_nat (length rs) <= 20 * sumZ rs
       <= (2 * t + 1) * Z.of_nat (length rs).
Proof.
  intros H Hroom Hdocs Hne Hrs Hlen. pose proof (sumZ_bounds rs Hrs) as Hsum.
  assert (Hpos : 0 < Z.of_nat (length rs)) by (destruct rs; [congruence|simpl length; lia]).
  destruct (updateRoomRating_run 0 roomId w room H Hroom) as [E _].
  destruct (toFixed_div_of_int_near (sumZ rs) (Z.of_nat (length rs)) Hpos Hsum Hlen)
    as (t & Ht & Hcase).
  assert (Hnear : (2 * t - 1) * Z.of_nat (length rs) <= 20 * sumZ rs
                  <= (2 * t + 1) * Z.of_nat (length rs)).
  { pose proof (round_half_up_tenths_spec (sumZ rs) (Z.of_nat (length rs)) Hpos) as Hspec.
    destruct Hcase as [->|[-> Hhalf]]; [lia|].
    unfold halfway in Hhalf. unfold round_half_up_tenths in *.
    pose proof (Z.div_mod (20 * sumZ rs + Z.of_nat (length rs))
                  (2 * Z.of_nat (length rs)) ltac:(lia)) as HT.
    rewrite Hhalf in HT. nia. }
  eexists _, _, t. split; [exact E|]. split; [apply lookup_insert_eq|].
  split; [|split; [nia|exact Hnear]].
  cbn [RoomData.rating set_summary]. f_equal.
  unfold summary. rewrite (tally_integer_ratings _ rs Hdocs Hrs Hlen).
  unfold averageRating. rewrite gt_of_int_zero by (change (2 ^ 53) with 9007199254740992;
                                                   change (10 ^ 14) with 100000000000000 in Hlen;
                                                   lia).
  cbn [fst]. now rewrite Ht.
Qed.

Lemma updateRoomRating_nearest_tenth_witness :
  answers 2 (reviews_world tie_submissions)
  /\ db_rooms (reviews_world tie_submissions) !! "r1" = Some sample_room
  /\ Review.rating <$> reviews_of "r1" (db_reviews (reviews_world tie_submissions))
     = JS.of_int <$> [1; 1; 1; 1; 1; 1; 1; 1; 1; 1; 1; 1; 2; 1; 1; 2; 1; 2; 1; 1]
  /\ [1; 1; 1; 1; 1; 1; 1; 1; 1; 1; 1; 1; 2; 1; 1; 2; 1; 2; 1; 1] <> []
  /\ Forall (fun r => 1 <= r <= 5)
       [1; 1; 1; 1; 1; 1; 1; 1; 1; 1; 1; 1; 2; 1; 1; 2; 1; 2; 1; 1]
  /\ Z.of_nat (length [1; 1; 1; 1; 1; 1; 1; 1; 1; 1; 1; 1; 2; 1; 1; 2; 1; 2; 1; 1])
     <= 10 ^ 14
  /\ exists w' room' t,
       updateRoomRating "r1" (reviews_world tie_submissions) = (Returned tt, w')
       /\ db_rooms w' !! "r1" = Some room'
       /\ RoomData.rating room' = Some (JS.of_tenths false t)
       /\ 10 <= t <= 50
       /\ (2 * t - 1)
          * Z.of_nat (length [1; 1; 1; 1; 1; 1; 1; 1; 1; 1; 1; 1; 2; 1; 1; 2; 1; 2; 1; 1])
          <= 20 * sumZ [1; 1; 1; 1; 1; 1; 1; 1; 1; 1; 1; 1; 2; 1; 1; 2; 1; 2; 1; 1]
          <= (2 * t + 1)
             * Z.of_nat (length [1; 1; 1; 1; 1; 1; 1; 1; 1; 1; 1; 1; 2; 1; 1; 2; 1; 2; 1; 1]).
Proof.
  split; [reflexivity|]. split; [reflexivity|]. split; [vm_compute; reflexivity|].
  split; [discriminate|]. split; [repeat constructor; lia|]. split; [vm_compute; discriminate|].
  apply (updateRoomRating_nearest_tenth "r1" (reviews_world tie_submissions) sample_room
           [1; 1; 1; 1; 1; 1; 1; 1; 1; 1; 1; 1; 2; 1; 1; 2; 1; 2; 1; 1]).
  - reflexivity.
  - reflexivity.
  - vm_compute. reflexivity.
  - discriminate.
  - repeat constructor; lia.
  - vm_compute. discriminate.
Defined.

End AggregationEdges.

(** ** 21. Deleting a room and handing it over *)

Section DeletingRooms.

(** The run of [deleteRoom] for the owner when the backend answers the
    read and the delete. *)
Lemma deleteRoom_run (k : nat) (id : string) (w : World) (u : User) (room : RoomData.t) :
  currentUser w = Some u -> answers (S (S k)) w -> db_rooms w !! id = Some room ->
  RoomData.owner room = Some (uid u) ->
  deleteRoom id w
  = (Returned {| success := true |}, set_rooms (delete id) (drop_fault (drop_fault w)))
  /\ answers k (set_rooms (delete id) (drop_fault (drop_fault w))).
Proof.
  intros Hu H Hroom Hown. destruct (getDoc_room_run _ id w H) as [E H1].
  destruct (deleteDoc_room_run k id (drop_fault w) H1) as [E2 H2]. split; [|exact H2].
  unfold deleteRoom, getCurrentUser. io. rewrite Hu. io. rewrite E, Hroom.
  rewrite decide_True by exact Hown. now rewrite E2.
Qed.


(** X19. [deleteRoom] by the owner deletes the room document and nothing
    else: [getRoomById] then fails with "Room not found", while the reviews
    and the favorites that name the room stay in their collections. *)
Theorem deleteRoom_no_cascade (id : string) (w : World) (u : User) (room : RoomData.t) :
  currentUser w = Some u -> answers 3 w -> db_rooms w !! id = Some room ->
  RoomData.owner room = Some (uid u) ->
  exists w',
    deleteRoom id w = (Returned {| success := true |}, w')
    /\ fst (getRoomById id w') = Thrown (Error "Room not found")
    /\ db_reviews w' = db_reviews w
    /\ db_favorites w' = db_favorites w
    /\ (forall k, k <> id -> db_rooms w' !! k = db_rooms w !! k).
Proof.
  intros Hu H Hroom Hown.
  destruct (deleteRoom_run 1 id w u room Hu H Hroom Hown) as [E H1].
  destruct (getRoomById_run 0 id _ H1) as [E2 _].
  eexists. split; [exact E|]. split; [|repeat split].
  - rewrite E2. cbn [db_rooms set_rooms drop_fault fst]. now rewrite lookup_delete_eq.
  - intros k Hk. cbn [db_rooms set_rooms drop_fault]. now apply lookup_delete_ne.
Qed.

Lemma deleteRoom_no_cascade_witness :
  currentUser (as_user alice (favorites_world [])) = Some alice
  /\ answers 3 (as_user alice (favorites_world []))
  /\ db_rooms (as_user alice (favorites_world [])) !! "r1" = Some sample_room
  /\ RoomData.owner sample_room = Some (uid alice)
  /\ exists w',
       deleteRoom "r1" (as_user alice (favorites_world []))
       = (Returned {| success := true |}, w')
       /\ fst (getRoomById "r1" w') = Thrown (Error "Room not found")
       /\ db_reviews w' = db_reviews (as_user alice (favorites_world []))
       /\ db_favorites w' = db_favorites (as_user alice (favorites_world []))
       /\ (forall k, k <> "r1" ->
           db_rooms w' !! k = db_rooms (as_user alice (favorites_world [])) !! k).
Proof.
  split; [reflexivity|]. split; [reflexivity|]. split; [reflexivity|]. split; [reflexivity|].
  apply (deleteRoom_no_cascade "r1" (as_user alice (favorites_world [])) alice sample_room);
    reflexivity.
Defined.



(** bob's favorites before and after alice deletes room ["r1"]. *)
Example getFavorites_after_deleteRoom :
  fst (getFavorites (favorites_world [])) = Returned [with_id "r1" sample_room]
  /\ fst (getFavorites
            (as_user bob (snd (deleteRoom "r1" (as_user alice (favorites_world []))))))
     = Returned [].
Proof. vm_compute. split; reflexivity. Qed.

(** X21. [updateRoom] spreads the whole patch into the document, the
    [owner] field included: a patch that names another user's uid as owner
    hands the room over. From then on the former owner's [updateRoom] and
    [deleteRoom] are refused, and the new owner's [deleteRoom] succeeds. *)
Theorem updateRoom_transfers_ownership (id : string) (patch : PartialRoomData.t)
    (w : World) (u v : User) (room : RoomData.t) :
  currentUser w = Some u -> answers 4 w -> db_rooms w !! id = Some room ->
  RoomData.owner room = Some (uid u) ->
  PartialRoomData.owner patch = Some (uid v) -> uid v <> uid u ->
  exists w1,
    updateRoom id patch w = (Returned (partial_with_id id patch), w1)
    /\ fst (updateRoom id patch w1) = Thrown (Error "Not authorized to update this room")
    /\ fst (deleteRoom id w1) = Thrown (Error "Not authorized to delete this room")
    /\ fst (deleteRoom id (as_user v w1)) = Returned {| success := true |}.
Proof.
  intros Hu H Hroom Hown Hpatch Hne.
  destruct (getDoc_room_run 3 id w H) as [E1 H1].
  destruct (updateDoc_room_run 2 id (merge_room patch) (drop_fault w) room H1 Hroom)
    as [E2 H2].
  set (w1 := set_rooms (insert id (merge_room patch (clock (drop_fault w)) room))
               (drop_fault (drop_fault w))) in *.
  assert (Hroom1 : db_rooms w1 !! id = Some (merge_room patch (clock w) room))
    by apply lookup_insert_eq.
  assert (Hown1 : RoomData.owner (merge_room patch (clock w) room) = Some (uid v))
    by (cbn [RoomData.owner merge_room]; now rewrite Hpatch).
  assert (Hu1 : currentUser w1 = Some u) by exact Hu.
  destruct (getDoc_room_run 1 id w1 H2) as [E3 _].
  exists w1. split; [|split; [|split]].
  - unfold updateRoom, getCurrentUser. io. rewrite Hu. io. rewrite E1, Hroom.
    rewrite decide_True by exact Hown. now rewrite E2.
  - unfold updateRoom, getCurrentUser. io. rewrite Hu1. io. rewrite E3, Hroom1.
    rewrite decide_False; [reflexivity|]. rewrite Hown1. congruence.
  - unfold deleteRoom, getCurrentUser. io. rewrite Hu1. io. rewrite E3, Hroom1.
    rewrite decide_False; [reflexivity|]. rewrite Hown1. congruence.
  - destruct (deleteRoom_run 0 id (as_user v w1) v _ eq_refl H2 Hroom1 Hown1) as [-> _].
    reflexivity.
Qed.

Lemma updateRoom_transfers_ownership_witness :
  currentUser (sample_world (Some alice) []) = Some alice
  /\ answers 4 (sample_world (Some alice) [])
  /\ db_rooms (sample_world (Some alice) []) !! "r1" = Some sample_room
  /\ RoomData.owner sample_room = Some (uid alice)
  /\ PartialRoomData.owner takeover = Some (uid bob)
  /\ uid bob <> uid alice
  /\ exists w1,
       updateRoom "r1" takeover (sample_world (Some alice) [])
       = (Returned (partial_with_id "r1" takeover), w1)
       /\ fst (updateRoom "r1" takeover w1)
          = Thrown (Error "Not authorized to update this room")
       /\ fst (deleteRoom "r1" w1) = Thrown (Error "Not authorized to delete this room")
       /\ fst (deleteRoom "r1" (as_user bob w1)) = Returned {| success := true |}.
Proof.
  split; [reflexivity|]. split; [reflexivity|]. split; [reflexivity|]. split; [reflexivity|].
  split; [reflexivity|]. split; [discriminate|].
  apply (updateRoom_transfers_ownership "r1" takeover (sample_world (Some alice) []) alice bob
           sample_room); [reflexivity | reflexivity | reflexivity | reflexivity
                         | reflexivity | discriminate].
Defined.

End DeletingRooms.

(** ** 22. A remote call of [addReview] that the backend rejects *)

Section RejectedCalls.

(** X22. [addReview] makes three remote calls (write the review, query the
    reviews, update the room) and is not atomic. For a [roomId] such that
    [roomId] and [uid_roomId] name documents ([document_id]): when the
    backend rejects the first of the calls that it does not answer,
    [addReview] throws the backend's error and makes no further call; the
    room document is never changed, but unless the rejected call was the
    review write itself, the review document stays written, so the room's
    summary is stale. *)
Theorem addReview_rejected_call (roomId : string) (rating : JS.number) (comment : string)
    (w : World) (u : User) (n : nat) (code : string) (rest : list (option string)) :
  currentUser w = Some u -> (n < 3)%nat ->
  document_id (composite_id u roomId) = true -> document_id roomId = true ->
  faults w = replicate n None ++ Some code :: rest ->
  exists w',
    addReview roomId rating comment w = (Thrown (FirestoreError code), w')
    /\ faults w' = rest
    /\ db_rooms w' = db_rooms w
    /\ db_reviews w'
       = match n with
         | O => db_reviews w
         | S _ => <[composite_id u roomId := review_of u roomId rating comment (clock w)]>
                    (db_reviews w)
         end.
Proof.
  intros Hu Hn _ _ Hf.
  destruct n as [|[|[|n]]]; [| | |lia]; cbn [replicate app] in Hf.
  - exists (drop_fault w). split; [|repeat split; cbn [faults drop_fault]; now rewrite Hf].
    unfold addReview, getCurrentUser, setDoc_review. io. rewrite Hu. io.
    now rewrite (remote_rejects w code rest Hf).
  - assert (H : answers 1 w) by (unfold answers; now rewrite Hf).
    destruct (setDoc_review_run 0 (composite_id u roomId)
                (review_of u roomId rating comment) w H) as [E1 _].
    eexists. split.
    + unfold addReview, getCurrentUser. io. rewrite Hu. io.
      fold (review_of u roomId rating comment). rewrite E1. unfold updateRoomRating. io.
      rewrite (getDocs_reviews_rejects roomId _ code rest);
        [reflexivity|cbn [faults set_reviews drop_fault]; now rewrite Hf].
    + cbn [faults db_rooms db_reviews set_reviews drop_fault]. rewrite Hf. repeat split.
  - assert (H : answers 2 w) by (unfold answers; now rewrite Hf).
    destruct (setDoc_review_run 1 (composite_id u roomId)
                (review_of u roomId rating comment) w H) as [E1 H1].
    destruct (getDocs_reviews_run 0 roomId _ H1) as [E2 _].
    eexists. split.
    + unfold addReview, getCurrentUser. io. rewrite Hu. io.
      fold (review_of u roomId rating comment). rewrite E1. unfold updateRoomRating. io.
      rewrite E2. destruct (summary _) as [r c]. unfold updateDoc_room. io.
      rewrite (remote_rejects _ code rest);
        [reflexivity|cbn [faults set_reviews drop_fault]; now rewrite Hf].
    + cbn [faults db_rooms db_reviews set_reviews drop_fault]. rewrite Hf. repeat split.
Qed.

Lemma addReview_rejected_call_witness :
  currentUser (sample_world (Some bob) [None; None; Some "unavailable"]) = Some bob
  /\ (2 < 3)%nat
  /\ document_id (composite_id bob "r1") = true
  /\ document_id "r1" = true
  /\ faults (sample_world (Some bob) [None; None; Some "unavailable"])
     = replicate 2 None ++ Some "unavailable" :: []
  /\ exists w',
       addReview "r1" (JS.of_int 4) "fine"
         (sample_world (Some bob) [None; None; Some "unavailable"])
       = (Thrown (FirestoreError "unavailable"), w')
       /\ faults w' = []
       /\ db_rooms w' = db_rooms (sample_world (Some bob) [None; None; Some "unavailable"])
       /\ db_reviews w'
          = <[composite_id bob "r1"
              := review_of bob "r1" (JS.of_int 4) "fine"
                   (clock (sample_world (Some bob) [None; None; Some "unavailable"]))]>
              (db_reviews (sample_world (Some bob) [None; None; Some "unavailable"])).
Proof.
  split; [reflexivity|]. split; [lia|]. split; [reflexivity|]. split; [reflexivity|].
  split; [reflexivity|].
  apply (addReview_rejected_call "r1" (JS.of_int 4) "fine"
           (sample_world (Some bob) [None; None; Some "unavailable"]) bob 2 "unavailable" []);
    [reflexivity | lia | reflexivity | reflexivity | reflexivity].
Defined.

End RejectedCalls.
